(** * binapi-generator: the binding generator of GoVPP, [generate.go]

    A shallow embedding of [cmd/binapi-generator/generate.go] and the
    properties of the field encoding planner, the message role classifier,
    the documentation extractor and the service method synthesizer.

    Go strings are byte strings: they are modelled by [string] (a list of
    8-bit characters).  Go's [int] values are modelled by [Z]; the generator
    only compares and prints them.  Text written with [fmt.Fprintf] goes
    through an abstract [io.Writer]. *)

From Stdlib Require Import String Ascii List ZArith Lia Bool DecimalString.
Import ListNotations.

Local Open Scope list_scope.
Local Open Scope string_scope.

(** ** Characters that cannot be typed inside a literal *)

Definition nl : string := String (ascii_of_nat 10) "".
Definition tab : string := String (ascii_of_nat 9) "".
Definition dq : string := String (ascii_of_nat 34) "".

(** ** The parts of Go's [strings], [fmt] and [sort] packages used by the generator *)

(** [stripPrefix s p] is the rest of [s] after [p] when [s] starts with [p]. *)
Fixpoint stripPrefix (s p : string) : option string :=
  match p, s with
  | EmptyString, _ => Some s
  | String a p', String b s' => if Ascii.eqb a b then stripPrefix s' p' else None
  | String _ _, EmptyString => None
  end.

(** [strings.HasPrefix] *)
Definition HasPrefix (s p : string) : bool :=
  match stripPrefix s p with Some _ => true | None => false end.

(** [strings.TrimPrefix]: [s] without the leading [p]; [s] itself when it does
    not start with [p]. *)
Definition TrimPrefix (s p : string) : string :=
  match stripPrefix s p with Some r => r | None => s end.

(** [stripSuffix s suf] is the front of [s] before [suf] when [s] ends with [suf]. *)
Fixpoint stripSuffix (s suf : string) : option string :=
  if (s =? suf)%string then Some ""
  else match s with
       | EmptyString => None
       | String c s' => option_map (String c) (stripSuffix s' suf)
       end.

(** [strings.HasSuffix] *)
Definition HasSuffix (s suf : string) : bool :=
  match stripSuffix s suf with Some _ => true | None => false end.

(** [strings.TrimSuffix] *)
Definition TrimSuffix (s suf : string) : string :=
  match stripSuffix s suf with Some r => r | None => s end.

(** [strings.Index]: the byte index of the first occurrence of [sub] in [s],
    [-1] when there is none. *)
Fixpoint Index (s sub : string) : Z :=
  if HasPrefix s sub then 0%Z
  else match s with
       | EmptyString => (-1)%Z
       | String _ s' => let r := Index s' sub in
                        if (r <? 0)%Z then (-1)%Z else (r + 1)%Z
       end.

(** The slice [s[:n]]. *)
Definition sliceTo (s : string) (n : Z) : string := substring 0 (Z.to_nat n) s.

(** The verb [%d] on an [int]. *)
Definition fmt_d (z : Z) : string := NilEmpty.string_of_int (Z.to_int z).

(** Left padding with blanks, as a width in a verb does. *)
Fixpoint blanks (n : nat) : string :=
  match n with O => "" | S n' => " " ++ blanks n' end.

(** The verb [%3d] on an [int]. *)
Definition fmt_3d (z : Z) : string :=
  let s := fmt_d z in blanks (3 - String.length s) ++ s.

(** [sort.Strings]: byte-wise lexicographic order, by insertion. *)
Fixpoint insertString (k : string) (l : list string) : list string :=
  match l with
  | [] => [k]
  | k' :: l' => if String.leb k k' then k :: l else k' :: insertString k l'
  end.

Definition sortStrings (l : list string) : list string :=
  fold_right insertString [] l.

(** ** Go maps from strings to strings

    [fieldTags] in [generateField] is a [map[string]string]; it is modelled by
    an association list without duplicate keys.  Reading a missing key gives
    the zero value, the empty string. *)

Definition StringMap := list (string * string).

Fixpoint mapSet (k v : string) (m : StringMap) : StringMap :=
  match m with
  | [] => [(k, v)]
  | (k', v') :: m' => if (k =? k')%string then (k, v) :: m' else (k', v') :: mapSet k v m'
  end.

Fixpoint mapLookup (k : string) (m : StringMap) : option string :=
  match m with
  | [] => None
  | (k', v') :: m' => if (k =? k')%string then Some v' else mapLookup k m'
  end.

Definition mapGet (k : string) (m : StringMap) : string :=
  match mapLookup k m with Some v => v | None => "" end.

Definition mapKeys (m : StringMap) : list string := map fst m.

(** ** The schema model

    Modelled from the spec: the declarations of [Package], [Enum], [Alias],
    [Type], [Union], [Message], [Service], [Field] and [MessageType] are in
    files of the generator that are not part of the source at hand; the
    records below carry the attributes that section 3 of the specification
    lists and that [generate.go] reads. *)

Module FieldMeta.
Record t := mk { Limit : Z }.
End FieldMeta.

Module Field.
Record t := mk {
  Name : string;
  Typ : string;
  Length : Z;
  SizeFrom : string;
  Meta : FieldMeta.t
}.
End Field.

Module Alias.
Record t := mk { Name : string; Typ : string; Length : Z }.
End Alias.

Module Typ.
Record t := mk { Name : string; CRC : string; Fields : list Field.t }.
End Typ.

Module Union.
Record t := mk { Name : string; CRC : string; Fields : list Field.t }.
End Union.

Module Message.
Record t := mk { Name : string; CRC : string; Fields : list Field.t }.
End Message.

Module Service.
Record t := mk { RequestType : string; ReplyType : string; Stream : bool }.
End Service.

(** The four message roles. *)
Inductive MessageType : Type :=
  | requestMessage
  | replyMessage
  | eventMessage
  | otherMessage.

Definition MessageType_eqb (a b : MessageType) : bool :=
  match a, b with
  | requestMessage, requestMessage => true
  | replyMessage, replyMessage => true
  | eventMessage, eventMessage => true
  | otherMessage, otherMessage => true
  | _, _ => false
  end.

(** Go's [error] values. *)
Definition error := string.

Module EnumEntry.
Record t (V : Type) := mk { Name : string; Value : V }.
Arguments mk {V}.
Arguments Name {V}.
Arguments Value {V}.
End EnumEntry.

Module Enum.
Record t (V : Type) := mk {
  Name : string;
  Typ : string;
  Entries : list (EnumEntry.t V)
}.
Arguments mk {V}.
Arguments Name {V}.
Arguments Typ {V}.
Arguments Entries {V}.
End Enum.

Module Package.
Record t (V : Type) := mk {
  Version : string;
  CRC : string;
  Enums : list (Enum.t V);
  Aliases : list Alias.t;
  Types : list Typ.t;
  Unions : list Union.t;
  Messages : list Message.t;
  Services : list Service.t
}.
Arguments mk {V}.
Arguments Version {V}.
Arguments CRC {V}.
Arguments Enums {V}.
Arguments Aliases {V}.
Arguments Types {V}.
Arguments Unions {V}.
Arguments Messages {V}.
Arguments Services {V}.
End Package.

(** ** Constants of [generate.go] *)

Definition generatedCodeVersion : Z := 1.

Definition inputFileExt : string := ".api.json".
Definition outputFileExt : string := ".ba.go".

Definition govppApiImportPath : string := "git.fd.io/govpp.git/api".

Definition constModuleName : string := "ModuleName".
Definition constAPIVersion : string := "APIVersion".
Definition constVersionCrc : string := "VersionCrc".

Definition unionDataField : string := "XXX_UnionData".

(** [context] stores the data of one code generation task.  [V] is the type of
    the values held by enum entries (an [interface{}] in the source). *)
Record context (V : Type) := mkContext {
  inputFile : string;
  outputFile : string;
  inputData : string;
  includeAPIVersion : bool;
  includeComments : bool;
  includeBinapiNames : bool;
  includeServices : bool;
  moduleName : string;
  packageName : string;
  packageData : Package.t V
}.
Arguments mkContext {V}.
Arguments inputFile {V}.
Arguments outputFile {V}.
Arguments inputData {V}.
Arguments includeAPIVersion {V}.
Arguments includeComments {V}.
Arguments includeBinapiNames {V}.
Arguments includeServices {V}.
Arguments moduleName {V}.
Arguments packageName {V}.
Arguments packageData {V}.

(** ** Writers

    [io.Writer] is an interface with one method, [Write], which returns the
    new state of the stream and possibly an error.  [fmt.Fprintf] and
    [fmt.Fprintln] format their operands and pass the text to [Write] in one
    call; the generator uses them as statements, so whatever [Write] reports
    is dropped at every call site. *)

Class Writer (W : Type) := Write : W -> string -> W * option error.

(** [bytes.Buffer] as a writer: every write is appended and none fails. *)
#[export] Instance bufferWriter : Writer string := fun w s => (w ++ s, None).

(** A stream with [room] bytes left, the kind of stream on which a write can
    fail: a chunk that fits is accepted, any other is refused with an error.
    [calls] counts the calls of [Write]. *)
Record LimitedStream := mkLimited {
  accepted : string;
  room : nat;
  calls : nat
}.

#[export] Instance limitedWriter : Writer LimitedStream := fun w s =>
  if Nat.leb (String.length s) (room w)
  then (mkLimited (accepted w ++ s) (room w - String.length s) (S (calls w)), None)
  else (mkLimited (accepted w) (room w) (S (calls w)), Some "short write").

(** ** Go's library functions on ASCII text

    On text made of ASCII bytes the Unicode-aware functions of [strings] and
    [strconv] work byte by byte.  These definitions are used to run the
    generator on sample inputs. *)

Definition asciiLowerByte (c : ascii) : ascii :=
  let n := nat_of_ascii c in
  if Nat.leb 65 n && Nat.leb n 90 then ascii_of_nat (n + 32) else c.

Fixpoint asciiToLower (s : string) : string :=
  match s with
  | EmptyString => EmptyString
  | String c s' => String (asciiLowerByte c) (asciiToLower s')
  end.

Definition asciiIsSpace (c : ascii) : bool :=
  let n := nat_of_ascii c in
  (Nat.leb 9 n && Nat.leb n 13) || Nat.eqb n 32.

Fixpoint asciiIndexNotSpace (s : string) : Z :=
  match s with
  | EmptyString => (-1)%Z
  | String c s' =>
      if asciiIsSpace c then
        let r := asciiIndexNotSpace s' in
        if (r <? 0)%Z then (-1)%Z else (r + 1)%Z
      else 0%Z
  end.

Fixpoint asciiTrimLeft (s : string) : string :=
  match s with
  | EmptyString => EmptyString
  | String c s' => if asciiIsSpace c then asciiTrimLeft s' else s
  end.

Fixpoint asciiTrimRight (s : string) : string :=
  match s with
  | EmptyString => EmptyString
  | String c s' =>
      match asciiTrimRight s' with
      | EmptyString => if asciiIsSpace c then EmptyString else String c EmptyString
      | r => String c r
      end
  end.

Definition asciiTrimSpace (s : string) : string := asciiTrimRight (asciiTrimLeft s).

Definition hexDigit (n : nat) : ascii :=
  if Nat.ltb n 10 then ascii_of_nat (48 + n) else ascii_of_nat (87 + n).

(** [strconv.Quote] on one ASCII byte. *)
Definition asciiQuoteByte (c : ascii) : string :=
  let n := nat_of_ascii c in
  if Nat.eqb n 34 then "\" ++ dq
  else if Nat.eqb n 92 then "\\"
  else if Nat.eqb n 7 then "\a"
  else if Nat.eqb n 8 then "\b"
  else if Nat.eqb n 12 then "\f"
  else if Nat.eqb n 10 then "\n"
  else if Nat.eqb n 13 then "\r"
  else if Nat.eqb n 9 then "\t"
  else if Nat.eqb n 11 then "\v"
  else if Nat.ltb n 32 || Nat.eqb n 127
       then "\x" ++ String (hexDigit (n / 16)) (String (hexDigit (n mod 16)) "")
  else String c "".

Fixpoint asciiQuoteBody (s : string) : string :=
  match s with
  | EmptyString => EmptyString
  | String c s' => asciiQuoteByte c ++ asciiQuoteBody s'
  end.

Definition asciiQuote (s : string) : string := dq ++ asciiQuoteBody s ++ dq.

(** ** Stand-ins for the generator's other files

    Modelled from the spec: [camelCaseName], [convertToGoType], [binapiTypes],
    [getUnionSize] and the reserved field names are declared in files of the
    generator that are not part of the source at hand.  Section 4.1 of the
    specification describes the normalizer (leading uppercase, no
    separators); the comments of [generateMessage] give the names
    [client_index] and [context].  The properties below are proved for any
    such functions and names; these stand-ins only serve to run the
    generator on sample inputs. *)

Definition asciiUpperByte (c : ascii) : ascii :=
  let n := nat_of_ascii c in
  if Nat.leb 97 n && Nat.leb n 122 then ascii_of_nat (n - 32) else c.

Fixpoint camelCaseWords (up : bool) (s : string) : string :=
  match s with
  | EmptyString => EmptyString
  | String c s' =>
      if Ascii.eqb c "_"%char then camelCaseWords true s'
      else String (if up then asciiUpperByte c else c) (camelCaseWords false s')
  end.

Definition camelCaseModel (name : string) : string := camelCaseWords true name.

Definition binapiTypesModel (t : string) : string :=
  if (t =? "u8")%string then "uint8"
  else if (t =? "u16")%string then "uint16"
  else if (t =? "u32")%string then "uint32"
  else if (t =? "u64")%string then "uint64"
  else if (t =? "i32")%string then "int32"
  else if (t =? "string")%string then "string"
  else "".

Definition convertToGoTypeModel (ctx : context Z) (binapiType : string) : string :=
  let t := binapiTypesModel binapiType in
  if (t =? "")%string then camelCaseModel binapiType else t.

Definition getUnionSizeModel (ctx : context Z) (union : Union.t) : Z := 16.

Definition crcFieldModel : string := "crc".
Definition msgIdFieldModel : string := "_vl_msg_id".
Definition clientIndexFieldModel : string := "client_index".
Definition contextFieldModel : string := "context".

(** ** Sample schemas *)

Definition sampleField (name typ : string) (length : Z) (sizeFrom : string) : Field.t :=
  Field.mk name typ length sizeFrom (FieldMeta.mk 0).

(** A length carrier and the array that names it in its size-from reference. *)
Definition countField : Field.t := sampleField "count" "u32" 0 "".
Definition entriesField : Field.t := sampleField "entries" "u8" 0 "count".

(** A text field and a fixed array of bytes. *)
Definition nameField : Field.t := sampleField "name" "string" 0 "".
Definition dataField : Field.t := sampleField "data" "u8" 16 "".

(** The fields that open a message. *)
Definition msgIdSample : Field.t := sampleField "_vl_msg_id" "u16" 0 "".
Definition clientIndexSample : Field.t := sampleField "client_index" "u32" 0 "".
Definition contextSample : Field.t := sampleField "context" "u32" 0 "".
Definition fooSample : Field.t := sampleField "foo" "u32" 0 "".

(** A request, and a message whose context comes after an ordinary field. *)
Definition requestSample : Message.t :=
  Message.mk "show_version" "0x51077d14" [msgIdSample; clientIndexSample; contextSample].

Definition lateContextSample : Message.t :=
  Message.mk "foo_details" "0x51077d14" [msgIdSample; fooSample; contextSample].

Definition dumpServiceSample : Service.t :=
  Service.mk "sw_interface_dump" "sw_interface_details" true.

Definition samplePackage : Package.t Z :=
  Package.mk "1.0.0" "0x8d1b0d4e" [] [] [] [] [lateContextSample] [].

Definition sampleCtx : context Z :=
  mkContext "vpe.api.json" "vpe/vpe.ba.go" "" false false false false "vpe" "vpe" samplePackage.

(** A schema text in which the definition of the alias [foo] is closed on its
    last line, so that the next line is indented less than the title. *)
Definition compactAliasText : string :=
  "{" ++ nl
  ++ "    " ++ dq ++ "aliases" ++ dq ++ ": {" ++ nl
  ++ "        " ++ dq ++ "foo" ++ dq ++ ": {" ++ nl
  ++ "            " ++ dq ++ "type" ++ dq ++ ": " ++ dq ++ "u8" ++ dq ++ " }" ++ nl
  ++ "    }," ++ nl
  ++ "    " ++ dq ++ "enums" ++ dq ++ ": []" ++ nl
  ++ "}" ++ nl.

Definition compactAliasCtx : context Z :=
  mkContext "vpe.api.json" "vpe/vpe.ba.go" compactAliasText
            false true false false "vpe" "vpe" samplePackage.

(** The lines of the definition of an alias as the schema files are usually
    laid out: the closing line is indented as the title. *)
Definition aliasTitleLine : string := "        " ++ dq ++ "foo" ++ dq ++ ": {" ++ nl.
Definition aliasBodyLine : string :=
  "            " ++ dq ++ "type" ++ dq ++ ": " ++ dq ++ "u8" ++ dq ++ nl.
Definition aliasClosingLine : string := "        }," ++ nl.
Definition aliasNextLine : string := "        " ++ dq ++ "bar" ++ dq ++ ": {" ++ nl.

(** [filepath.Base] on Unix paths and [filepath.Join] on clean Unix paths,
    to run [getContext] on sample inputs. *)
Fixpoint trimTrailingSlashes (s : string) : string :=
  match s with
  | EmptyString => EmptyString
  | String c s' =>
      match trimTrailingSlashes s' with
      | EmptyString => if Ascii.eqb c "/"%char then EmptyString else String c EmptyString
      | r => String c r
      end
  end.

Fixpoint lastElement (s : string) : string :=
  match s with
  | EmptyString => EmptyString
  | String c s' =>
      if (Index s' "/" <? 0)%Z
      then (if Ascii.eqb c "/"%char then s' else s)
      else lastElement s'
  end.

Definition unixBase (path : string) : string :=
  if (path =? "")%string then "."
  else
    let element := lastElement (trimTrailingSlashes path) in
    if (element =? "")%string then "/" else element.

Definition unixJoin (dir name : string) : string :=
  if (dir =? "")%string then name
  else if (name =? "")%string then dir
  else dir ++ "/" ++ name.


(** More sample inputs: a field with a limit, a context that includes the
    original names, a message whose second field is spelled with capitals, a
    type, a streaming service without reply type, and paths of input files. *)
Definition limitedField : Field.t := Field.mk "tag" "u8" 64 "" (FieldMeta.mk 64).
Definition limitedScalarField : Field.t := Field.mk "tag" "u8" 0 "" (FieldMeta.mk 64).

Definition namesCtx : context Z :=
  mkContext "vpe.api.json" "vpe/vpe.ba.go" "" false false true false "vpe" "vpe" samplePackage.

Definition capitalSample : Field.t := sampleField "Client_Index" "u32" 0 "".

(** A message of one field, and a message that opens with the message id
    followed by the field spelled with capitals. *)
Definition pingSample : Message.t := Message.mk "ping" "0x1a2b3c4d" [msgIdSample].

Definition capitalMessageSample : Message.t :=
  Message.mk "capital" "0x1a2b3c4d" [msgIdSample; capitalSample; fooSample].

Definition typeSample : Typ.t :=
  Typ.mk "punt_reason" "0x1234abcd"
         [contextSample; sampleField "crc" "u32" 0 ""; dataField].

Definition streamNoReplySample : Service.t := Service.mk "foo_dump" "" true.

Definition samplePath : string := "/usr/share/vpp/api/core/vpe.api.json".
Definition interfacePath : string := "/usr/share/vpp/api/core/interface.api.json".

Definition vpeContext : context Z :=
  mkContext samplePath "binapi/vpe/vpe.ba.go" "" false false false false "vpe" "vpe"
            (Package.mk "" "" [] [] [] [] [] []).

Definition interfaceContext : context Z :=
  mkContext interfacePath "binapi/interfaces/interfaces.ba.go" "" false false false false
            "interface" "interfaces" (Package.mk "" "" [] [] [] [] [] []).

(** Lines of a schema text in which the name [foo] of a message is also the
    name of a field of another message. *)
Definition fieldMentionLine : string :=
  "                [" ++ dq ++ "u32" ++ dq ++ ", " ++ dq ++ "foo" ++ dq ++ ", 2]," ++ nl.
Definition otherLine : string := "            " ++ dq ++ "bar" ++ dq ++ "," ++ nl.


(** ** The generator *)

Section Generator.

Context {W : Type} `{Writer W}.

(** A generator step either updates the stream or panics ([None]); the only
    panic of [generate.go] is an index out of range in [generateField]. *)
Definition Gen := W -> option W.

Definition skip : Gen := fun w => Some w.

Definition panic : Gen := fun _ => None.

Definition seq (g1 g2 : Gen) : Gen :=
  fun w => match g1 w with Some w' => g2 w' | None => None end.

Notation "g1 ;; g2" := (seq g1 g2) (at level 61, right associativity).

Definition when (b : bool) (g : Gen) : Gen := if b then g else skip.

(** [fmt.Fprintf(w, ...)] with its operands already formatted into [s]. *)
Definition Fprintf (s : string) : Gen := fun w => Some (fst (Write w s)).

(** [fmt.Fprintln(w, ...)]: the operands and a newline, in one write. *)
Definition Fprintln (s : string) : Gen := Fprintf (s ++ nl).

(** [for _, x := range l { f x }] *)
Fixpoint forEach {A : Type} (f : A -> Gen) (l : list A) : Gen :=
  match l with
  | [] => skip
  | x :: l' => f x ;; forEach f l'
  end.

(** [writes cs w]: the stream after the chunks [cs] have been passed to
    [Write] one after the other, whatever each call reported. *)
Definition writes (cs : list string) (w : W) : W :=
  fold_left (fun w s => fst (Write w s)) cs w.

(** ** What the generator takes from the rest of the program *)

Variable V : Type.

(** The verb [%v] on the value of an enum entry. *)
Variable fmt_v : V -> string.

(** The verb [%q]: Go's [strconv.Quote]. *)
Variable fmt_q : string -> string.

(** [strings.ToLower], [strings.TrimSpace] and
    [strings.IndexFunc(line, isNotSpace)], which follow the Unicode tables. *)
Variable ToLower : string -> string.
Variable TrimSpace : string -> string.
Variable IndexNotSpace : string -> Z.

(** Declared in the generator's other files: the identifier normalizer, the
    type conversion, the table of basic types (a lookup that gives the empty
    string for a missing key) and the union size oracle. *)
Variable camelCaseName : string -> string.
Variable convertToGoType : context V -> string -> string.
Variable binapiTypes : string -> string.
Variable getUnionSize : context V -> Union.t -> Z.

(** The reserved field names, declared with the schema model. *)
Variable crcField : string.
Variable msgIdField : string.
Variable clientIndexField : string.
Variable contextField : string.

(** [filepath.Base] and [filepath.Join], of Go's library. *)
Variable Base : string -> string.
Variable Join : string -> string -> string.

(** ** [generateField] *)

(** The loop over the sorted keys of [fieldTags]; [n] counts the tags written. *)
Fixpoint generateFieldTagLoop (fieldTags : StringMap) (keys : list string) (n : Z) : Gen :=
  match keys with
  | [] => skip
  | key :: keys' =>
      match mapLookup key fieldTags with
      | None => generateFieldTagLoop fieldTags keys' n
      | Some t =>
          when (0 <? n)%Z (Fprintf " ") ;;
          Fprintf (key ++ ":" ++ dq ++ t ++ dq) ;;
          generateFieldTagLoop fieldTags keys' (n + 1)%Z
      end
  end.

(** The loop [for _, f := range fields] that looks for the siblings whose
    size-from names [field]. *)
Definition sizeOfLoop (fields : list Field.t) (field : Field.t) (fieldTags : StringMap) : StringMap :=
  fold_left
    (fun tags f =>
       if (Field.SizeFrom f =? Field.Name field)%string
       then mapSet "struc" ("sizeof=" ++ camelCaseName (Field.Name f)) tags
       else tags)
    fields fieldTags.

(** [generateField] writes the code of the field [fields[i]]. *)
Definition generateField (ctx : context V) (fields : list Field.t) (i : nat) : Gen :=
  match nth_error fields i with
  | None => panic
  | Some field =>
      let fieldName := TrimPrefix (Field.Name field) "_" in
      let fieldName := camelCaseName fieldName in
      when (Field.Typ field =? "string")%string
        (Fprintf (tab ++ "XXX_" ++ fieldName ++ "Len uint32 `struc:" ++ dq
                  ++ "sizeof=" ++ fieldName ++ dq ++ "`" ++ nl)) ;;
      let dataType := convertToGoType ctx (Field.Typ field) in
      let fieldType := dataType in
      let '(dataType, fieldType) :=
        if (0 <? Field.Length field)%Z || negb (Field.SizeFrom field =? "")%string then
          let dataType := if (dataType =? "uint8")%string then "byte" else dataType in
          (dataType, "[]" ++ dataType)
        else (dataType, fieldType) in
      Fprintf (tab ++ fieldName ++ " " ++ fieldType) ;;
      let fieldTags : StringMap := [] in
      let fieldTags :=
        if (0 <? Field.Length field)%Z
        then mapSet "struc" ("[" ++ fmt_d (Field.Length field) ++ "]" ++ dataType) fieldTags
        else sizeOfLoop fields field fieldTags in
      let fieldTags :=
        if includeBinapiNames ctx then mapSet "binapi" (Field.Name field) fieldTags
        else fieldTags in
      let fieldTags :=
        if (0 <? FieldMeta.Limit (Field.Meta field))%Z
        then mapSet "binapi"
               (mapGet "binapi" fieldTags ++ ",limit="
                ++ fmt_d (FieldMeta.Limit (Field.Meta field)))
               fieldTags
        else fieldTags in
      when (0 <? Z.of_nat (List.length fieldTags))%Z
        (Fprintf (tab ++ "`") ;;
         let keys := sortStrings (mapKeys fieldTags) in
         generateFieldTagLoop fieldTags keys 0 ;;
         Fprintf "`") ;;
      Fprintln ""
  end.

(** ** Getters *)

(** [generateMessageNameGetter] writes the getter of the original message name. *)
Definition generateMessageNameGetter (structName msgName : string) : Gen :=
  Fprintf ("func (*" ++ structName ++ ") GetMessageName() string {" ++ nl
           ++ tab ++ "return " ++ fmt_q msgName ++ nl
           ++ "}" ++ nl).

(** [generateTypeNameGetter] writes the getter of the original type name. *)
Definition generateTypeNameGetter (structName msgName : string) : Gen :=
  Fprintf ("func (*" ++ structName ++ ") GetTypeName() string {" ++ nl
           ++ tab ++ "return " ++ fmt_q msgName ++ nl
           ++ "}" ++ nl).

(** [generateCrcGetter] writes the getter of the CRC checksum of a definition. *)
Definition generateCrcGetter (structName crc : string) : Gen :=
  let crc := TrimPrefix crc "0x" in
  Fprintf ("func (*" ++ structName ++ ") GetCrcString() string {" ++ nl
           ++ tab ++ "return " ++ fmt_q crc ++ nl
           ++ "}" ++ nl).

(** [generateMessageTypeGetter] writes the getter of the message role. *)
Definition generateMessageTypeGetter (structName : string) (msgType : MessageType) : Gen :=
  Fprintln ("func (*" ++ structName ++ ") GetMessageType() api.MessageType {") ;;
  (if MessageType_eqb msgType requestMessage then
     Fprintln (tab ++ "return api.RequestMessage")
   else if MessageType_eqb msgType replyMessage then
     Fprintln (tab ++ "return api.ReplyMessage")
   else if MessageType_eqb msgType eventMessage then
     Fprintln (tab ++ "return api.EventMessage")
   else
     Fprintln (tab ++ "return api.OtherMessage")) ;;
  Fprintln "}".

(** ** [generateComment] *)

(** [bytes.Buffer.ReadString('\n')]: the bytes up to and including the first
    newline, and what is left of the buffer; [None] stands for the error
    returned when the buffer ends before a newline. *)
Fixpoint ReadString (buf : string) : option (string * string) :=
  match buf with
  | EmptyString => None
  | String c rest =>
      if Ascii.eqb c (ascii_of_nat 10) then Some (String c "", rest)
      else match ReadString rest with
           | Some (line, rest') => Some (String c line, rest')
           | None => None
           end
  end.

(** The lines that successive calls of [ReadString] return before the first
    error; [cur] holds the bytes of the current line read so far, last first. *)
Fixpoint readLinesFrom (cur : list ascii) (buf : string) : list string :=
  match buf with
  | EmptyString => []
  | String c rest =>
      if Ascii.eqb c (ascii_of_nat 10)
      then string_of_list_ascii (rev (c :: cur)) :: readLinesFrom [] rest
      else readLinesFrom (c :: cur) rest
  end.

Definition readLines (buf : string) : list string := readLinesFrom [] buf.

(** The body of the [for] loop of [generateComment], one line per iteration.
    [objFound], [indent] and [trimIndent] are the variables of that name. *)
Fixpoint generateCommentLoop (mapType : bool) (objTitle : string) (lines : list string)
    (objFound : bool) (indent : Z) (trimIndent : string) : Gen :=
  match lines with
  | [] => skip
  | line :: lines' =>
      let noSpaceAt := IndexNotSpace line in
      if negb objFound then
        let indent := Index line objTitle in
        if (indent =? -1)%Z then
          generateCommentLoop mapType objTitle lines' objFound indent trimIndent
        else
          let trimIndent := sliceTo line indent in
          if (TrimSpace line =? objTitle)%string then
            Fprintln "//" ;;
            Fprintf ("//" ++ tab ++ TrimPrefix line trimIndent) ;;
            generateCommentLoop mapType objTitle lines' true indent trimIndent
          else
            Fprintf ("//" ++ tab ++ TrimPrefix line trimIndent) ;;
            generateCommentLoop mapType objTitle lines' objFound indent trimIndent
      else if (noSpaceAt <? indent)%Z then
        skip
      else if objFound && mapType && (noSpaceAt <=? indent)%Z then
        Fprintf ("//" ++ tab ++ TrimPrefix line trimIndent)
      else
        Fprintf ("//" ++ tab ++ TrimPrefix line trimIndent) ;;
        generateCommentLoop mapType objTitle lines' objFound indent trimIndent
  end.

(** [generateComment] writes the comment of an object. *)
Definition generateComment (ctx : context V) (goName vppName objKind : string) : Gen :=
  (if (objKind =? "service")%string then
     Fprintf ("// " ++ goName ++ " represents VPP binary API services in "
              ++ moduleName ctx ++ " module." ++ nl)
   else
     Fprintf ("// " ++ goName ++ " represents VPP binary API " ++ objKind
              ++ " '" ++ vppName ++ "':" ++ nl)) ;;
  if negb (includeComments ctx) then skip
  else
    let mapType := false in
    let objFound := false in
    let objTitle := dq ++ vppName ++ dq ++ "," in
    let '(objTitle, mapType) :=
      if (objKind =? "alias")%string || (objKind =? "service")%string
      then (dq ++ vppName ++ dq ++ ": {", true)
      else (objTitle, mapType) in
    generateCommentLoop mapType objTitle (readLines (inputData ctx)) objFound 0 "" ;;
    Fprintln "//".

(** ** Services *)

(** [generateServiceMethod] writes the signature of the method of a service. *)
Definition generateServiceMethod (ctx : context V) (svc : Service.t) : Gen :=
  let reqTyp := camelCaseName (Service.RequestType svc) in
  let method := reqTyp in
  let method :=
    if Service.Stream svc then
      let m := TrimSuffix method "Dump" in
      if negb (method =? m)%string then "Dump" ++ m else method
    else method in
  let params := "in *" ++ reqTyp in
  let returns := "error" in
  let returns :=
    let replyType := camelCaseName (Service.ReplyType svc) in
    if negb (replyType =? "")%string then
      let replyTyp := "*" ++ replyType in
      let replyTyp := if Service.Stream svc then "[]" ++ replyTyp else replyTyp in
      "(" ++ replyTyp ++ ", error)"
    else returns in
  Fprintf (tab ++ method ++ "(ctx context.Context, " ++ params ++ ") " ++ returns).

(** [generateServices] writes the [Service] interface and its client. *)
Definition generateServices (ctx : context V) (services : list Service.t) : Gen :=
  let apiName := "Service" in
  let implName := "service" in
  generateComment ctx apiName "services" "service" ;;
  Fprintf ("type " ++ apiName ++ " interface {" ++ nl) ;;
  forEach (fun svc => generateServiceMethod ctx svc ;; Fprintln "") services ;;
  Fprintln "}" ;;
  Fprintln "" ;;
  Fprintf ("type " ++ implName ++ " struct {" ++ nl) ;;
  Fprintf (tab ++ "ch api.Channel" ++ nl) ;;
  Fprintln "}" ;;
  Fprintln "" ;;
  Fprintf ("func New" ++ apiName ++ "(ch api.Channel) " ++ apiName ++ " {" ++ nl) ;;
  Fprintf (tab ++ "return &" ++ implName ++ "{ch}" ++ nl) ;;
  Fprintln "}" ;;
  Fprintln "" ;;
  forEach (fun svc =>
             Fprintf ("func (c *" ++ implName ++ ") ") ;;
             generateServiceMethod ctx svc ;;
             Fprintln " {" ;;
             (if Service.Stream svc then
                let replyTyp := camelCaseName (Service.ReplyType svc) in
                Fprintf (tab ++ "var dump []*" ++ replyTyp ++ nl) ;;
                Fprintf (tab ++ "req := c.ch.SendMultiRequest(in)" ++ nl) ;;
                Fprintf (tab ++ "for {" ++ nl) ;;
                Fprintf (tab ++ "m := new(" ++ replyTyp ++ ")" ++ nl) ;;
                Fprintf (tab ++ "stop, err := req.ReceiveReply(m)" ++ nl) ;;
                Fprintf (tab ++ "if stop { break }" ++ nl) ;;
                Fprintf (tab ++ "if err != nil { return nil, err }" ++ nl) ;;
                Fprintf (tab ++ "dump = append(dump, m)" ++ nl) ;;
                Fprintln "}" ;;
                Fprintf (tab ++ "return dump, nil" ++ nl)
              else
                let replyTyp := camelCaseName (Service.ReplyType svc) in
                if negb (replyTyp =? "")%string then
                  Fprintf (tab ++ "out := new(" ++ replyTyp ++ ")" ++ nl) ;;
                  Fprintf (tab ++ "err:= c.ch.SendRequest(in).ReceiveReply(out)" ++ nl) ;;
                  Fprintf (tab ++ "if err != nil { return nil, err }" ++ nl) ;;
                  Fprintf (tab ++ "return out, nil" ++ nl)
                else
                  Fprintf (tab ++ "c.ch.SendRequest(in)" ++ nl) ;;
                  Fprintf (tab ++ "return nil" ++ nl)) ;;
             Fprintln "}" ;;
             Fprintln "") services ;;
  Fprintln "".

(** ** Enums, aliases and unions *)

(** [generateEnum] writes the code of an enum. *)
Definition generateEnum (ctx : context V) (enum : Enum.t V) : Gen :=
  let name := camelCaseName (Enum.Name enum) in
  let typ := binapiTypes (Enum.Typ enum) in
  generateComment ctx name (Enum.Name enum) "enum" ;;
  Fprintf ("type " ++ name ++ " " ++ typ ++ nl) ;;
  Fprintln "" ;;
  Fprintln "const (" ;;
  forEach (fun entry =>
             Fprintf (tab ++ EnumEntry.Name entry ++ " " ++ name ++ " = "
                      ++ fmt_v (EnumEntry.Value entry) ++ nl))
          (Enum.Entries enum) ;;
  Fprintln ")" ;;
  Fprintln "" ;;
  Fprintf ("var " ++ name ++ "_name = map[" ++ typ ++ "]string{" ++ nl) ;;
  forEach (fun entry =>
             Fprintf (tab ++ fmt_v (EnumEntry.Value entry) ++ ": " ++ dq
                      ++ EnumEntry.Name entry ++ dq ++ "," ++ nl))
          (Enum.Entries enum) ;;
  Fprintln "}" ;;
  Fprintln "" ;;
  Fprintf ("var " ++ name ++ "_value = map[string]" ++ typ ++ "{" ++ nl) ;;
  forEach (fun entry =>
             Fprintf (tab ++ dq ++ EnumEntry.Name entry ++ dq ++ ": "
                      ++ fmt_v (EnumEntry.Value entry) ++ "," ++ nl))
          (Enum.Entries enum) ;;
  Fprintln "}" ;;
  Fprintln "" ;;
  Fprintf ("func (x " ++ name ++ ") String() string {" ++ nl) ;;
  Fprintf (tab ++ "s, ok := " ++ name ++ "_name[" ++ typ ++ "(x)]" ++ nl) ;;
  Fprintf (tab ++ "if ok { return s }" ++ nl) ;;
  Fprintf (tab ++ "return strconv.Itoa(int(x))" ++ nl) ;;
  Fprintln "}" ;;
  Fprintln "".

(** [generateAlias] writes the code of an alias. *)
Definition generateAlias (ctx : context V) (alias : Alias.t) : Gen :=
  let name := camelCaseName (Alias.Name alias) in
  generateComment ctx name (Alias.Name alias) "alias" ;;
  Fprintf ("type " ++ name ++ " ") ;;
  when (0 <? Alias.Length alias)%Z
    (Fprintf ("[" ++ fmt_d (Alias.Length alias) ++ "]")) ;;
  let dataType := convertToGoType ctx (Alias.Typ alias) in
  Fprintf (dataType ++ nl) ;;
  Fprintln "".

(** [generateUnionGetterSetter] writes the accessors of one alternative. *)
Definition generateUnionGetterSetter (structName getterField getterStruct : string) : Gen :=
  Fprintf (nl
    ++ "func " ++ structName ++ getterField ++ "(a " ++ getterStruct ++ ") (u "
    ++ structName ++ ") {" ++ nl
    ++ tab ++ "u.Set" ++ getterField ++ "(a)" ++ nl
    ++ tab ++ "return" ++ nl
    ++ "}" ++ nl
    ++ "func (u *" ++ structName ++ ") Set" ++ getterField ++ "(a " ++ getterStruct ++ ") {" ++ nl
    ++ tab ++ "var b = new(bytes.Buffer)" ++ nl
    ++ tab ++ "if err := struc.Pack(b, &a); err != nil {" ++ nl
    ++ tab ++ tab ++ "return" ++ nl
    ++ tab ++ "}" ++ nl
    ++ tab ++ "copy(u." ++ unionDataField ++ "[:], b.Bytes())" ++ nl
    ++ "}" ++ nl
    ++ "func (u *" ++ structName ++ ") Get" ++ getterField ++ "() (a " ++ getterStruct ++ ") {" ++ nl
    ++ tab ++ "var b = bytes.NewReader(u." ++ unionDataField ++ "[:])" ++ nl
    ++ tab ++ "struc.Unpack(b, &a)" ++ nl
    ++ tab ++ "return" ++ nl
    ++ "}" ++ nl).

(** [generateUnion] writes the code of a union. *)
Definition generateUnion (ctx : context V) (union : Union.t) : Gen :=
  let name := camelCaseName (Union.Name union) in
  generateComment ctx name (Union.Name union) "union" ;;
  Fprintln ("type" ++ " " ++ name ++ " " ++ "struct {") ;;
  let maxSize := getUnionSize ctx union in
  Fprintf (tab ++ unionDataField ++ " [" ++ fmt_d maxSize ++ "]byte" ++ nl) ;;
  Fprintln "}" ;;
  generateTypeNameGetter name (Union.Name union) ;;
  when (negb (Union.CRC union =? "")%string)
    (generateCrcGetter name (Union.CRC union)) ;;
  forEach (fun field =>
             let fieldName := camelCaseName (Field.Name field) in
             let fieldType := convertToGoType ctx (Field.Typ field) in
             generateUnionGetterSetter name fieldName fieldType)
          (Union.Fields union) ;;
  Fprintln "".

(** ** Types and messages *)

(** The loop over the fields of a type; [i] is the index of the head of [rest]
    in [fields]. *)
Fixpoint generateTypeLoop (ctx : context V) (fields rest : list Field.t) (i : nat) : Gen :=
  match rest with
  | [] => skip
  | field :: rest' =>
      let lower := ToLower (Field.Name field) in
      if (lower =? crcField)%string || (lower =? msgIdField)%string then
        generateTypeLoop ctx fields rest' (S i)
      else
        generateField ctx fields i ;;
        generateTypeLoop ctx fields rest' (S i)
  end.

(** [generateType] writes the code of a type. *)
Definition generateType (ctx : context V) (typ : Typ.t) : Gen :=
  let name := camelCaseName (Typ.Name typ) in
  generateComment ctx name (Typ.Name typ) "type" ;;
  Fprintf ("type " ++ name ++ " struct {" ++ nl) ;;
  generateTypeLoop ctx (Typ.Fields typ) (Typ.Fields typ) 0 ;;
  Fprintln "}" ;;
  generateTypeNameGetter name (Typ.Name typ) ;;
  when (negb (Typ.CRC typ =? "")%string)
    (generateCrcGetter name (Typ.CRC typ)) ;;
  Fprintln "".

(** The loop over the fields of a message.  [msgType], [wasClientIndex] and [n]
    are the variables of that name; [i] is the index of the head of [rest] in
    [fields].  The loop gives back the role it has assigned with the stream. *)
Fixpoint generateMessageLoop (ctx : context V) (fields rest : list Field.t) (i : nat)
    (msgType : MessageType) (wasClientIndex : bool) (n : Z) (w : W)
    : option (MessageType * W) :=
  match rest with
  | [] => Some (msgType, w)
  | field :: rest' =>
      let '(msgType, wasClientIndex) :=
        if Nat.eqb i 1 then
          if (Field.Name field =? clientIndexField)%string then (eventMessage, true)
          else if (Field.Name field =? contextField)%string then (replyMessage, wasClientIndex)
          else (msgType, wasClientIndex)
        else if Nat.eqb i 2 then
          if wasClientIndex && (Field.Name field =? contextField)%string
          then (requestMessage, wasClientIndex)
          else (msgType, wasClientIndex)
        else (msgType, wasClientIndex) in
      let lower := ToLower (Field.Name field) in
      if (lower =? crcField)%string || (lower =? msgIdField)%string then
        generateMessageLoop ctx fields rest' (S i) msgType wasClientIndex n w
      else if ((lower =? clientIndexField)%string || (lower =? contextField)%string)
              && (n =? 0)%Z then
        generateMessageLoop ctx fields rest' (S i) msgType wasClientIndex n w
      else
        let n := (n + 1)%Z in
        match (when (n =? 1)%Z (Fprintln "") ;; generateField ctx fields i) w with
        | Some w' => generateMessageLoop ctx fields rest' (S i) msgType wasClientIndex n w'
        | None => None
        end
  end.

(** [generateMessage] writes the code of a message. *)
Definition generateMessage (ctx : context V) (msg : Message.t) : Gen :=
  let name := camelCaseName (Message.Name msg) in
  generateComment ctx name (Message.Name msg) "message" ;;
  Fprintf ("type " ++ name ++ " struct {") ;;
  fun w =>
    let msgType := otherMessage in
    let wasClientIndex := false in
    let n := 0%Z in
    match generateMessageLoop ctx (Message.Fields msg) (Message.Fields msg) 0
            msgType wasClientIndex n w with
    | None => None
    | Some (msgType, w) =>
        (Fprintln "}" ;;
         generateMessageNameGetter name (Message.Name msg) ;;
         generateCrcGetter name (Message.CRC msg) ;;
         generateMessageTypeGetter name msgType ;;
         Fprintln "") w
    end.

(** ** The package *)

(** The closure [printObjNum] of [generateHeader]. *)
Definition printObjNum (obj : string) (num : Z) : Gen :=
  if (0 <? num)%Z then
    let obj :=
      if (1 <? num)%Z then
        if HasSuffix obj "s" then obj ++ "es" else obj ++ "s"
      else obj in
    Fprintf (tab ++ fmt_3d num ++ " " ++ obj ++ nl)
  else skip.

Definition len {A : Type} (l : list A) : Z := Z.of_nat (List.length l).

(** [generateHeader] writes the header of the generated package. *)
Definition generateHeader (ctx : context V) : Gen :=
  Fprintln "// Code generated by GoVPP binapi-generator. DO NOT EDIT." ;;
  Fprintf ("// source: " ++ inputFile ctx ++ nl) ;;
  Fprintln "" ;;
  Fprintln "/*" ;;
  Fprintf ("Package " ++ packageName ctx ++ " is a generated from VPP binary API module '"
           ++ moduleName ctx ++ "'." ++ nl) ;;
  Fprintln "" ;;
  Fprintf (" The " ++ moduleName ctx ++ " module consists of:" ++ nl) ;;
  printObjNum "enum" (len (Package.Enums (packageData ctx))) ;;
  printObjNum "alias" (len (Package.Aliases (packageData ctx))) ;;
  printObjNum "type" (len (Package.Types (packageData ctx))) ;;
  printObjNum "union" (len (Package.Unions (packageData ctx))) ;;
  printObjNum "message" (len (Package.Messages (packageData ctx))) ;;
  printObjNum "service" (len (Package.Services (packageData ctx))) ;;
  Fprintln "*/" ;;
  Fprintf ("package " ++ packageName ctx ++ nl) ;;
  Fprintln "".

(** [generateImports] writes the imports of the generated package. *)
Definition generateImports (ctx : context V) : Gen :=
  Fprintf ("import api " ++ dq ++ govppApiImportPath ++ dq ++ nl) ;;
  Fprintf ("import bytes " ++ dq ++ "bytes" ++ dq ++ nl) ;;
  Fprintf ("import context " ++ dq ++ "context" ++ dq ++ nl) ;;
  Fprintf ("import strconv " ++ dq ++ "strconv" ++ dq ++ nl) ;;
  Fprintf ("import struc " ++ dq ++ "github.com/lunixbochs/struc" ++ dq ++ nl) ;;
  Fprintln "" ;;
  Fprintf ("// Reference imports to suppress errors if they are not otherwise used." ++ nl) ;;
  Fprintf ("var _ = api.RegisterMessage" ++ nl) ;;
  Fprintf ("var _ = bytes.NewBuffer" ++ nl) ;;
  Fprintf ("var _ = context.Background" ++ nl) ;;
  Fprintf ("var _ = strconv.Itoa" ++ nl) ;;
  Fprintf ("var _ = struc.Pack" ++ nl) ;;
  Fprintln "" ;;
  Fprintln "// This is a compile-time assertion to ensure that this generated file" ;;
  Fprintln "// is compatible with the GoVPP api package it is being compiled against." ;;
  Fprintln "// A compilation error at this line likely means your copy of the" ;;
  Fprintln "// GoVPP api package needs to be updated." ;;
  Fprintf ("const _ = api.GoVppAPIPackageIsVersion" ++ fmt_d generatedCodeVersion
           ++ " // please upgrade the GoVPP api package" ++ nl) ;;
  Fprintln "".

(** Everything [generatePackage] writes, in order. *)
Definition generatePackageBody (ctx : context V) : Gen :=
  generateHeader ctx ;;
  generateImports ctx ;;
  Fprintln "const (" ;;
  Fprintf (tab ++ "// " ++ constModuleName ++ " is the name of this module." ++ nl) ;;
  Fprintf (tab ++ constModuleName ++ " = " ++ dq ++ moduleName ctx ++ dq ++ nl) ;;
  when (includeAPIVersion ctx)
    (when (negb (Package.Version (packageData ctx) =? "")%string)
       (Fprintf (tab ++ "// " ++ constAPIVersion ++ " is the API version of this module." ++ nl) ;;
        Fprintf (tab ++ constAPIVersion ++ " = " ++ dq ++ Package.Version (packageData ctx)
                 ++ dq ++ nl)) ;;
     Fprintf (tab ++ "// " ++ constVersionCrc ++ " is the CRC of this module." ++ nl) ;;
     Fprintf (tab ++ constVersionCrc ++ " = " ++ Package.CRC (packageData ctx) ++ nl)) ;;
  Fprintln ")" ;;
  Fprintln "" ;;
  when (0 <? len (Package.Enums (packageData ctx)))%Z
    (Fprintf ("/* Enums */" ++ nl ++ nl) ;;
     forEach (generateEnum ctx) (Package.Enums (packageData ctx))) ;;
  when (0 <? len (Package.Aliases (packageData ctx)))%Z
    (Fprintf ("/* Aliases */" ++ nl ++ nl) ;;
     forEach (generateAlias ctx) (Package.Aliases (packageData ctx))) ;;
  when (0 <? len (Package.Types (packageData ctx)))%Z
    (Fprintf ("/* Types */" ++ nl ++ nl) ;;
     forEach (generateType ctx) (Package.Types (packageData ctx))) ;;
  when (0 <? len (Package.Unions (packageData ctx)))%Z
    (Fprintf ("/* Unions */" ++ nl ++ nl) ;;
     forEach (generateUnion ctx) (Package.Unions (packageData ctx))) ;;
  when (0 <? len (Package.Messages (packageData ctx)))%Z
    (Fprintf ("/* Messages */" ++ nl ++ nl) ;;
     forEach (generateMessage ctx) (Package.Messages (packageData ctx)) ;;
     Fprintln "func init() {" ;;
     forEach (fun msg =>
                let name := camelCaseName (Message.Name msg) in
                Fprintf (tab ++ "api.RegisterMessage((*" ++ name ++ ")(nil), " ++ dq
                         ++ (moduleName ctx ++ "." ++ name) ++ dq ++ ")" ++ nl))
             (Package.Messages (packageData ctx)) ;;
     Fprintln "}" ;;
     Fprintln "" ;;
     Fprintf ("// Messages returns list of all messages in this module." ++ nl) ;;
     Fprintln "func AllMessages() []api.Message {" ;;
     Fprintln (tab ++ "return []api.Message{") ;;
     forEach (fun msg =>
                let name := camelCaseName (Message.Name msg) in
                Fprintf (tab ++ "(*" ++ name ++ ")(nil)," ++ nl))
             (Package.Messages (packageData ctx)) ;;
     Fprintln "}" ;;
     Fprintln "}") ;;
  when (includeServices ctx)
    (when (0 <? len (Package.Services (packageData ctx)))%Z
       (generateServices ctx (Package.Services (packageData ctx)))).

(** [generatePackage] writes the code of the parsed package into the stream and
    gives back the stream with the error it returns ([None] is [nil]). *)
Definition generatePackage (ctx : context V) (w : W) : option (W * option error) :=
  match generatePackageBody ctx w with
  | Some w' => Some (w', None)
  | None => None
  end.

Set Default Proof Using "Type".

(** ** Reading the generator's output

    [emits g cs]: the step [g] never panics and passes exactly the chunks
    [cs] to [Write], in this order, whatever the state of the stream is and
    whatever the calls report. *)
Definition emits (g : Gen) (cs : list string) : Prop :=
  forall w, g w = Some (writes cs w).

(** The value of [dataType] in [generateField] when the tags are built: the
    converted type, with [byte] for [uint8] inside an array. *)
Definition fieldDataType (ctx : context V) (field : Field.t) : string :=
  let dataType := convertToGoType ctx (Field.Typ field) in
  if (0 <? Field.Length field)%Z || negb (Field.SizeFrom field =? "")%string then
    if (dataType =? "uint8")%string then "byte" else dataType
  else dataType.

(** The value of [fieldType] in [generateField]: the declared Go type. *)
Definition fieldGoType (ctx : context V) (field : Field.t) : string :=
  if (0 <? Field.Length field)%Z || negb (Field.SizeFrom field =? "")%string then
    "[]" ++ fieldDataType ctx field
  else fieldDataType ctx field.

(** The map [fieldTags] of [generateField] once it is filled. *)
Definition fieldTagsOf (ctx : context V) (fields : list Field.t) (field : Field.t) : StringMap :=
  let fieldTags : StringMap := [] in
  let fieldTags :=
    if (0 <? Field.Length field)%Z
    then mapSet "struc" ("[" ++ fmt_d (Field.Length field) ++ "]" ++ fieldDataType ctx field) fieldTags
    else sizeOfLoop fields field fieldTags in
  let fieldTags :=
    if includeBinapiNames ctx then mapSet "binapi" (Field.Name field) fieldTags else fieldTags in
  let fieldTags :=
    if (0 <? FieldMeta.Limit (Field.Meta field))%Z
    then mapSet "binapi"
           (mapGet "binapi" fieldTags ++ ",limit=" ++ fmt_d (FieldMeta.Limit (Field.Meta field)))
           fieldTags
    else fieldTags in
  fieldTags.

(** The [struc] and [binapi] entries of the tags of a field. *)
Definition strucTag (ctx : context V) (fields : list Field.t) (field : Field.t) : option string :=
  mapLookup "struc" (fieldTagsOf ctx fields field).

Definition binapiTag (ctx : context V) (fields : list Field.t) (field : Field.t) : option string :=
  mapLookup "binapi" (fieldTagsOf ctx fields field).

(** The normalized name under which a field is declared. *)
Definition fieldGoName (field : Field.t) : string :=
  camelCaseName (TrimPrefix (Field.Name field) "_").

(** The line of the auxiliary length field that precedes a field of type [string]. *)
Definition lenFieldLine (field : Field.t) : string :=
  tab ++ "XXX_" ++ fieldGoName field ++ "Len uint32 `struc:" ++ dq
  ++ "sizeof=" ++ fieldGoName field ++ dq ++ "`" ++ nl.

Definition lenFieldChunks (field : Field.t) : list string :=
  if (Field.Typ field =? "string")%string then [lenFieldLine field] else [].

(** The chunks of the tag of a field, from its [binapi] and [struc] entries. *)
Definition tagChunks (b s : option string) : list string :=
  match b, s with
  | None, None => []
  | Some b, None => [tab ++ "`"; "binapi:" ++ dq ++ b ++ dq; "`"]
  | None, Some s => [tab ++ "`"; "struc:" ++ dq ++ s ++ dq; "`"]
  | Some b, Some s =>
      [tab ++ "`"; "binapi:" ++ dq ++ b ++ dq; " "; "struc:" ++ dq ++ s ++ dq; "`"]
  end.

(** Everything [generateField] writes for a field. *)
Definition fieldChunks (ctx : context V) (fields : list Field.t) (field : Field.t) : list string :=
  let decl := tab ++ fieldGoName field ++ " " ++ fieldGoType ctx field in
  (lenFieldChunks field
   ++ decl :: tagChunks (binapiTag ctx fields field) (strucTag ctx fields field)
   ++ [nl])%list.

(** The role of a message, as the table of the specification gives it from
    the names of the fields at the indices 1 and 2. *)
Definition messageRole (fields : list Field.t) : MessageType :=
  match nth_error fields 1 with
  | None => otherMessage
  | Some f1 =>
      if (Field.Name f1 =? clientIndexField)%string then
        match nth_error fields 2 with
        | None => eventMessage
        | Some f2 =>
            if (Field.Name f2 =? contextField)%string then requestMessage else eventMessage
        end
      else if (Field.Name f1 =? contextField)%string then replyMessage
      else otherMessage
  end.

(** The text of the statement that the role getter returns. *)
Definition roleConstant (msgType : MessageType) : string :=
  match msgType with
  | requestMessage => "api.RequestMessage"
  | replyMessage => "api.ReplyMessage"
  | eventMessage => "api.EventMessage"
  | otherMessage => "api.OtherMessage"
  end.

(** A field that [generateType] and [generateMessage] always skip. *)
Definition isInternalField (field : Field.t) : bool :=
  (ToLower (Field.Name field) =? crcField)%string
  || (ToLower (Field.Name field) =? msgIdField)%string.

(** A field that [generateMessage] skips while no member has been written. *)
Definition isHeaderField (field : Field.t) : bool :=
  (ToLower (Field.Name field) =? clientIndexField)%string
  || (ToLower (Field.Name field) =? contextField)%string.

(** The indices of the fields of a message that are written as members of the
    struct: [i] is the index of the head of [rest], [n] the number of members
    written before. *)
Fixpoint memberIndicesFrom (rest : list Field.t) (i : nat) (n : Z) : list nat :=
  match rest with
  | [] => []
  | field :: rest' =>
      if isInternalField field then memberIndicesFrom rest' (S i) n
      else if isHeaderField field && (n =? 0)%Z then memberIndicesFrom rest' (S i) n
      else i :: memberIndicesFrom rest' (S i) (n + 1)%Z
  end.

Definition memberIndices (fields : list Field.t) : list nat :=
  memberIndicesFrom fields 0 0.

(** The lines that [generateComment] echoes once the title is found, for the
    lines [lines] that follow the title. *)
Definition echoLine (trimIndent line : string) : string :=
  "//" ++ tab ++ TrimPrefix line trimIndent.

(** The last field of [fields] whose size-from reference is [name]. *)
Fixpoint lastReferrer (fields : list Field.t) (name : string) : option Field.t :=
  match fields with
  | [] => None
  | f :: fields' =>
      match lastReferrer fields' name with
      | Some g => Some g
      | None => if (Field.SizeFrom f =? name)%string then Some f else None
      end
  end.

(** The map [fieldTags] rebuilt from its two entries. *)
Definition tagsFrom (s b : option string) : StringMap :=
  (match s with Some s => [("struc", s)] | None => [] end
   ++ match b with Some b => [("binapi", b)] | None => [] end)%list.

(** The [struc] stage of [fieldTagsOf]. *)
Definition strucStage (ctx : context V) (fields : list Field.t) (field : Field.t) : option string :=
  if (0 <? Field.Length field)%Z
  then Some ("[" ++ fmt_d (Field.Length field) ++ "]" ++ fieldDataType ctx field)
  else match lastReferrer fields (Field.Name field) with
       | Some g => Some ("sizeof=" ++ camelCaseName (Field.Name g))
       | None => None
       end.

(** The [binapi] stage of [fieldTagsOf]. *)
Definition binapiStage (ctx : context V) (field : Field.t) : option string :=
  let b := if includeBinapiNames ctx then Some (Field.Name field) else None in
  if (0 <? FieldMeta.Limit (Field.Meta field))%Z
  then Some (match b with Some x => x | None => "" end
             ++ ",limit=" ++ fmt_d (FieldMeta.Limit (Field.Meta field)))
  else b.

(** The element type inside an array: [byte] stands for [uint8]. *)
Definition arrayElemType (goType : string) : string :=
  if (goType =? "uint8")%string then "byte" else goType.

(** One step of the classification made by the loop of [generateMessage]. *)
Definition classifyStep (i : nat) (field : Field.t) (st : MessageType * bool)
    : MessageType * bool :=
  let '(msgType, wasClientIndex) := st in
  if Nat.eqb i 1 then
    if (Field.Name field =? clientIndexField)%string then (eventMessage, true)
    else if (Field.Name field =? contextField)%string then (replyMessage, wasClientIndex)
    else (msgType, wasClientIndex)
  else if Nat.eqb i 2 then
    if wasClientIndex && (Field.Name field =? contextField)%string
    then (requestMessage, wasClientIndex)
    else (msgType, wasClientIndex)
  else (msgType, wasClientIndex).

(** The role that the loop holds when it ends. *)
Fixpoint classifyFrom (rest : list Field.t) (i : nat) (st : MessageType * bool) : MessageType :=
  match rest with
  | [] => fst st
  | field :: rest' => classifyFrom rest' (S i) (classifyStep i field st)
  end.

(** The members of a message: a newline before the first one when [n] is 0,
    then [generateField] on each index. *)
Definition emitMembers (ctx : context V) (fields : list Field.t) (n : Z) (idxs : list nat) : Gen :=
  match idxs with
  | [] => skip
  | _ :: _ =>
      when (n =? 0)%Z (Fprintln "") ;;
      forEach (generateField ctx fields) idxs
  end.

(** The chunks of the members of a message. *)
Definition fieldChunksAt (ctx : context V) (fields : list Field.t) (i : nat) : list string :=
  match nth_error fields i with
  | Some field => fieldChunks ctx fields field
  | None => []
  end.

Definition memberChunks (ctx : context V) (fields : list Field.t) (n : Z) (idxs : list nat)
    : list string :=
  match idxs with
  | [] => []
  | _ :: _ =>
      ((if (n =? 0)%Z then [nl] else [])
       ++ concat (map (fieldChunksAt ctx fields) idxs))%list
  end.

(** The role assigned to a message by [generateMessage]: the first component
    of what its loop gives back, on a stream [w]. *)
Definition assignedRole (ctx : context V) (fields : list Field.t) (w : W) : option MessageType :=
  match generateMessageLoop ctx fields fields 0 otherMessage false 0 w with
  | Some (msgType, _) => Some msgType
  | None => None
  end.

(** The result types of a service method, as the specification states them
    from the reply type and the streaming flag. *)
Definition returnTypeSpec (svc : Service.t) : string :=
  if (Service.ReplyType svc =? "")%string then "error"
  else if Service.Stream svc
       then "([]*" ++ camelCaseName (Service.ReplyType svc) ++ ", error)"
       else "(*" ++ camelCaseName (Service.ReplyType svc) ++ ", error)".

(** [traced g]: the chunks that [g] writes do not depend on the stream. *)
Definition traced (g : Gen) : Prop := exists cs, emits g cs.

(** The name that [generateServiceMethod] gives to the method of a service. *)
Definition serviceMethodName (svc : Service.t) : string :=
  let method := camelCaseName (Service.RequestType svc) in
  if Service.Stream svc then
    let m := TrimSuffix method "Dump" in
    if negb (method =? m)%string then "Dump" ++ m else method
  else method.

(** The signature that [generateServiceMethod] writes, for given result types. *)
Definition methodSignature (svc : Service.t) (returns : string) : string :=
  tab ++ serviceMethodName svc ++ "(ctx context.Context, in *"
  ++ camelCaseName (Service.RequestType svc) ++ ") " ++ returns.

(** The method [GetCrcString] whose body returns the literal of [crc]. *)
Definition crcGetterText (structName crc : string) : string :=
  "func (*" ++ structName ++ ") GetCrcString() string {" ++ nl
  ++ tab ++ "return " ++ fmt_q crc ++ nl
  ++ "}" ++ nl.

(** The method [GetMessageType] whose body returns the constant of a role. *)
Definition roleGetterChunks (structName : string) (msgType : MessageType) : list string :=
  [ ("func (*" ++ structName ++ ") GetMessageType() api.MessageType {") ++ nl;
    tab ++ "return " ++ roleConstant msgType ++ nl;
    "}" ++ nl ].

(** A line that is echoed in the found state without ending the echo. *)
Definition staysInside (mapType : bool) (indent : Z) (line : string) : Prop :=
  (indent <= IndexNotSpace line)%Z /\ (mapType = true -> (indent < IndexNotSpace line)%Z).

(** ** [getContext] *)

(** The value of a [Package] whose fields are all zero.  In [getContext] the
    pointer [packageData] is still [nil]; the record of this development has
    no [nil], and the zero package stands for it. *)
Definition zeroPackage : Package.t V := Package.mk "" "" [] [] [] [] [] [].

(** [getContext] returns the context of a code generation task, or an error.
    [None] is the panic of a slice bound out of range, when the base name of
    the input file holds no dot. *)
Definition getContext (inputFile outputDir : string)
    : option (option (context V) * option error) :=
  if negb (HasSuffix inputFile inputFileExt) then
    Some (None, Some ("invalid input file name: " ++ fmt_q inputFile))
  else
    let inputFileName := Base inputFile in
    let dot := Index inputFileName "." in
    if (dot <? 0)%Z then None
    else
      let moduleName := sliceTo inputFileName dot in
      let packageName :=
        if (moduleName =? "interface")%string then "interfaces"
        else if (moduleName =? "map")%string then "maps"
        else moduleName in
      let packageDir := Join outputDir packageName in
      let outputFileName := packageName ++ outputFileExt in
      Some (Some (mkContext inputFile (Join packageDir outputFileName) "" false false false
                    false moduleName packageName zeroPackage),
            None).


(** What [generateField] reads of a field to plan its encoding. *)
Definition encodingKey (field : Field.t) : string * string * Z * string :=
  (Field.Name field, Field.Typ field, Field.Length field, Field.SizeFrom field).

(** What [generateField] reads of the siblings of a field. *)
Definition siblingKey (field : Field.t) : string * string :=
  (Field.SizeFrom field, Field.Name field).


(** The fields of a type that [generateType] writes as members. *)
Definition typeMembers (fields : list Field.t) : list Field.t :=
  filter (fun f => negb (isInternalField f)) fields.


(** The title that [generateComment] looks for, and the kind of the object. *)
Definition isMapKind (objKind : string) : bool :=
  (objKind =? "alias")%string || (objKind =? "service")%string.

Definition objTitleOf (objKind vppName : string) : string :=
  if isMapKind objKind then dq ++ vppName ++ dq ++ ": {" else dq ++ vppName ++ dq ++ ",".

(** The first line of the comment of an object. *)
Definition summaryLine (ctx : context V) (goName vppName objKind : string) : string :=
  if (objKind =? "service")%string then
    "// " ++ goName ++ " represents VPP binary API services in " ++ moduleName ctx
    ++ " module." ++ nl
  else
    "// " ++ goName ++ " represents VPP binary API " ++ objKind ++ " '" ++ vppName
    ++ "':" ++ nl.

(** A line that holds the title, and what is echoed of it before the object
    is found. *)
Definition containsTitle (objTitle line : string) : bool :=
  negb (Index line objTitle =? -1)%Z.

Definition titleEcho (objTitle line : string) : string :=
  echoLine (sliceTo line (Index line objTitle)) line.

(** The context with another source text. *)
Definition withInputData (ctx : context V) (data : string) : context V :=
  mkContext (inputFile ctx) (outputFile ctx) data (includeAPIVersion ctx)
            (includeComments ctx) (includeBinapiNames ctx) (includeServices ctx)
            (moduleName ctx) (packageName ctx) (packageData ctx).

(** A text without newline. *)
Definition noNewline (s : string) : Prop := Index s nl = (-1)%Z.

(** A line as [ReadString] returns it: some bytes without newline and a newline. *)
Definition isLine (line : string) : Prop :=
  exists body, line = body ++ nl /\ noNewline body.


(** The result types that [generateServiceMethod] writes. *)
Definition serviceReturns (svc : Service.t) : string :=
  let replyType := camelCaseName (Service.ReplyType svc) in
  if negb (replyType =? "")%string then
    let replyTyp := "*" ++ replyType in
    let replyTyp := if Service.Stream svc then "[]" ++ replyTyp else replyTyp in
    "(" ++ replyTyp ++ ", error)"
  else "error".

(** The body that [generateServices] writes for the client method of a
    streaming service, for the normalized reply type [replyTyp]. *)
Definition streamBodyChunks (replyTyp : string) : list string :=
  [ tab ++ "var dump []*" ++ replyTyp ++ nl;
    tab ++ "req := c.ch.SendMultiRequest(in)" ++ nl;
    tab ++ "for {" ++ nl;
    tab ++ "m := new(" ++ replyTyp ++ ")" ++ nl;
    tab ++ "stop, err := req.ReceiveReply(m)" ++ nl;
    tab ++ "if stop { break }" ++ nl;
    tab ++ "if err != nil { return nil, err }" ++ nl;
    tab ++ "dump = append(dump, m)" ++ nl;
    "}" ++ nl;
    tab ++ "return dump, nil" ++ nl ].

(** [emitsWithin g mid]: the step [g] writes the chunks [mid] one after the
    other, between chunks that do not depend on the stream. *)
Definition emitsWithin (g : Gen) (mid : list string) : Prop :=
  exists before after, emits g (before ++ mid ++ after).


(** ** Basic facts *)

Lemma stripPrefix_app (p r : string) : stripPrefix (p ++ r) p = Some r.
Proof.
  induction p as [|a p IH]; simpl.
  - now destruct r.
  - rewrite Ascii.eqb_refl. exact IH.
Qed.

Lemma stripPrefix_Some (s p r : string) : stripPrefix s p = Some r -> s = p ++ r.
Proof.
  revert s; induction p as [|a p IH]; intros s Hs; simpl in *.
  - destruct s; simpl in Hs; congruence.
  - destruct s as [|b s]; simpl in Hs; [discriminate|].
    destruct (Ascii.eqb_spec a b) as [->|]; [|discriminate].
    f_equal. auto.
Qed.

Lemma TrimPrefix_app (p r : string) : TrimPrefix (p ++ r) p = r.
Proof. unfold TrimPrefix. now rewrite stripPrefix_app. Qed.

Lemma writes_app (cs1 cs2 : list string) (w : W) :
  writes (cs1 ++ cs2) w = writes cs2 (writes cs1 w).
Proof. unfold writes. apply fold_left_app. Qed.

Lemma emits_skip : emits skip [].
Proof. intros w. reflexivity. Qed.

Lemma emits_Fprintf (s : string) : emits (Fprintf s) [s].
Proof. intros w. reflexivity. Qed.

Lemma emits_Fprintln (s : string) : emits (Fprintln s) [s ++ nl].
Proof. intros w. reflexivity. Qed.

Lemma emits_seq (g1 g2 : Gen) (c1 c2 : list string) :
  emits g1 c1 -> emits g2 c2 -> emits (g1 ;; g2) (c1 ++ c2).
Proof.
  intros H1 H2 w. unfold seq. rewrite H1, H2, writes_app. reflexivity.
Qed.

Lemma emits_when (b : bool) (g : Gen) (c : list string) :
  emits g c -> emits (when b g) (if b then c else []).
Proof. intros Hg. destruct b; [exact Hg | exact emits_skip]. Qed.

Lemma emits_forEach {A : Type} (f : A -> Gen) (cf : A -> list string) (l : list A) :
  (forall x, In x l -> emits (f x) (cf x)) -> emits (forEach f l) (concat (map cf l)).
Proof.
  induction l as [|x l IH]; intros Hf; simpl.
  - exact emits_skip.
  - apply emits_seq; [apply Hf; now left | apply IH; intros y Hy; apply Hf; now right].
Qed.

Lemma emits_ext (g : Gen) (c1 c2 : list string) : c1 = c2 -> emits g c1 -> emits g c2.
Proof. now intros ->. Qed.

(** ** The tags of a field *)

Lemma sizeOfLoop_lastReferrer (fields : list Field.t) (field : Field.t) (tags : StringMap) :
  tags = [] \/ (exists v, tags = [("struc", v)]) ->
  sizeOfLoop fields field tags =
    match lastReferrer fields (Field.Name field) with
    | Some g => [("struc", "sizeof=" ++ camelCaseName (Field.Name g))]
    | None => tags
    end.
Proof.
  unfold sizeOfLoop. revert tags.
  induction fields as [|f fields IH]; intros tags Htags; simpl.
  - reflexivity.
  - rewrite IH.
    + destruct (lastReferrer fields (Field.Name field)); [reflexivity|].
      destruct (Field.SizeFrom f =? Field.Name field)%string; [|reflexivity].
      destruct Htags as [->|[v ->]]; reflexivity.
    + destruct (Field.SizeFrom f =? Field.Name field)%string; [|exact Htags].
      right. destruct Htags as [->|[v ->]]; eexists; reflexivity.
Qed.

Lemma fieldTagsOf_tagsFrom (ctx : context V) (fields : list Field.t) (field : Field.t) :
  fieldTagsOf ctx fields field = tagsFrom (strucStage ctx fields field) (binapiStage ctx field).
Proof.
  unfold fieldTagsOf, strucStage, binapiStage.
  rewrite sizeOfLoop_lastReferrer by now left.
  destruct (0 <? Field.Length field)%Z;
    [|destruct (lastReferrer fields (Field.Name field))];
    destruct (includeBinapiNames ctx);
    destruct (0 <? FieldMeta.Limit (Field.Meta field))%Z; reflexivity.
Qed.

Lemma strucTag_strucStage (ctx : context V) (fields : list Field.t) (field : Field.t) :
  strucTag ctx fields field = strucStage ctx fields field.
Proof.
  unfold strucTag. rewrite fieldTagsOf_tagsFrom.
  destruct (strucStage ctx fields field), (binapiStage ctx field); reflexivity.
Qed.

Lemma binapiTag_binapiStage (ctx : context V) (fields : list Field.t) (field : Field.t) :
  binapiTag ctx fields field = binapiStage ctx field.
Proof.
  unfold binapiTag. rewrite fieldTagsOf_tagsFrom.
  destruct (strucStage ctx fields field), (binapiStage ctx field); reflexivity.
Qed.

Lemma emits_tags (s b : option string) :
  emits
    (when (0 <? Z.of_nat (List.length (tagsFrom s b)))%Z
       (Fprintf (tab ++ "`") ;;
        generateFieldTagLoop (tagsFrom s b) (sortStrings (mapKeys (tagsFrom s b))) 0 ;;
        Fprintf "`"))
    (tagChunks b s).
Proof.
  destruct s as [s|], b as [b|]; intros w; reflexivity.
Qed.

(** [generateField] in terms of the values that its variables take. *)
Lemma generateField_unfold (ctx : context V) (fields : list Field.t) (i : nat) (field : Field.t) :
  nth_error fields i = Some field ->
  forall w,
    generateField ctx fields i w =
    (when (Field.Typ field =? "string")%string (Fprintf (lenFieldLine field)) ;;
     Fprintf (tab ++ fieldGoName field ++ " " ++ fieldGoType ctx field) ;;
     when (0 <? Z.of_nat (List.length (fieldTagsOf ctx fields field)))%Z
       (Fprintf (tab ++ "`") ;;
        generateFieldTagLoop (fieldTagsOf ctx fields field)
          (sortStrings (mapKeys (fieldTagsOf ctx fields field))) 0 ;;
        Fprintf "`") ;;
     Fprintln "") w.
Proof.
  intros Hi w.
  unfold generateField, fieldTagsOf, fieldGoType, fieldDataType, lenFieldLine, fieldGoName.
  rewrite Hi.
  destruct ((0 <? Field.Length field)%Z || negb (Field.SizeFrom field =? "")%string);
    reflexivity.
Qed.

(** [generateField] on an index of the slice never panics and writes
    [fieldChunks]. *)
Lemma generateField_emits (ctx : context V) (fields : list Field.t) (i : nat) (field : Field.t) :
  nth_error fields i = Some field ->
  emits (generateField ctx fields i) (fieldChunks ctx fields field).
Proof.
  intros Hi w. rewrite (generateField_unfold ctx fields i field Hi).
  revert w. change (emits
    (when (Field.Typ field =? "string")%string (Fprintf (lenFieldLine field)) ;;
     Fprintf (tab ++ fieldGoName field ++ " " ++ fieldGoType ctx field) ;;
     when (0 <? Z.of_nat (List.length (fieldTagsOf ctx fields field)))%Z
       (Fprintf (tab ++ "`") ;;
        generateFieldTagLoop (fieldTagsOf ctx fields field)
          (sortStrings (mapKeys (fieldTagsOf ctx fields field))) 0 ;;
        Fprintf "`") ;;
     Fprintln "")
    (fieldChunks ctx fields field)).
  unfold fieldChunks.
  apply emits_seq.
  - unfold lenFieldChunks.
    apply (emits_when _ _ [_]). apply emits_Fprintf.
  - apply (emits_seq _ _ [_]); [apply emits_Fprintf|].
    apply emits_seq; [|apply emits_Fprintln].
    rewrite strucTag_strucStage, binapiTag_binapiStage, fieldTagsOf_tagsFrom.
    apply emits_tags.
Qed.

(** ** The loop of [generateMessage] *)

Lemma lastReferrer_last (pre post : list Field.t) (G : Field.t) (name : string) :
  Field.SizeFrom G = name ->
  Forall (fun f => Field.SizeFrom f <> name) post ->
  lastReferrer (pre ++ G :: post) name = Some G.
Proof.
  intros HG Hpost.
  assert (Hp : lastReferrer post name = None).
  { induction Hpost as [|f post Hf _ IH]; simpl; [reflexivity|].
    rewrite IH. destruct (String.eqb_spec (Field.SizeFrom f) name); congruence. }
  assert (Hg : lastReferrer (G :: post) name = Some G).
  { simpl. rewrite Hp. rewrite (proj2 (String.eqb_eq _ _) HG). reflexivity. }
  induction pre as [|f pre IH]; simpl; [exact Hg|].
  now rewrite IH.
Qed.

Lemma lastReferrer_None (fields : list Field.t) (name : string) :
  Forall (fun f => Field.SizeFrom f <> name) fields ->
  lastReferrer fields name = None.
Proof.
  induction 1 as [|f post Hf _ IH]; simpl; [reflexivity|].
  rewrite IH. destruct (String.eqb_spec (Field.SizeFrom f) name); congruence.
Qed.

Lemma classifyFrom_late (rest : list Field.t) (i : nat) (st : MessageType * bool) :
  3 <= i -> classifyFrom rest i st = fst st.
Proof.
  revert i st. induction rest as [|f rest IH]; intros i st Hi; simpl; [reflexivity|].
  rewrite IH by lia.
  unfold classifyStep. destruct st as [mt was].
  destruct i as [|[|[|i]]]; try lia. reflexivity.
Qed.

Lemma classifyFrom_messageRole (fields : list Field.t) :
  classifyFrom fields 0 (otherMessage, false) = messageRole fields.
Proof.
  unfold messageRole.
  destruct fields as [|f0 [|f1 [|f2 rest]]]; simpl; try reflexivity.
  - destruct (Field.Name f1 =? clientIndexField)%string; [reflexivity|].
    destruct (Field.Name f1 =? contextField)%string; reflexivity.
  - rewrite classifyFrom_late by lia.
    destruct (Field.Name f1 =? clientIndexField)%string; simpl.
    + destruct (Field.Name f2 =? contextField)%string; reflexivity.
    + destruct (Field.Name f1 =? contextField)%string; reflexivity.
Qed.

Lemma emitMembers_later (ctx : context V) (fields : list Field.t) (n : Z) (idxs : list nat) :
  (n =? 0)%Z = false ->
  forall w, emitMembers ctx fields n idxs w = forEach (generateField ctx fields) idxs w.
Proof.
  intros Hn w. unfold emitMembers. destruct idxs; [reflexivity|].
  rewrite Hn. reflexivity.
Qed.

(** The loop assigns the role computed by [classifyFrom] and writes the
    members listed by [memberIndicesFrom]. *)
Lemma generateMessageLoop_eq (ctx : context V) (fields rest : list Field.t) :
  forall (i : nat) (msgType : MessageType) (wasClientIndex : bool) (n : Z) (w : W),
    (0 <= n)%Z ->
    generateMessageLoop ctx fields rest i msgType wasClientIndex n w =
    match emitMembers ctx fields n (memberIndicesFrom rest i n) w with
    | Some w' => Some (classifyFrom rest i (msgType, wasClientIndex), w')
    | None => None
    end.
Proof.
  induction rest as [|field rest IH]; intros i msgType wasClientIndex n w Hn.
  - reflexivity.
  - cbn [generateMessageLoop memberIndicesFrom classifyFrom].
    change (if Nat.eqb i 1
            then if (Field.Name field =? clientIndexField)%string then (eventMessage, true)
                 else if (Field.Name field =? contextField)%string
                      then (replyMessage, wasClientIndex)
                      else (msgType, wasClientIndex)
            else if Nat.eqb i 2
                 then if wasClientIndex && (Field.Name field =? contextField)%string
                      then (requestMessage, wasClientIndex)
                      else (msgType, wasClientIndex)
                 else (msgType, wasClientIndex))
      with (classifyStep i field (msgType, wasClientIndex)).
    destruct (classifyStep i field (msgType, wasClientIndex)) as [mt' was'].
    fold (isInternalField field). fold (isHeaderField field).
    destruct (isInternalField field); [now apply IH|].
    destruct (isHeaderField field && (n =? 0)%Z) eqn:Hh; [now apply IH|].
    cbn [emitMembers]. unfold seq at 1 2.
    replace (n + 1 =? 1)%Z with (n =? 0)%Z
      by (destruct (Z.eqb_spec n 0), (Z.eqb_spec (n + 1) 1); lia).
    destruct (when (n =? 0)%Z (Fprintln "") w) as [w1|]; [|reflexivity].
    cbn [forEach]. unfold seq.
    destruct (generateField ctx fields i w1) as [w2|]; [|reflexivity].
    rewrite IH by lia.
    rewrite emitMembers_later
      by (destruct (Z.eqb_spec (n + 1) 0); [lia | reflexivity]).
    reflexivity.
Qed.

(** ** The members of a message *)

Lemma memberIndicesFrom_range (rest : list Field.t) :
  forall (i : nat) (n : Z) (j : nat),
    In j (memberIndicesFrom rest i n) -> i <= j < i + List.length rest.
Proof.
  induction rest as [|f rest IH]; intros i n j Hj; simpl in *; [contradiction|].
  destruct (isInternalField f); [apply IH in Hj; lia|].
  destruct (isHeaderField f && (n =? 0)%Z); [apply IH in Hj; lia|].
  destruct Hj as [<-|Hj]; [lia | apply IH in Hj; lia].
Qed.

Lemma memberIndicesFrom_app (pre rest : list Field.t) :
  forall (i : nat) (n : Z),
    memberIndicesFrom (pre ++ rest) i n =
    (memberIndicesFrom pre i n
     ++ memberIndicesFrom rest (i + List.length pre)
          (n + Z.of_nat (List.length (memberIndicesFrom pre i n))))%list.
Proof.
  induction pre as [|f pre IH]; intros i n; simpl.
  - f_equal; lia.
  - destruct (isInternalField f).
    + rewrite IH. do 2 f_equal. lia.
    + destruct (isHeaderField f && (n =? 0)%Z).
      * rewrite IH. do 2 f_equal. lia.
      * simpl. rewrite IH. do 3 f_equal; lia.
Qed.

Lemma memberIndices_in_range (fields : list Field.t) (j : nat) :
  In j (memberIndices fields) -> exists f, nth_error fields j = Some f.
Proof.
  intros Hj. apply memberIndicesFrom_range in Hj.
  destruct (nth_error fields j) as [f|] eqn:E; [now exists f|].
  apply nth_error_None in E. lia.
Qed.

Lemma emits_fields (ctx : context V) (fields : list Field.t) (idxs : list nat) :
  (forall j, In j idxs -> exists f, nth_error fields j = Some f) ->
  emits (forEach (generateField ctx fields) idxs)
        (concat (map (fieldChunksAt ctx fields) idxs)).
Proof.
  intros Hin. apply emits_forEach. intros j Hj.
  destruct (Hin j Hj) as [f Hf]. unfold fieldChunksAt. rewrite Hf.
  now apply generateField_emits.
Qed.

Lemma emits_emitMembers (ctx : context V) (fields : list Field.t) (n : Z) (idxs : list nat) :
  (forall j, In j idxs -> exists f, nth_error fields j = Some f) ->
  emits (emitMembers ctx fields n idxs) (memberChunks ctx fields n idxs).
Proof.
  intros Hin. unfold emitMembers, memberChunks.
  destruct idxs as [|j idxs]; [exact emits_skip|].
  apply emits_seq; [|now apply emits_fields].
  apply (emits_when _ _ [_]). apply emits_Fprintln.
Qed.

(** ** Steps whose writes do not depend on the stream *)

Lemma traced_emits (g : Gen) (cs : list string) : emits g cs -> traced g.
Proof. intros Hg. now exists cs. Qed.

Lemma traced_skip : traced skip.
Proof. exact (traced_emits _ _ emits_skip). Qed.

Lemma traced_Fprintf (s : string) : traced (Fprintf s).
Proof. exact (traced_emits _ _ (emits_Fprintf s)). Qed.

Lemma traced_Fprintln (s : string) : traced (Fprintln s).
Proof. exact (traced_emits _ _ (emits_Fprintln s)). Qed.

Lemma traced_seq (g1 g2 : Gen) : traced g1 -> traced g2 -> traced (g1 ;; g2).
Proof.
  intros [c1 H1] [c2 H2]. exists (c1 ++ c2)%list. now apply emits_seq.
Qed.

Lemma traced_when (b : bool) (g : Gen) : traced g -> traced (when b g).
Proof. intros Hg. destruct b; [exact Hg | exact traced_skip]. Qed.

Lemma traced_forEach {A : Type} (f : A -> Gen) (l : list A) :
  (forall x, traced (f x)) -> traced (forEach f l).
Proof.
  intros Hf. induction l as [|x l IH]; simpl.
  - exact traced_skip.
  - apply traced_seq; [apply Hf | exact IH].
Qed.

Lemma traced_ext (g1 g2 : Gen) : (forall w, g1 w = g2 w) -> traced g2 -> traced g1.
Proof.
  intros Heq [cs Hcs]. exists cs. intros w. rewrite Heq. apply Hcs.
Qed.

Ltac traced_step :=
  lazymatch goal with
  | |- traced (seq _ _) => apply traced_seq
  | |- traced (Fprintf _) => apply traced_Fprintf
  | |- traced (Fprintln _) => apply traced_Fprintln
  | |- traced skip => apply traced_skip
  | |- traced (when _ _) => apply traced_when
  | |- traced (forEach _ _) => apply traced_forEach; intros ?
  | |- traced (if ?b then _ else _) => destruct b
  | |- traced (let x := _ in _) => cbv zeta
  end.

Ltac traced_auto := repeat traced_step.

Lemma traced_generateField (ctx : context V) (fields : list Field.t) (i : nat) (field : Field.t) :
  nth_error fields i = Some field -> traced (generateField ctx fields i).
Proof.
  intros Hi. exact (traced_emits _ _ (generateField_emits ctx fields i field Hi)).
Qed.

Lemma traced_generateMessageNameGetter (structName msgName : string) :
  traced (generateMessageNameGetter structName msgName).
Proof. apply traced_Fprintf. Qed.

Lemma traced_generateTypeNameGetter (structName msgName : string) :
  traced (generateTypeNameGetter structName msgName).
Proof. apply traced_Fprintf. Qed.

Lemma traced_generateCrcGetter (structName crc : string) :
  traced (generateCrcGetter structName crc).
Proof. apply traced_Fprintf. Qed.

Lemma traced_generateMessageTypeGetter (structName : string) (msgType : MessageType) :
  traced (generateMessageTypeGetter structName msgType).
Proof. unfold generateMessageTypeGetter. traced_auto. Qed.

Lemma traced_generateCommentLoop (mapType : bool) (objTitle : string) (lines : list string) :
  forall (objFound : bool) (indent : Z) (trimIndent : string),
    traced (generateCommentLoop mapType objTitle lines objFound indent trimIndent).
Proof.
  induction lines as [|line lines IH]; intros objFound indent trimIndent;
    cbn [generateCommentLoop].
  - apply traced_skip.
  - traced_auto; apply IH.
Qed.

Lemma traced_generateComment (ctx : context V) (goName vppName objKind : string) :
  traced (generateComment ctx goName vppName objKind).
Proof.
  unfold generateComment. apply traced_seq; [traced_auto|].
  destruct (negb (includeComments ctx)); [apply traced_skip|].
  destruct ((objKind =? "alias")%string || (objKind =? "service")%string);
    (apply traced_seq; [apply traced_generateCommentLoop | apply traced_Fprintln]).
Qed.

Lemma traced_generateServiceMethod (ctx : context V) (svc : Service.t) :
  traced (generateServiceMethod ctx svc).
Proof. apply traced_Fprintf. Qed.

Lemma traced_generateServices (ctx : context V) (services : list Service.t) :
  traced (generateServices ctx services).
Proof.
  unfold generateServices.
  apply traced_seq; [apply traced_generateComment|].
  traced_auto; apply traced_generateServiceMethod.
Qed.

Lemma traced_generateEnum (ctx : context V) (enum : Enum.t V) :
  traced (generateEnum ctx enum).
Proof.
  unfold generateEnum.
  apply traced_seq; [apply traced_generateComment|]. traced_auto.
Qed.

Lemma traced_generateAlias (ctx : context V) (alias : Alias.t) :
  traced (generateAlias ctx alias).
Proof.
  unfold generateAlias.
  apply traced_seq; [apply traced_generateComment|]. traced_auto.
Qed.

Lemma traced_generateUnion (ctx : context V) (union : Union.t) :
  traced (generateUnion ctx union).
Proof.
  unfold generateUnion.
  apply traced_seq; [apply traced_generateComment|].
  do 3 (apply traced_seq; [traced_auto|]).
  apply traced_seq; [apply traced_generateTypeNameGetter|].
  apply traced_seq; [apply traced_when, traced_generateCrcGetter|].
  apply traced_seq; [|apply traced_Fprintln].
  apply traced_forEach. intros field. apply traced_Fprintf.
Qed.

Lemma traced_generateTypeLoop (ctx : context V) (fields rest : list Field.t) :
  forall i : nat,
    (forall k, nth_error rest k = nth_error fields (i + k)) ->
    traced (generateTypeLoop ctx fields rest i).
Proof.
  induction rest as [|field rest IH]; intros i Hinv; cbn [generateTypeLoop].
  - apply traced_skip.
  - assert (Hrest : forall k, nth_error rest k = nth_error fields (S i + k)).
    { intros k. specialize (Hinv (S k)). simpl in Hinv.
      now replace (S i + k) with (i + S k) by lia. }
    destruct ((ToLower (Field.Name field) =? crcField)%string
              || (ToLower (Field.Name field) =? msgIdField)%string).
    + now apply IH.
    + apply traced_seq; [|now apply IH].
      apply traced_generateField with field.
      specialize (Hinv 0). simpl in Hinv. now rewrite Nat.add_0_r in Hinv.
Qed.

Lemma traced_generateType (ctx : context V) (typ : Typ.t) :
  traced (generateType ctx typ).
Proof.
  unfold generateType.
  apply traced_seq; [apply traced_generateComment|].
  apply traced_seq; [apply traced_Fprintf|].
  apply traced_seq; [now apply traced_generateTypeLoop|].
  apply traced_seq; [apply traced_Fprintln|].
  apply traced_seq; [apply traced_generateTypeNameGetter|].
  apply traced_seq; [apply traced_when, traced_generateCrcGetter | apply traced_Fprintln].
Qed.

(** [generateMessage] writes the comment, the members numbered by
    [memberIndices] and the getters, the last one for the role [messageRole]. *)
Lemma generateMessage_eq (ctx : context V) (msg : Message.t) (w : W) :
  generateMessage ctx msg w =
  (generateComment ctx (camelCaseName (Message.Name msg)) (Message.Name msg) "message" ;;
   Fprintf ("type " ++ camelCaseName (Message.Name msg) ++ " struct {") ;;
   emitMembers ctx (Message.Fields msg) 0 (memberIndices (Message.Fields msg)) ;;
   Fprintln "}" ;;
   generateMessageNameGetter (camelCaseName (Message.Name msg)) (Message.Name msg) ;;
   generateCrcGetter (camelCaseName (Message.Name msg)) (Message.CRC msg) ;;
   generateMessageTypeGetter (camelCaseName (Message.Name msg))
     (messageRole (Message.Fields msg)) ;;
   Fprintln "") w.
Proof.
  unfold generateMessage, seq.
  destruct (generateComment _ _ _ _ w) as [w1|]; [|reflexivity].
  destruct (Fprintf _ w1) as [w2|]; [|reflexivity].
  rewrite generateMessageLoop_eq by lia.
  rewrite classifyFrom_messageRole. fold (memberIndices (Message.Fields msg)).
  destruct (emitMembers _ _ _ _ w2) as [w3|]; reflexivity.
Qed.

Lemma traced_generateMessage (ctx : context V) (msg : Message.t) :
  traced (generateMessage ctx msg).
Proof.
  eapply traced_ext; [apply generateMessage_eq|].
  apply traced_seq; [apply traced_generateComment|].
  apply traced_seq; [apply traced_Fprintf|].
  apply traced_seq.
  { eapply traced_emits, emits_emitMembers. apply memberIndices_in_range. }
  apply traced_seq; [apply traced_Fprintln|].
  apply traced_seq; [apply traced_generateMessageNameGetter|].
  apply traced_seq; [apply traced_generateCrcGetter|].
  apply traced_seq; [apply traced_generateMessageTypeGetter | apply traced_Fprintln].
Qed.

Lemma traced_generateHeader (ctx : context V) : traced (generateHeader ctx).
Proof. unfold generateHeader, printObjNum. traced_auto. Qed.

Lemma traced_generateImports (ctx : context V) : traced (generateImports ctx).
Proof. unfold generateImports. traced_auto. Qed.

Lemma traced_generatePackageBody (ctx : context V) : traced (generatePackageBody ctx).
Proof.
  unfold generatePackageBody.
  apply traced_seq; [apply traced_generateHeader|].
  apply traced_seq; [apply traced_generateImports|].
  do 6 (apply traced_seq; [traced_auto|]).
  apply traced_seq.
  { apply traced_when, traced_seq; [apply traced_Fprintf|].
    apply traced_forEach, traced_generateEnum. }
  apply traced_seq.
  { apply traced_when, traced_seq; [apply traced_Fprintf|].
    apply traced_forEach, traced_generateAlias. }
  apply traced_seq.
  { apply traced_when, traced_seq; [apply traced_Fprintf|].
    apply traced_forEach, traced_generateType. }
  apply traced_seq.
  { apply traced_when, traced_seq; [apply traced_Fprintf|].
    apply traced_forEach, traced_generateUnion. }
  apply traced_seq.
  { apply traced_when, traced_seq; [apply traced_Fprintf|].
    apply traced_seq; [apply traced_forEach, traced_generateMessage|].
    traced_auto. }
  do 2 apply traced_when. apply traced_generateServices.
Qed.

(** ** The field encoding planner *)

Lemma fieldDataType_array (ctx : context V) (field : Field.t) :
  (0 < Field.Length field)%Z \/ Field.SizeFrom field <> "" ->
  fieldDataType ctx field = arrayElemType (convertToGoType ctx (Field.Typ field))
  /\ fieldGoType ctx field = "[]" ++ arrayElemType (convertToGoType ctx (Field.Typ field)).
Proof.
  intros Harr. unfold fieldGoType, fieldDataType, arrayElemType.
  assert (Hc : (0 <? Field.Length field)%Z || negb (Field.SizeFrom field =? "")%string = true).
  { destruct Harr as [Hl|Hs].
    - apply Z.ltb_lt in Hl. now rewrite Hl.
    - apply String.eqb_neq in Hs. rewrite Hs. apply orb_true_r. }
  rewrite Hc. split; reflexivity.
Qed.

(** C1 (amended).  When a sibling [G] names the field [F] in its size-from
    reference and [F] is not a fixed-size array, the [struc] tag written for
    [F] is [sizeof=] followed by the normalized name of [G], the last sibling
    that names [F]; the tag is on [F], and [G] gets no tag from this
    relation.  When [F] has a positive length its tag is the one of a
    fixed-size array and no size source is recorded. *)
Theorem sizeof_tag_on_referenced_field :
  forall (ctx : context V) (pre post : list Field.t) (G F : Field.t) (i : nat),
    nth_error (pre ++ G :: post) i = Some F ->
    Field.SizeFrom G = Field.Name F ->
    Forall (fun f => Field.SizeFrom f <> Field.Name F) post ->
    emits (generateField ctx (pre ++ G :: post) i)
      (lenFieldChunks F
       ++ (tab ++ fieldGoName F ++ " " ++ fieldGoType ctx F)
          :: tagChunks (binapiTag ctx (pre ++ G :: post) F)
               (strucTag ctx (pre ++ G :: post) F)
       ++ [nl])
    /\ ((Field.Length F <= 0)%Z ->
        strucTag ctx (pre ++ G :: post) F
        = Some ("sizeof=" ++ camelCaseName (Field.Name G)))
    /\ ((0 < Field.Length F)%Z ->
        strucTag ctx (pre ++ G :: post) F
        = Some ("[" ++ fmt_d (Field.Length F) ++ "]"
                ++ arrayElemType (convertToGoType ctx (Field.Typ F))))
    /\ ((Field.Length G <= 0)%Z ->
        Forall (fun f => Field.SizeFrom f <> Field.Name G) (pre ++ G :: post) ->
        strucTag ctx (pre ++ G :: post) G = None).
Proof.
  intros ctx pre post G F i Hi HG Hpost. repeat split.
  - now apply generateField_emits.
  - intros HL. rewrite strucTag_strucStage. unfold strucStage.
    replace (0 <? Field.Length F)%Z with false by (symmetry; apply Z.ltb_ge; lia).
    now rewrite (lastReferrer_last pre post G (Field.Name F) HG Hpost).
  - intros HL. rewrite strucTag_strucStage. unfold strucStage.
    replace (0 <? Field.Length F)%Z with true by (symmetry; apply Z.ltb_lt; lia).
    now rewrite (proj1 (fieldDataType_array ctx F (or_introl HL))).
  - intros HL Hnone. rewrite strucTag_strucStage. unfold strucStage.
    replace (0 <? Field.Length G)%Z with false by (symmetry; apply Z.ltb_ge; lia).
    now rewrite lastReferrer_None.
Qed.

(** C4 (amended).  For a field whose type is [string], [generateField] first
    writes the line of an auxiliary [uint32] field named [XXX_<FieldName>Len]
    and tagged [struc:"sizeof=<FieldName>"], and the declaration of the field
    itself comes right after it. *)
Theorem string_field_length_companion :
  forall (ctx : context V) (fields : list Field.t) (i : nat) (field : Field.t),
    nth_error fields i = Some field ->
    Field.Typ field = "string" ->
    emits (generateField ctx fields i)
      ((tab ++ "XXX_" ++ fieldGoName field ++ "Len uint32 `struc:" ++ dq
        ++ "sizeof=" ++ fieldGoName field ++ dq ++ "`" ++ nl)
       :: (tab ++ fieldGoName field ++ " " ++ fieldGoType ctx field)
       :: tagChunks (binapiTag ctx fields field) (strucTag ctx fields field)
       ++ [nl]).
Proof.
  intros ctx fields i field Hi Hs.
  eapply emits_ext; [|now apply generateField_emits; eassumption].
  unfold fieldChunks, lenFieldChunks, lenFieldLine. rewrite Hs. reflexivity.
Qed.

(** C5.  For a field with [Length > 0] the [struc] tag is [[Length]T] where
    [T] is the element type of the field; and in every array field (a
    positive length or a size-from reference) the element type is declared
    and tagged as [byte] when the converted type is [uint8], and as the
    converted type otherwise. *)
Theorem fixed_array_tag_and_byte :
  forall (ctx : context V) (fields : list Field.t) (i : nat) (field : Field.t),
    nth_error fields i = Some field ->
    (0 < Field.Length field)%Z \/ Field.SizeFrom field <> "" ->
    let goType := convertToGoType ctx (Field.Typ field) in
    (goType = "uint8" -> arrayElemType goType = "byte")
    /\ (goType <> "uint8" -> arrayElemType goType = goType)
    /\ emits (generateField ctx fields i)
         (lenFieldChunks field
          ++ (tab ++ fieldGoName field ++ " []" ++ arrayElemType goType)
             :: tagChunks (binapiTag ctx fields field) (strucTag ctx fields field)
          ++ [nl])
    /\ ((0 < Field.Length field)%Z ->
        strucTag ctx fields field
        = Some ("[" ++ fmt_d (Field.Length field) ++ "]" ++ arrayElemType goType)).
Proof.
  intros ctx fields i field Hi Harr goType. subst goType.
  destruct (fieldDataType_array ctx field Harr) as [Hdt Hgt].
  repeat split.
  - intros ->. reflexivity.
  - intros Hne. unfold arrayElemType. apply String.eqb_neq in Hne. now rewrite Hne.
  - eapply emits_ext; [|now apply generateField_emits; eassumption].
    unfold fieldChunks. rewrite Hgt. reflexivity.
  - intros HL. rewrite strucTag_strucStage. unfold strucStage.
    replace (0 <? Field.Length field)%Z with true by (symmetry; apply Z.ltb_lt; lia).
    now rewrite Hdt.
Qed.

(** ** The getters *)

(** C7 (amended).  [generateCrcGetter] writes a method [GetCrcString] that
    returns the CRC string without its leading [0x]: for a CRC [0x] followed
    by [r] the literal is the one of [r]; a CRC that does not start with [0x]
    is returned as it is. *)
Theorem crc_getter_trims_hex_prefix :
  forall (structName crc : string),
    (forall r, crc = "0x" ++ r ->
               emits (generateCrcGetter structName crc) [crcGetterText structName r])
    /\ (HasPrefix crc "0x" = false ->
        emits (generateCrcGetter structName crc) [crcGetterText structName crc]).
Proof.
  intros structName crc. split.
  - intros r ->. unfold generateCrcGetter. rewrite TrimPrefix_app.
    apply emits_Fprintf.
  - intros Hp. unfold generateCrcGetter, TrimPrefix.
    unfold HasPrefix in Hp. destruct (stripPrefix crc "0x"); [discriminate|].
    apply emits_Fprintf.
Qed.

Lemma emits_generateMessageTypeGetter (structName : string) (msgType : MessageType) :
  emits (generateMessageTypeGetter structName msgType) (roleGetterChunks structName msgType).
Proof. destruct msgType; intros w; reflexivity. Qed.

(** ** The service method synthesizer *)

(** C8.  The result types in the signature written by
    [generateServiceMethod]: [error] alone for a service without reply type;
    a pointer to the reply type and [error], in parentheses, for a reply type
    without streaming; a slice of such pointers and [error] for a streaming
    service with a reply type.  The reply type appears under its normalized
    name, and the normalizer gives the empty identifier for the empty name
    only. *)
Theorem service_method_return_type :
  forall (ctx : context V) (svc : Service.t),
    (camelCaseName (Service.ReplyType svc) = "" <-> Service.ReplyType svc = "") ->
    emits (generateServiceMethod ctx svc) [methodSignature svc (returnTypeSpec svc)]
    /\ (Service.ReplyType svc = "" -> returnTypeSpec svc = "error")
    /\ (Service.ReplyType svc <> "" -> Service.Stream svc = false ->
        returnTypeSpec svc = "(*" ++ camelCaseName (Service.ReplyType svc) ++ ", error)")
    /\ (Service.ReplyType svc <> "" -> Service.Stream svc = true ->
        returnTypeSpec svc = "([]*" ++ camelCaseName (Service.ReplyType svc) ++ ", error)").
Proof.
  intros ctx svc Hcamel. repeat split.
  - intros w.
    unfold generateServiceMethod, methodSignature, serviceMethodName, returnTypeSpec.
    cbv zeta.
    destruct (String.eqb_spec (Service.ReplyType svc) "") as [He|Hne].
    + rewrite (proj2 Hcamel He). reflexivity.
    + destruct (String.eqb_spec (camelCaseName (Service.ReplyType svc)) "") as [Hc|Hc].
      * now apply Hcamel in Hc.
      * destruct (Service.Stream svc); reflexivity.
  - intros He. unfold returnTypeSpec. now rewrite He.
  - intros Hne Hs. unfold returnTypeSpec. apply String.eqb_neq in Hne.
    now rewrite Hne, Hs.
  - intros Hne Hs. unfold returnTypeSpec. apply String.eqb_neq in Hne.
    now rewrite Hne, Hs.
Qed.

(** ** The message role classifier *)

Lemma assignedRole_messageRole (ctx : context V) (fields : list Field.t) (w : W) :
  assignedRole ctx fields w = Some (messageRole fields).
Proof.
  unfold assignedRole. rewrite generateMessageLoop_eq by lia.
  rewrite classifyFrom_messageRole. fold (memberIndices fields).
  rewrite (emits_emitMembers ctx fields 0 (memberIndices fields)
             (memberIndices_in_range fields) w).
  reflexivity.
Qed.

(** C2.  The role that [generateMessage] assigns is a function of the names
    of the fields at the indices 1 and 2: Request for the client-index name
    followed by the context name, Event for the client-index name followed by
    anything else or by nothing, Reply for the context name at index 1, Other
    in every other case; and the getter [GetMessageType] written for the
    message returns the constant of that role. *)
Theorem message_role_table :
  forall (ctx : context V) (msg : Message.t),
    clientIndexField <> contextField ->
    let fields := Message.Fields msg in
    let name := camelCaseName (Message.Name msg) in
    (forall w, assignedRole ctx fields w = Some (messageRole fields))
    /\ (forall w,
          generateMessage ctx msg w =
          (generateComment ctx name (Message.Name msg) "message" ;;
           Fprintf ("type " ++ name ++ " struct {") ;;
           emitMembers ctx fields 0 (memberIndices fields) ;;
           Fprintln "}" ;;
           generateMessageNameGetter name (Message.Name msg) ;;
           generateCrcGetter name (Message.CRC msg) ;;
           generateMessageTypeGetter name (messageRole fields) ;;
           Fprintln "") w)
    /\ emits (generateMessageTypeGetter name (messageRole fields))
         [ ("func (*" ++ name ++ ") GetMessageType() api.MessageType {") ++ nl;
           tab ++ "return " ++ roleConstant (messageRole fields) ++ nl;
           "}" ++ nl ]
    /\ (forall f1 f2,
          nth_error fields 1 = Some f1 -> nth_error fields 2 = Some f2 ->
          Field.Name f1 = clientIndexField -> Field.Name f2 = contextField ->
          messageRole fields = requestMessage)
    /\ (forall f1,
          nth_error fields 1 = Some f1 -> Field.Name f1 = clientIndexField ->
          (forall f2, nth_error fields 2 = Some f2 -> Field.Name f2 <> contextField) ->
          messageRole fields = eventMessage)
    /\ (forall f1,
          nth_error fields 1 = Some f1 -> Field.Name f1 = contextField ->
          messageRole fields = replyMessage)
    /\ ((forall f1, nth_error fields 1 = Some f1 ->
                    Field.Name f1 <> clientIndexField /\ Field.Name f1 <> contextField) ->
        messageRole fields = otherMessage).
Proof.
  intros ctx msg Hne fields name. repeat split.
  - intros w. apply assignedRole_messageRole.
  - intros w. apply generateMessage_eq.
  - apply emits_generateMessageTypeGetter.
  - intros f1 f2 H1 H2 N1 N2. unfold messageRole. rewrite H1, H2.
    apply String.eqb_eq in N1, N2. now rewrite N1, N2.
  - intros f1 H1 N1 H2. unfold messageRole. rewrite H1.
    apply String.eqb_eq in N1. rewrite N1.
    destruct (nth_error fields 2) as [f2|]; [|reflexivity].
    specialize (H2 f2 eq_refl). apply String.eqb_neq in H2. now rewrite H2.
  - intros f1 H1 N1. unfold messageRole. rewrite H1.
    assert (Hc : (Field.Name f1 =? clientIndexField)%string = false).
    { apply String.eqb_neq. congruence. }
    apply String.eqb_eq in N1. now rewrite Hc, N1.
  - intros Hother. unfold messageRole.
    destruct (nth_error fields 1) as [f1|]; [|reflexivity].
    destruct (Hother f1 eq_refl) as [Ha Hb].
    apply String.eqb_neq in Ha, Hb. now rewrite Ha, Hb.
Qed.

Lemma messageRole_app (fields extra : list Field.t) :
  3 <= List.length fields -> messageRole (fields ++ extra) = messageRole fields.
Proof.
  intros Hlen. unfold messageRole.
  rewrite !nth_error_app1 by lia. reflexivity.
Qed.

(** ** The members written for a message *)

Lemma memberIndices_split (pre post : list Field.t) (f : Field.t) :
  memberIndices (pre ++ f :: post) =
  (memberIndices pre
   ++ memberIndicesFrom (f :: post) (List.length pre)
        (Z.of_nat (List.length (memberIndices pre))))%list.
Proof.
  unfold memberIndices. rewrite memberIndicesFrom_app. reflexivity.
Qed.

Lemma memberIndices_at (pre post : list Field.t) (f : Field.t) :
  In (List.length pre) (memberIndices (pre ++ f :: post)) <->
  isInternalField f = false /\ (isHeaderField f = true -> memberIndices pre <> []).
Proof.
  rewrite memberIndices_split, in_app_iff.
  assert (Hpre : ~ In (List.length pre) (memberIndices pre)).
  { intros Hin. apply memberIndicesFrom_range in Hin. lia. }
  assert (Hpost : forall n, ~ In (List.length pre)
                              (memberIndicesFrom post (S (List.length pre)) n)).
  { intros n Hin. apply memberIndicesFrom_range in Hin. lia. }
  cbn [memberIndicesFrom].
  destruct (isInternalField f).
  { split; [intros [Hin|Hin]; [now apply Hpre in Hin | now apply Hpost in Hin] | intros [Hd _]; discriminate]. }
  destruct (isHeaderField f); cbn [andb].
  - destruct (memberIndices pre) as [|j js] eqn:Em; cbn [List.length Z.of_nat Z.eqb].
    + split; [intros [Hin|Hin]; [now apply Hpre in Hin | now apply Hpost in Hin]|].
      intros [_ Hn]. now destruct (Hn eq_refl).
    + replace (Z.of_nat (S (List.length js)) =? 0)%Z with false
        by (symmetry; apply Z.eqb_neq; lia).
      split; [intros _; split; [reflexivity | discriminate] | intros _; right; now left].
  - split; [intros _; split; [reflexivity | discriminate] | intros _; right; now left].
Qed.

(** C3 (amended).  A field whose lower-cased name is the reserved message-id
    or checksum name is never written as a member of the struct of a
    message.  A field whose lower-cased name is the reserved client-index or
    context name is left out only while no member has been written; after
    the first member such a field is written as an ordinary member.  Every
    other field is written.  The struct has exactly the members numbered by
    [memberIndices], each written by [generateField]. *)
Theorem message_members_skip_rules :
  forall (ctx : context V) (msg : Message.t) (pre post : list Field.t) (f : Field.t),
    Message.Fields msg = (pre ++ f :: post)%list ->
    let fields := Message.Fields msg in
    let name := camelCaseName (Message.Name msg) in
    let i := List.length pre in
    (forall w,
       generateMessage ctx msg w =
       (generateComment ctx name (Message.Name msg) "message" ;;
        Fprintf ("type " ++ name ++ " struct {") ;;
        emitMembers ctx fields 0 (memberIndices fields) ;;
        Fprintln "}" ;;
        generateMessageNameGetter name (Message.Name msg) ;;
        generateCrcGetter name (Message.CRC msg) ;;
        generateMessageTypeGetter name (messageRole fields) ;;
        Fprintln "") w)
    /\ emits (emitMembers ctx fields 0 (memberIndices fields))
         (memberChunks ctx fields 0 (memberIndices fields))
    /\ (ToLower (Field.Name f) = crcField \/ ToLower (Field.Name f) = msgIdField ->
        ~ In i (memberIndices fields))
    /\ (ToLower (Field.Name f) <> crcField -> ToLower (Field.Name f) <> msgIdField ->
        ToLower (Field.Name f) = clientIndexField \/ ToLower (Field.Name f) = contextField ->
        (In i (memberIndices fields) <-> memberIndices pre <> []))
    /\ (ToLower (Field.Name f) <> crcField -> ToLower (Field.Name f) <> msgIdField ->
        ToLower (Field.Name f) <> clientIndexField ->
        ToLower (Field.Name f) <> contextField ->
        In i (memberIndices fields)).
Proof.
  intros ctx msg pre post f Hfields fields name i. subst fields name i.
  split; [intros w; apply generateMessage_eq|].
  split; [apply emits_emitMembers, memberIndices_in_range|].
  rewrite Hfields.
  assert (Hint : ToLower (Field.Name f) <> crcField ->
                 ToLower (Field.Name f) <> msgIdField -> isInternalField f = false).
  { intros Hc Hm. unfold isInternalField.
    apply String.eqb_neq in Hc, Hm. now rewrite Hc, Hm. }
  split; [|split].
  - intros Hskip. rewrite memberIndices_at. intros [Hi _].
    unfold isInternalField in Hi.
    destruct Hskip as [Hc|Hm].
    + apply String.eqb_eq in Hc. rewrite Hc in Hi. discriminate.
    + apply String.eqb_eq in Hm. rewrite Hm, orb_true_r in Hi. discriminate.
  - intros Hc Hm Hhead. rewrite memberIndices_at, (Hint Hc Hm).
    assert (Hh : isHeaderField f = true).
    { unfold isHeaderField.
      destruct Hhead as [He|He]; apply String.eqb_eq in He; rewrite He;
        [reflexivity | apply orb_true_r]. }
    rewrite Hh. split.
    + intros [_ Hn]. now apply Hn.
    + intros Hn. split; [reflexivity | intros _; exact Hn].
  - intros Hc Hm Hci Hcx. rewrite memberIndices_at, (Hint Hc Hm).
    split; [reflexivity|]. unfold isHeaderField.
    apply String.eqb_neq in Hci, Hcx. rewrite Hci, Hcx. discriminate.
Qed.

(** ** Failing writes *)

(** C6 (amended).  A write that fails does not stop the emission of a module
    and is not reported: the chunks that [generatePackage] writes are fixed
    by the schema, every one of them is passed to the stream whatever the
    earlier writes reported, nothing written is taken back, and the error
    returned is always [nil]. *)
Theorem generatePackage_ignores_write_errors :
  forall ctx : context V,
    exists cs : list string,
      forall w : W, generatePackage ctx w = Some (writes cs w, None).
Proof.
  intros ctx. destruct (traced_generatePackageBody ctx) as [cs Hcs].
  exists cs. intros w. unfold generatePackage. now rewrite Hcs.
Qed.

(** ** The documentation extractor *)

Lemma readLinesFrom_ReadString (buf : string) :
  forall cur : list ascii,
    readLinesFrom cur buf =
    match ReadString buf with
    | Some (line, rest) => (string_of_list_ascii (rev cur) ++ line) :: readLines rest
    | None => []
    end.
Proof.
  induction buf as [|c buf IH]; intros cur; simpl; [reflexivity|].
  destruct (Ascii.eqb c (ascii_of_nat 10)).
  - f_equal. simpl.
    assert (Happ : forall l1 l2, string_of_list_ascii (l1 ++ l2)
                                 = string_of_list_ascii l1 ++ string_of_list_ascii l2).
    { induction l1 as [|a l1 IH1]; intros l2; simpl; [reflexivity | now rewrite IH1]. }
    now rewrite Happ.
  - rewrite IH. destruct (ReadString buf) as [[line rest]|]; [|reflexivity].
    f_equal. simpl.
    assert (Happ : forall l1 l2, string_of_list_ascii (l1 ++ l2)
                                 = string_of_list_ascii l1 ++ string_of_list_ascii l2).
    { induction l1 as [|a l1 IH1]; intros l2; simpl; [reflexivity | now rewrite IH1]. }
    rewrite Happ. simpl.
    assert (Hassoc : forall s1 s2 s3 : string, (s1 ++ s2) ++ s3 = s1 ++ s2 ++ s3).
    { induction s1 as [|a s1 IH1]; intros s2 s3; simpl; [reflexivity | now rewrite IH1]. }
    now rewrite Hassoc.
Qed.

(** The lines that the loop of [generateComment] goes through are the ones
    that [ReadString] returns one after the other. *)
Lemma readLines_ReadString (buf : string) :
  readLines buf =
  match ReadString buf with
  | Some (line, rest) => line :: readLines rest
  | None => []
  end.
Proof. unfold readLines at 1. now rewrite readLinesFrom_ReadString. Qed.

(** On the line that holds the title alone the object is found: the marker
    line and the title line are written, and the loop goes on in the found
    state with the position of the title as the base indent. *)
Lemma generateCommentLoop_title (mapType : bool) (objTitle titleLine : string)
    (rest : list string) (indent0 : Z) (trimIndent0 : string) (w : W) :
  Index titleLine objTitle <> (-1)%Z ->
  TrimSpace titleLine = objTitle ->
  generateCommentLoop mapType objTitle (titleLine :: rest) false indent0 trimIndent0 w =
  generateCommentLoop mapType objTitle rest true (Index titleLine objTitle)
    (sliceTo titleLine (Index titleLine objTitle))
    (writes ["//" ++ nl; echoLine (sliceTo titleLine (Index titleLine objTitle)) titleLine] w).
Proof.
  intros Hidx Htitle. cbn [generateCommentLoop negb].
  apply Z.eqb_neq in Hidx. rewrite Hidx.
  apply String.eqb_eq in Htitle. rewrite Htitle. reflexivity.
Qed.

(** In the found state the lines that stay inside the object are echoed. *)
Lemma generateCommentLoop_inside (mapType : bool) (objTitle : string) (indent : Z)
    (trimIndent : string) (pre rest : list string) :
  Forall (staysInside mapType indent) pre ->
  forall w,
    generateCommentLoop mapType objTitle (pre ++ rest) true indent trimIndent w =
    generateCommentLoop mapType objTitle rest true indent trimIndent
      (writes (map (echoLine trimIndent) pre) w).
Proof.
  induction 1 as [|line pre [Hge Hmap] _ IH]; intros w; [reflexivity|].
  cbn [app generateCommentLoop negb map].
  replace (IndexNotSpace line <? indent)%Z with false
    by (symmetry; apply Z.ltb_ge; lia).
  replace (true && mapType && (IndexNotSpace line <=? indent)%Z) with false.
  - unfold seq, Fprintf. rewrite IH. reflexivity.
  - destruct mapType; [|reflexivity].
    specialize (Hmap eq_refl). symmetry. apply Z.leb_gt. lia.
Qed.

(** A line indented less than the base indent ends the echo and is not
    echoed, for both kinds of objects. *)
Lemma generateCommentLoop_outdent (mapType : bool) (objTitle : string) (indent : Z)
    (trimIndent line : string) (post : list string) (w : W) :
  (IndexNotSpace line < indent)%Z ->
  generateCommentLoop mapType objTitle (line :: post) true indent trimIndent w = Some w.
Proof.
  intros Hlt. cbn [generateCommentLoop negb].
  apply Z.ltb_lt in Hlt. now rewrite Hlt.
Qed.

(** For a map-style object a line at the base indent is echoed and ends the echo. *)
Lemma generateCommentLoop_closing (objTitle : string) (indent : Z)
    (trimIndent line : string) (post : list string) (w : W) :
  IndexNotSpace line = indent ->
  generateCommentLoop true objTitle (line :: post) true indent trimIndent w =
  Some (writes [echoLine trimIndent line] w).
Proof.
  intros Heq. cbn [generateCommentLoop negb]. rewrite Heq.
  rewrite Z.ltb_irrefl, Z.leb_refl. reflexivity.
Qed.

(** C9 (amended).  Once the title line is found the lines that follow are
    echoed as long as they stay inside the object.  For an array-style object
    the echo stops at the first line indented strictly less than the base
    indent, and that line is not echoed.  For a map-style object the echo
    stops at the first line indented less than or equal to the base indent,
    and that line is echoed before stopping when its indentation equals the
    base indent.  (The branch that ends the echo on a line indented strictly
    less comes first for both kinds of objects, so such a line is written
    for neither.) *)
Theorem comment_echo_stops :
  forall (mapType : bool) (objTitle titleLine : string) (pre post : list string)
         (last : string) (indent0 : Z) (trimIndent0 : string),
    let indent := Index titleLine objTitle in
    let trimIndent := sliceTo titleLine indent in
    indent <> (-1)%Z ->
    TrimSpace titleLine = objTitle ->
    Forall (staysInside mapType indent) pre ->
    (mapType = false -> (IndexNotSpace last < indent)%Z ->
     emits (generateCommentLoop mapType objTitle (titleLine :: pre ++ last :: post)
              false indent0 trimIndent0)
       (("//" ++ nl) :: map (echoLine trimIndent) (titleLine :: pre)))
    /\ (mapType = true -> IndexNotSpace last = indent ->
        emits (generateCommentLoop mapType objTitle (titleLine :: pre ++ last :: post)
                 false indent0 trimIndent0)
          (("//" ++ nl) :: map (echoLine trimIndent) (titleLine :: pre ++ [last])))
    /\ (mapType = true -> (IndexNotSpace last < indent)%Z ->
        emits (generateCommentLoop mapType objTitle (titleLine :: pre ++ last :: post)
                 false indent0 trimIndent0)
          (("//" ++ nl) :: map (echoLine trimIndent) (titleLine :: pre))).
Proof.
  intros mapType objTitle titleLine pre post last indent0 trimIndent0 indent trimIndent
         Hidx Htitle Hpre.
  assert (Hout : (IndexNotSpace last < indent)%Z ->
                 emits (generateCommentLoop mapType objTitle
                          (titleLine :: pre ++ last :: post) false indent0 trimIndent0)
                   (("//" ++ nl) :: map (echoLine trimIndent) (titleLine :: pre))).
  { intros Hlt w.
    rewrite generateCommentLoop_title by assumption.
    fold indent. fold trimIndent.
    rewrite generateCommentLoop_inside by assumption.
    rewrite generateCommentLoop_outdent by assumption.
    reflexivity. }
  split; [intros _; exact Hout|]. split; [|intros _; exact Hout].
  intros -> Heq w.
  rewrite generateCommentLoop_title by assumption.
  fold indent. fold trimIndent.
  rewrite generateCommentLoop_inside by assumption.
  rewrite generateCommentLoop_closing by assumption.
  f_equal. rewrite <- !writes_app. f_equal.
  cbn [map app]. now rewrite map_app.
Qed.

(** ** More on Go's string functions *)

Lemma append_assoc_s (a b c : string) : (a ++ b) ++ c = a ++ b ++ c.
Proof. induction a as [|x a IH]; simpl; [reflexivity | now rewrite IH]. Qed.

Lemma append_empty_r (a : string) : a ++ "" = a.
Proof. induction a as [|x a IH]; simpl; [reflexivity | now rewrite IH]. Qed.

Lemma length_append_s (a b : string) :
  String.length (a ++ b) = String.length a + String.length b.
Proof. induction a as [|x a IH]; simpl; [reflexivity | now rewrite IH]. Qed.

Lemma HasPrefix_app (p r : string) : HasPrefix (p ++ r) p = true.
Proof. unfold HasPrefix. now rewrite stripPrefix_app. Qed.

Lemma HasPrefix_true (s p : string) : HasPrefix s p = true -> exists r, s = p ++ r.
Proof.
  unfold HasPrefix. destruct (stripPrefix s p) as [r|] eqn:E; [|discriminate].
  intros _. exists r. now apply stripPrefix_Some.
Qed.

Lemma Index_unfold (s sub : string) :
  Index s sub =
  if HasPrefix s sub then 0%Z
  else match s with
       | EmptyString => (-1)%Z
       | String _ s' => if (Index s' sub <? 0)%Z then (-1)%Z else (Index s' sub + 1)%Z
       end.
Proof. destruct s; reflexivity. Qed.

Lemma Index_range (s sub : string) :
  Index s sub = (-1)%Z \/ (0 <= Index s sub <= Z.of_nat (String.length s))%Z.
Proof.
  induction s as [|c s IH]; rewrite Index_unfold.
  - destruct (HasPrefix "" sub); [right; simpl; lia | now left].
  - destruct (HasPrefix (String c s) sub); [right; simpl; lia|].
    destruct (Z.ltb_spec (Index s sub) 0); [now left|].
    right. cbn [String.length]. lia.
Qed.

(** A non-negative result of [Index] is the length of what precedes an
    occurrence of [sub]. *)
Lemma Index_split (s sub : string) :
  (0 <= Index s sub)%Z ->
  exists a b, s = a ++ sub ++ b /\ Z.of_nat (String.length a) = Index s sub.
Proof.
  induction s as [|c s IH]; rewrite Index_unfold.
  - destruct (HasPrefix "" sub) eqn:Hp; [|lia].
    intros _. destruct (HasPrefix_true _ _ Hp) as [r Hr]. now exists "", r.
  - destruct (HasPrefix (String c s) sub) eqn:Hp.
    + intros _. destruct (HasPrefix_true _ _ Hp) as [r Hr]. now exists "", r.
    + destruct (Z.ltb_spec (Index s sub) 0) as [Hneg|Hpos]; [lia|].
      intros _. destruct (IH Hpos) as (a & b & Hs & Hlen).
      exists (String c a), b. split; [simpl; now rewrite <- Hs|].
      cbn [String.length]. lia.
Qed.

(** [Index] finds an occurrence of [sub] and none comes before the one it finds. *)
Lemma Index_first (a sub b : string) :
  (0 <= Index (a ++ sub ++ b) sub <= Z.of_nat (String.length a))%Z.
Proof.
  induction a as [|c a IH].
  - rewrite Index_unfold. cbn [append]. rewrite HasPrefix_app. simpl. lia.
  - rewrite Index_unfold. cbn [append].
    destruct (HasPrefix (String c (a ++ sub ++ b)) sub); [simpl; lia|].
    destruct (Z.ltb_spec (Index (a ++ sub ++ b) sub) 0); [lia|].
    cbn [String.length]. lia.
Qed.

Lemma sliceTo_app (a r : string) : sliceTo (a ++ r) (Z.of_nat (String.length a)) = a.
Proof.
  unfold sliceTo. rewrite Nat2Z.id.
  induction a as [|c a IH]; simpl; [now destruct r | now rewrite IH].
Qed.

(** The slice up to the index of [sub] holds no occurrence of [sub], when
    [sub] is not empty. *)
Lemma Index_sliceTo_none (s sub : string) :
  sub <> "" -> (0 <= Index s sub)%Z -> Index (sliceTo s (Index s sub)) sub = (-1)%Z.
Proof.
  intros Hsub Hpos. destruct (Index_split s sub Hpos) as (a & b & Hs & Hlen).
  rewrite <- Hlen. rewrite Hs at 1. rewrite sliceTo_app.
  destruct (Index_range a sub) as [Hnone|[Hlo Hhi]]; [exact Hnone|].
  destruct (Index_split a sub Hlo) as (a1 & b1 & Ha & Hlen1).
  assert (Hfirst := Index_first a1 sub (b1 ++ sub ++ b)).
  replace (a1 ++ sub ++ b1 ++ sub ++ b) with s in Hfirst
    by (rewrite Hs, Ha, !append_assoc_s; reflexivity).
  assert (Hl : String.length a = String.length a1 + (String.length sub + String.length b1))
    by (rewrite Ha at 1; now rewrite !length_append_s).
  assert (0 < String.length sub) by (destruct sub; [congruence | simpl; lia]).
  lia.
Qed.

Lemma stripSuffix_unfold (s suf : string) :
  stripSuffix s suf =
  if (s =? suf)%string then Some ""
  else match s with
       | EmptyString => None
       | String c s' => option_map (String c) (stripSuffix s' suf)
       end.
Proof. destruct s; reflexivity. Qed.

Lemma stripSuffix_app (p suf : string) : stripSuffix (p ++ suf) suf = Some p.
Proof.
  induction p as [|c p IH]; rewrite stripSuffix_unfold; cbn [append].
  - now rewrite String.eqb_refl.
  - destruct (String.eqb_spec (String c (p ++ suf)) suf) as [Heq|_].
    + apply (f_equal String.length) in Heq. cbn [String.length] in Heq.
      rewrite length_append_s in Heq. lia.
    + now rewrite IH.
Qed.

Lemma stripSuffix_Some (s suf p : string) : stripSuffix s suf = Some p -> s = p ++ suf.
Proof.
  revert p. induction s as [|c s IH]; intros p; rewrite stripSuffix_unfold.
  - destruct (String.eqb_spec "" suf) as [<-|_]; [|discriminate].
    now intros [= <-].
  - destruct (String.eqb_spec (String c s) suf) as [<-|_].
    + now intros [= <-].
    + destruct (stripSuffix s suf) as [q|]; [|discriminate].
      intros [= <-]. simpl. f_equal. now apply IH.
Qed.

Lemma HasSuffix_app (p suf : string) : HasSuffix (p ++ suf) suf = true.
Proof. unfold HasSuffix. now rewrite stripSuffix_app. Qed.

Lemma HasSuffix_true (s suf : string) : HasSuffix s suf = true -> exists p, s = p ++ suf.
Proof.
  unfold HasSuffix. destruct (stripSuffix s suf) as [p|] eqn:E; [|discriminate].
  intros _. exists p. now apply stripSuffix_Some.
Qed.

(** ** [getContext] *)

(** A name that ends with the extension of the input files holds a dot. *)
Lemma Index_dot_of_input_name (name : string) :
  HasSuffix name inputFileExt = true -> (0 <= Index name ".")%Z.
Proof.
  intros Hs. destruct (HasSuffix_true _ _ Hs) as [p ->].
  change inputFileExt with ("." ++ "api.json").
  apply (Index_first p "." "api.json").
Qed.

(** X1.  [getContext] refuses an input file whose name does not end with
    [.api.json]: it returns the error and no context.  For a name with the
    extension it returns a context for that file and no error; the slice that
    cuts the module name cannot go out of range, since the base name keeps
    the extension and so holds a dot. *)
Theorem getContext_checks_extension :
  forall path outputDir : string,
    (HasSuffix path inputFileExt = false ->
     getContext path outputDir
     = Some (None, Some ("invalid input file name: " ++ fmt_q path)))
    /\ (HasSuffix path inputFileExt = true ->
        HasSuffix (Base path) inputFileExt = true ->
        exists ctx, getContext path outputDir = Some (Some ctx, None)
                    /\ inputFile ctx = path).
Proof.
  intros path outputDir. unfold getContext. split.
  - intros Hs. now rewrite Hs.
  - intros Hs Hb. rewrite Hs. cbn [negb].
    apply Index_dot_of_input_name in Hb.
    replace (Index (Base path) "." <? 0)%Z with false
      by (symmetry; apply Z.ltb_ge; lia).
    eexists. split; reflexivity.
Qed.

(** X2.  The module name that [getContext] gives is the base name of the
    input file up to its first dot: the base name is the module name, a dot
    and a rest, and the module name holds no dot. *)
Theorem getContext_module_name :
  forall (path outputDir : string) (ctx : context V),
    getContext path outputDir = Some (Some ctx, None) ->
    (exists rest, Base path = moduleName ctx ++ "." ++ rest)
    /\ Index (moduleName ctx) "." = (-1)%Z.
Proof.
  intros path outputDir ctx. unfold getContext.
  destruct (negb (HasSuffix path inputFileExt)); [discriminate|].
  destruct (Z.ltb_spec (Index (Base path) ".") 0) as [|Hpos]; [discriminate|].
  intros [= <-]. cbn [moduleName]. split.
  - destruct (Index_split _ _ Hpos) as (a & b & Hs & Hlen).
    exists b. rewrite <- Hlen. rewrite Hs at 2. now rewrite sliceTo_app.
  - apply Index_sliceTo_none; [discriminate | exact Hpos].
Qed.

(** X3.  The package name that [getContext] gives is never one of the words
    [interface] and [map]: these two module names become [interfaces] and
    [maps], every other module name is kept.  The output file is the package
    name with the extension [.ba.go], in the directory of the package name
    under the output directory. *)
Theorem getContext_package_name :
  forall (path outputDir : string) (ctx : context V),
    getContext path outputDir = Some (Some ctx, None) ->
    packageName ctx <> "interface"
    /\ packageName ctx <> "map"
    /\ (moduleName ctx = "interface" -> packageName ctx = "interfaces")
    /\ (moduleName ctx = "map" -> packageName ctx = "maps")
    /\ (moduleName ctx <> "interface" -> moduleName ctx <> "map" ->
        packageName ctx = moduleName ctx)
    /\ outputFile ctx
       = Join (Join outputDir (packageName ctx)) (packageName ctx ++ outputFileExt).
Proof.
  intros path outputDir ctx. unfold getContext.
  destruct (negb (HasSuffix path inputFileExt)); [discriminate|].
  destruct (Index (Base path) "." <? 0)%Z; [discriminate|].
  intros [= <-]. cbn [moduleName packageName outputFile].
  set (m := sliceTo (Base path) (Index (Base path) ".")).
  destruct (String.eqb_spec m "interface") as [Hi|Hi].
  { rewrite Hi. repeat split; try discriminate; congruence. }
  destruct (String.eqb_spec m "map") as [Hm|Hm].
  { rewrite Hm. repeat split; try discriminate; congruence. }
  repeat split; congruence.
Qed.

(** ** More on the field encoding planner *)

(** X4.  [generateField] panics exactly when the index is not one of the
    slice; on an index of the slice it writes its chunks and gives the stream
    back. *)
Theorem generateField_panics_out_of_range :
  forall (ctx : context V) (fields : list Field.t) (i : nat) (w : W),
    generateField ctx fields i w = None <-> List.length fields <= i.
Proof.
  intros ctx fields i w. rewrite <- nth_error_None.
  destruct (nth_error fields i) as [field|] eqn:Hi.
  - rewrite (generateField_emits ctx fields i field Hi w). split; discriminate.
  - unfold generateField. rewrite Hi. split; reflexivity.
Qed.

(** X5.  A field without length, without size-from reference, that no sibling
    names as its size source and that has no [binapi] tag is written as the
    plain declaration of its converted type, without tag; in particular
    [uint8] stays [uint8] outside an array. *)
Theorem scalar_field_plain_declaration :
  forall (ctx : context V) (fields : list Field.t) (i : nat) (field : Field.t),
    nth_error fields i = Some field ->
    (Field.Length field <= 0)%Z ->
    Field.SizeFrom field = "" ->
    Forall (fun f => Field.SizeFrom f <> Field.Name field) fields ->
    includeBinapiNames ctx = false ->
    (FieldMeta.Limit (Field.Meta field) <= 0)%Z ->
    emits (generateField ctx fields i)
      (lenFieldChunks field
       ++ [tab ++ fieldGoName field ++ " " ++ convertToGoType ctx (Field.Typ field); nl]).
Proof.
  intros ctx fields i field Hi HL HS Hnone Hb Hlim.
  eapply emits_ext; [|apply (generateField_emits ctx fields i field Hi)].
  unfold fieldChunks. rewrite strucTag_strucStage, binapiTag_binapiStage.
  unfold strucStage, binapiStage, fieldGoType, fieldDataType.
  rewrite (lastReferrer_None _ _ Hnone), Hb, HS.
  replace (0 <? Field.Length field)%Z with false by (symmetry; apply Z.ltb_ge; lia).
  replace (0 <? FieldMeta.Limit (Field.Meta field))%Z with false
    by (symmetry; apply Z.ltb_ge; lia).
  reflexivity.
Qed.

(** X6.  The [binapi] tag that [generateField] writes for a field: the
    original name when the names are included, followed by [,limit=N] when
    the field has a positive limit.  A positive limit without the names gives
    the tag [,limit=N], which starts with the comma, since the entry read
    back from the map is missing.  Without names and without limit no
    [binapi] tag is written. *)
Theorem binapi_tag_cases :
  forall (ctx : context V) (fields : list Field.t) (i : nat) (field : Field.t),
    nth_error fields i = Some field ->
    let limit := FieldMeta.Limit (Field.Meta field) in
    let declaration := tab ++ fieldGoName field ++ " " ++ fieldGoType ctx field in
    let written (binapi : option string) :=
      (lenFieldChunks field
       ++ declaration :: tagChunks binapi (strucTag ctx fields field)
       ++ [nl])%list in
    (includeBinapiNames ctx = true -> (limit <= 0)%Z ->
     emits (generateField ctx fields i) (written (Some (Field.Name field))))
    /\ (includeBinapiNames ctx = true -> (0 < limit)%Z ->
        emits (generateField ctx fields i)
              (written (Some (Field.Name field ++ ",limit=" ++ fmt_d limit))))
    /\ (includeBinapiNames ctx = false -> (0 < limit)%Z ->
        emits (generateField ctx fields i) (written (Some (",limit=" ++ fmt_d limit))))
    /\ (includeBinapiNames ctx = false -> (limit <= 0)%Z ->
        emits (generateField ctx fields i) (written None)).
Proof.
  intros ctx fields i field Hi limit declaration written.
  subst limit declaration written.
  assert (Hgen := generateField_emits ctx fields i field Hi).
  unfold fieldChunks in Hgen. rewrite binapiTag_binapiStage in Hgen.
  unfold binapiStage in Hgen.
  repeat split; intros Hb Hl; rewrite Hb in Hgen.
  - replace (0 <? _)%Z with false in Hgen by (symmetry; apply Z.ltb_ge; lia). exact Hgen.
  - replace (0 <? _)%Z with true in Hgen by (symmetry; apply Z.ltb_lt; lia). exact Hgen.
  - replace (0 <? _)%Z with true in Hgen by (symmetry; apply Z.ltb_lt; lia). exact Hgen.
  - replace (0 <? _)%Z with false in Hgen by (symmetry; apply Z.ltb_ge; lia). exact Hgen.
Qed.

Lemma lastReferrer_siblingKey (fields fields' : list Field.t) (name : string) :
  map siblingKey fields = map siblingKey fields' ->
  option_map Field.Name (lastReferrer fields name)
  = option_map Field.Name (lastReferrer fields' name).
Proof.
  revert fields'. induction fields as [|f fields IH]; intros [|f' fields'] Hmap;
    try discriminate; [reflexivity|].
  injection Hmap as Hsf Hname Hrest. simpl.
  specialize (IH fields' Hrest).
  destruct (lastReferrer fields name), (lastReferrer fields' name);
    try discriminate; [exact IH|].
  rewrite Hsf. destruct (Field.SizeFrom f' =? name)%string; simpl; [now rewrite Hname|].
  reflexivity.
Qed.

Lemma encoding_from_keys (ctx : context V) (fields fields' : list Field.t)
    (field field' : Field.t) :
  encodingKey field = encodingKey field' ->
  map siblingKey fields = map siblingKey fields' ->
  lenFieldChunks field = lenFieldChunks field'
  /\ fieldGoName field = fieldGoName field'
  /\ fieldGoType ctx field = fieldGoType ctx field'
  /\ strucTag ctx fields field = strucTag ctx fields' field'.
Proof.
  intros Hkey Hsib.
  unfold encodingKey in Hkey. injection Hkey as Hn Ht Hl Hs.
  split; [|split; [|split]].
  - unfold lenFieldChunks, lenFieldLine, fieldGoName. now rewrite Hn, Ht.
  - unfold fieldGoName. now rewrite Hn.
  - unfold fieldGoType, fieldDataType. now rewrite Ht, Hl, Hs.
  - rewrite !strucTag_strucStage. unfold strucStage, fieldDataType.
    rewrite Ht, Hl, Hs, Hn.
    destruct (0 <? Field.Length field')%Z; [reflexivity|].
    assert (Hr := lastReferrer_siblingKey fields fields' (Field.Name field') Hsib).
    destruct (lastReferrer fields (Field.Name field')),
             (lastReferrer fields' (Field.Name field')); simpl in Hr;
      try discriminate; [|reflexivity].
    now injection Hr as ->.
Qed.

(** X7.  What [generateField] writes as the encoding of a field does not
    depend on the limit metadata nor on anything but the name, type, length
    and size-from reference of the field and the names and size-from
    references of its siblings: for two fields that agree on these,
    [generateField] writes the same length companion, the same declaration
    and the same [struc] tag; only the [binapi] tag may differ. *)
Theorem encoding_ignores_metadata :
  forall (ctx : context V) (fields fields' : list Field.t) (i i' : nat)
         (field field' : Field.t),
    nth_error fields i = Some field ->
    nth_error fields' i' = Some field' ->
    encodingKey field = encodingKey field' ->
    map siblingKey fields = map siblingKey fields' ->
    let declaration := tab ++ fieldGoName field ++ " " ++ fieldGoType ctx field in
    emits (generateField ctx fields i)
      (lenFieldChunks field
       ++ declaration
          :: tagChunks (binapiTag ctx fields field) (strucTag ctx fields field)
       ++ [nl])
    /\ emits (generateField ctx fields' i')
         (lenFieldChunks field
          ++ declaration
             :: tagChunks (binapiTag ctx fields' field') (strucTag ctx fields field)
          ++ [nl])
    /\ fieldGoType ctx field = fieldGoType ctx field'
    /\ strucTag ctx fields field = strucTag ctx fields' field'.
Proof.
  intros ctx fields fields' i i' field field' Hi Hi' Hkey Hsib declaration.
  subst declaration.
  destruct (encoding_from_keys ctx fields fields' field field' Hkey Hsib)
    as (Hlen & Hname & Htype & Hstruc).
  split; [apply (generateField_emits ctx fields i field Hi)|].
  split; [|split; assumption].
  rewrite Hlen, Hname, Htype, Hstruc.
  apply (generateField_emits ctx fields' i' field' Hi').
Qed.

(** X8.  When a field has both tags they are written in the order of their
    keys, [binapi] first and [struc] second, with one blank between them,
    inside one pair of back quotes. *)
Theorem field_tags_in_key_order :
  forall (ctx : context V) (fields : list Field.t) (i : nat) (field : Field.t)
         (b s : string),
    nth_error fields i = Some field ->
    binapiTag ctx fields field = Some b ->
    strucTag ctx fields field = Some s ->
    emits (generateField ctx fields i)
      (lenFieldChunks field
       ++ [tab ++ fieldGoName field ++ " " ++ fieldGoType ctx field;
           tab ++ "`";
           "binapi:" ++ dq ++ b ++ dq;
           " ";
           "struc:" ++ dq ++ s ++ dq;
           "`";
           nl]).
Proof.
  intros ctx fields i field b s Hi Hb Hs.
  eapply emits_ext; [|apply (generateField_emits ctx fields i field Hi)].
  unfold fieldChunks. now rewrite Hb, Hs.
Qed.

(** ** More on types and messages *)

Lemma emits_generateTypeLoop (ctx : context V) (fields rest : list Field.t) :
  forall i : nat,
    (forall k, nth_error rest k = nth_error fields (i + k)) ->
    emits (generateTypeLoop ctx fields rest i)
          (concat (map (fieldChunks ctx fields) (typeMembers rest))).
Proof.
  induction rest as [|field rest IH]; intros i Hinv; cbn [generateTypeLoop].
  - exact emits_skip.
  - assert (Hrest : forall k, nth_error rest k = nth_error fields (S i + k)).
    { intros k. specialize (Hinv (S k)). simpl in Hinv.
      now replace (S i + k) with (i + S k) by lia. }
    unfold typeMembers. cbn [filter]. fold (typeMembers rest).
    change ((ToLower (Field.Name field) =? crcField)%string
            || (ToLower (Field.Name field) =? msgIdField)%string)
      with (isInternalField field).
    destruct (isInternalField field); cbn [negb].
    + now apply IH.
    + cbn [map concat]. apply emits_seq; [|now apply IH].
      apply generateField_emits.
      specialize (Hinv 0). simpl in Hinv. now rewrite Nat.add_0_r in Hinv.
Qed.

(** X9.  The members of the struct of a type are its fields in their order,
    without those whose lower-cased name is the reserved checksum or
    message-id name; fields named as the client index or the context are
    members of a type like any other field. *)
Theorem type_members_written :
  forall (ctx : context V) (typ : Typ.t),
    emits (generateTypeLoop ctx (Typ.Fields typ) (Typ.Fields typ) 0)
          (concat (map (fieldChunks ctx (Typ.Fields typ)) (typeMembers (Typ.Fields typ))))
    /\ (forall f, In f (typeMembers (Typ.Fields typ)) <->
                  In f (Typ.Fields typ)
                  /\ ToLower (Field.Name f) <> crcField
                  /\ ToLower (Field.Name f) <> msgIdField).
Proof.
  intros ctx typ. split.
  - now apply emits_generateTypeLoop.
  - intros f. unfold typeMembers. rewrite filter_In. unfold isInternalField.
    rewrite negb_true_iff, orb_false_iff, !String.eqb_neq. reflexivity.
Qed.

Lemma memberIndicesFrom_reserved (hdr : list Field.t) :
  forall i : nat,
    Forall (fun f => isInternalField f = true \/ isHeaderField f = true) hdr ->
    memberIndicesFrom hdr i 0 = [].
Proof.
  induction hdr as [|f hdr IH]; intros i Hall; [reflexivity|].
  inversion Hall as [|? ? Hf Hrest]; subst. cbn [memberIndicesFrom].
  destruct (isInternalField f); [now apply IH|].
  destruct Hf as [Hf|Hf]; [discriminate|]. rewrite Hf. cbn. now apply IH.
Qed.

(** X10.  The reserved fields at the head of a message (checksum and
    message-id names, client-index and context names, after lower-casing)
    are all left out, and the members are taken from the fields that follow
    them.  A message made of reserved fields only has no member: its struct
    is written as an opening and a closing brace with nothing between. *)
Theorem leading_reserved_fields_omitted :
  forall (ctx : context V) (msg : Message.t) (hdr rest : list Field.t),
    Message.Fields msg = (hdr ++ rest)%list ->
    Forall (fun f => isInternalField f = true \/ isHeaderField f = true) hdr ->
    memberIndices (Message.Fields msg) = memberIndicesFrom rest (List.length hdr) 0
    /\ (rest = [] ->
        forall w,
          generateMessage ctx msg w =
          (generateComment ctx (camelCaseName (Message.Name msg)) (Message.Name msg)
             "message" ;;
           Fprintf ("type " ++ camelCaseName (Message.Name msg) ++ " struct {") ;;
           Fprintln "}" ;;
           generateMessageNameGetter (camelCaseName (Message.Name msg)) (Message.Name msg) ;;
           generateCrcGetter (camelCaseName (Message.Name msg)) (Message.CRC msg) ;;
           generateMessageTypeGetter (camelCaseName (Message.Name msg))
             (messageRole (Message.Fields msg)) ;;
           Fprintln "") w).
Proof.
  intros ctx msg hdr rest Hfields Hall.
  assert (Hidx : memberIndices (Message.Fields msg)
                 = memberIndicesFrom rest (List.length hdr) 0).
  { rewrite Hfields. unfold memberIndices. rewrite memberIndicesFrom_app.
    now rewrite (memberIndicesFrom_reserved hdr 0 Hall). }
  split; [exact Hidx|].
  intros -> w. rewrite generateMessage_eq, Hidx. unfold seq.
  destruct (generateComment _ _ _ _ w) as [w1|]; [|reflexivity].
  destruct (Fprintf _ w1) as [w2|]; reflexivity.
Qed.

(** X11.  In a message whose first field is the message id, the role and the
    omission of the second field are decided by different tests: the role
    compares the name itself, the omission compares the lower-cased name.  A
    second field whose name is the client-index or context name only after
    lower-casing is left out of the struct that [generateMessage] writes,
    whose members all come from the index 2 on, and the getter written for
    the message returns the role Other. *)
Theorem role_and_omission_use_different_tests :
  forall (ctx : context V) (msg : Message.t) (f0 f1 : Field.t) (rest : list Field.t),
    Message.Fields msg = f0 :: f1 :: rest ->
    ToLower (Field.Name f0) = msgIdField ->
    Field.Name f1 <> clientIndexField ->
    Field.Name f1 <> contextField ->
    ToLower (Field.Name f1) = clientIndexField \/ ToLower (Field.Name f1) = contextField ->
    (forall w,
       generateMessage ctx msg w =
       (generateComment ctx (camelCaseName (Message.Name msg)) (Message.Name msg)
          "message" ;;
        Fprintf ("type " ++ camelCaseName (Message.Name msg) ++ " struct {") ;;
        emitMembers ctx (Message.Fields msg) 0 (memberIndicesFrom rest 2 0) ;;
        Fprintln "}" ;;
        generateMessageNameGetter (camelCaseName (Message.Name msg)) (Message.Name msg) ;;
        generateCrcGetter (camelCaseName (Message.Name msg)) (Message.CRC msg) ;;
        generateMessageTypeGetter (camelCaseName (Message.Name msg)) otherMessage ;;
        Fprintln "") w)
    /\ (forall j, In j (memberIndicesFrom rest 2 0) -> 2 <= j)
    /\ messageRole (Message.Fields msg) = otherMessage
    /\ ~ In 1 (memberIndices (Message.Fields msg)).
Proof.
  intros ctx msg f0 f1 rest Hfields Hid Hci Hcx Hlow.
  assert (Hrole : messageRole (Message.Fields msg) = otherMessage).
  { rewrite Hfields. unfold messageRole. cbn [nth_error].
    apply String.eqb_neq in Hci, Hcx. now rewrite Hci, Hcx. }
  assert (Hidx : memberIndices (Message.Fields msg) = memberIndicesFrom rest 2 0).
  { assert (H0 : isInternalField f0 = true).
    { unfold isInternalField. apply String.eqb_eq in Hid. rewrite Hid. apply orb_true_r. }
    assert (H1 : isHeaderField f1 = true).
    { unfold isHeaderField.
      destruct Hlow as [He|He]; apply String.eqb_eq in He; rewrite He;
        [reflexivity | apply orb_true_r]. }
    rewrite Hfields. unfold memberIndices. cbn [memberIndicesFrom].
    rewrite H0, H1. cbn [andb Z.eqb]. now destruct (isInternalField f1). }
  assert (Hrange : forall j, In j (memberIndicesFrom rest 2 0) -> 2 <= j).
  { intros j Hj. apply memberIndicesFrom_range in Hj. lia. }
  split; [|split; [exact Hrange|split; [exact Hrole|]]].
  - intros w. rewrite generateMessage_eq, Hrole, Hidx. reflexivity.
  - rewrite Hidx. intros Hin. apply Hrange in Hin. lia.
Qed.

Lemma memberIndicesFrom_increasing (rest : list Field.t) :
  forall (i : nat) (n : Z) (pre post : list nat) (a b : nat),
    memberIndicesFrom rest i n = (pre ++ a :: post)%list -> In b post -> a < b.
Proof.
  induction rest as [|f rest IH]; intros i n pre post a b Heq Hb;
    cbn [memberIndicesFrom] in Heq.
  - now destruct pre.
  - destruct (isInternalField f); [now apply (IH _ _ _ _ _ _ Heq)|].
    destruct (isHeaderField f && (n =? 0)%Z); [now apply (IH _ _ _ _ _ _ Heq)|].
    destruct pre as [|x pre]; simpl in Heq; injection Heq as Hx Htail.
    + subst a. assert (Hin : In b (memberIndicesFrom rest (S i) (n + 1)))
        by now rewrite Htail.
      apply memberIndicesFrom_range in Hin. lia.
    + now apply (IH _ _ _ _ _ _ Htail).
Qed.

(** X12.  [generateMessage] writes the members of a message in the order of
    the fields and writes no field twice: the struct it writes is made of the
    calls of [generateField] on the indices of [memberIndices], one after
    the other, and in this list every index is an index of the slice and is
    smaller than the ones after it. *)
Theorem members_in_declaration_order :
  forall (ctx : context V) (msg : Message.t),
    let fields := Message.Fields msg in
    let name := camelCaseName (Message.Name msg) in
    (forall w,
       generateMessage ctx msg w =
       (generateComment ctx name (Message.Name msg) "message" ;;
        Fprintf ("type " ++ name ++ " struct {") ;;
        when (match memberIndices fields with [] => false | _ :: _ => true end)
          (Fprintln "") ;;
        forEach (generateField ctx fields) (memberIndices fields) ;;
        Fprintln "}" ;;
        generateMessageNameGetter name (Message.Name msg) ;;
        generateCrcGetter name (Message.CRC msg) ;;
        generateMessageTypeGetter name (messageRole fields) ;;
        Fprintln "") w)
    /\ emits (forEach (generateField ctx fields) (memberIndices fields))
             (concat (map (fieldChunksAt ctx fields) (memberIndices fields)))
    /\ (forall (pre post : list nat) (a : nat),
          memberIndices fields = (pre ++ a :: post)%list ->
          a < List.length fields /\ forall b, In b post -> a < b).
Proof.
  intros ctx msg fields name. subst fields name. split; [|split].
  - intros w. rewrite generateMessage_eq. unfold seq.
    destruct (generateComment _ _ _ _ w) as [w1|]; [|reflexivity].
    destruct (Fprintf _ w1) as [w2|]; [|reflexivity].
    unfold emitMembers.
    destruct (memberIndices (Message.Fields msg)) as [|j idxs]; reflexivity.
  - apply emits_fields, memberIndices_in_range.
  - intros pre post a Heq. split.
    + assert (Hin : In a (memberIndices (Message.Fields msg)))
        by (rewrite Heq; apply in_elt).
      apply memberIndicesFrom_range in Hin. lia.
    + intros b Hb.
      exact (memberIndicesFrom_increasing (Message.Fields msg) 0 0 pre post a b Heq Hb).
Qed.

(** ** More on the documentation extractor *)

Lemma generateComment_unfold (ctx : context V) (goName vppName objKind : string) (w : W) :
  generateComment ctx goName vppName objKind w =
  (Fprintf (summaryLine ctx goName vppName objKind) ;;
   if negb (includeComments ctx) then skip
   else
     generateCommentLoop (isMapKind objKind) (objTitleOf objKind vppName)
       (readLines (inputData ctx)) false 0 "" ;;
     Fprintln "//") w.
Proof.
  unfold generateComment, summaryLine, objTitleOf, isMapKind.
  destruct (objKind =? "service")%string, (objKind =? "alias")%string; reflexivity.
Qed.

Lemma emits_generateCommentLoop_untitled (mapType : bool) (objTitle : string)
    (lines : list string) :
  Forall (fun l => TrimSpace l <> objTitle) lines ->
  forall (indent0 : Z) (trimIndent0 : string),
    emits (generateCommentLoop mapType objTitle lines false indent0 trimIndent0)
          (map (titleEcho objTitle) (filter (containsTitle objTitle) lines)).
Proof.
  induction 1 as [|line lines Hline _ IH]; intros indent0 trimIndent0.
  - exact emits_skip.
  - cbn [generateCommentLoop negb filter]. unfold containsTitle at 1.
    destruct (Index line objTitle =? -1)%Z; cbn [negb].
    + apply IH.
    + apply String.eqb_neq in Hline. rewrite Hline.
      cbn [map]. apply (emits_seq _ _ [_]); [apply emits_Fprintf | apply IH].
Qed.

Lemma titleEcho_from_title (objTitle line : string) :
  containsTitle objTitle line = true ->
  exists a b, line = a ++ objTitle ++ b
              /\ titleEcho objTitle line = "//" ++ tab ++ objTitle ++ b.
Proof.
  unfold containsTitle. rewrite negb_true_iff, Z.eqb_neq. intros Hidx.
  destruct (Index_range line objTitle) as [|[Hlo _]]; [contradiction|].
  destruct (Index_split line objTitle Hlo) as (a & b & Hs & Hlen).
  exists a, b. split; [exact Hs|].
  unfold titleEcho, echoLine. rewrite <- Hlen. rewrite Hs at 1 2.
  now rewrite sliceTo_app, TrimPrefix_app.
Qed.

(** X13.  While the object is not found, every line that holds the title
    text without being the title line is echoed, from the title on; the lines
    without the title text are not.  So a mention of the title inside another
    line reaches the comment although the object is never found. *)
Theorem title_mentions_are_echoed :
  forall (mapType : bool) (objTitle : string) (lines : list string)
         (indent0 : Z) (trimIndent0 : string),
    Forall (fun l => TrimSpace l <> objTitle) lines ->
    emits (generateCommentLoop mapType objTitle lines false indent0 trimIndent0)
          (map (titleEcho objTitle) (filter (containsTitle objTitle) lines))
    /\ (forall l, containsTitle objTitle l = true ->
                  exists a b, l = a ++ objTitle ++ b
                              /\ titleEcho objTitle l = "//" ++ tab ++ objTitle ++ b).
Proof.
  intros mapType objTitle lines indent0 trimIndent0 Hlines. split.
  - now apply emits_generateCommentLoop_untitled.
  - apply titleEcho_from_title.
Qed.

Lemma emits_generateCommentLoop_absent (mapType : bool) (objTitle : string)
    (lines : list string) :
  Forall (fun l => Index l objTitle = (-1)%Z) lines ->
  forall (indent0 : Z) (trimIndent0 : string),
    emits (generateCommentLoop mapType objTitle lines false indent0 trimIndent0) [].
Proof.
  induction 1 as [|line lines Hline _ IH]; intros indent0 trimIndent0.
  - exact emits_skip.
  - cbn [generateCommentLoop negb]. rewrite Hline. cbn. apply IH.
Qed.

(** X14.  When the comments are not included, [generateComment] writes the
    summary line only.  When they are included and no line of the source
    text holds the title, it writes the summary line and one line [//]:
    nothing of the source text, and no error. *)
Theorem comment_without_source_lines :
  forall (ctx : context V) (goName vppName objKind : string),
    (includeComments ctx = false ->
     emits (generateComment ctx goName vppName objKind)
           [summaryLine ctx goName vppName objKind])
    /\ (includeComments ctx = true ->
        Forall (fun l => Index l (objTitleOf objKind vppName) = (-1)%Z)
               (readLines (inputData ctx)) ->
        emits (generateComment ctx goName vppName objKind)
              [summaryLine ctx goName vppName objKind; "//" ++ nl]).
Proof.
  intros ctx goName vppName objKind. split.
  - intros Hc w. rewrite generateComment_unfold, Hc. reflexivity.
  - intros Hc Habs w. rewrite generateComment_unfold, Hc. cbn [negb].
    unfold seq at 1. cbn [Fprintf]. unfold seq.
    rewrite (emits_generateCommentLoop_absent _ _ _ Habs). reflexivity.
Qed.

Lemma HasPrefix_nl (c : ascii) (s : string) :
  HasPrefix (String c s) nl = Ascii.eqb c (ascii_of_nat 10).
Proof.
  unfold HasPrefix, nl. cbn [stripPrefix]. rewrite Ascii.eqb_sym.
  destruct (Ascii.eqb c (ascii_of_nat 10)); [now destruct s | reflexivity].
Qed.

Lemma noNewline_cons (c : ascii) (s : string) :
  noNewline (String c s) <-> Ascii.eqb c (ascii_of_nat 10) = false /\ noNewline s.
Proof.
  unfold noNewline. rewrite (Index_unfold (String c s)), HasPrefix_nl.
  destruct (Ascii.eqb c (ascii_of_nat 10)).
  - split; [discriminate | intros [Hd _]; discriminate].
  - destruct (Index_range s nl) as [Hn|[Hlo Hhi]].
    + rewrite Hn. cbn. split; [now split | reflexivity].
    + replace (Index s nl <? 0)%Z with false by (symmetry; apply Z.ltb_ge; lia).
      split; [lia | intros [_ Hs]; lia].
Qed.

Lemma readLinesFrom_tail (s tail : string) :
  noNewline tail ->
  forall cur, readLinesFrom cur (s ++ tail) = readLinesFrom cur s.
Proof.
  intros Htail. induction s as [|c s IH]; intros cur; cbn [append readLinesFrom].
  - revert cur. induction tail as [|c tail IHt]; intros cur; [reflexivity|].
    apply noNewline_cons in Htail. destruct Htail as [Hc Ht].
    cbn [readLinesFrom]. rewrite Hc. now apply IHt.
  - destruct (Ascii.eqb c (ascii_of_nat 10)); [f_equal|]; apply IH.
Qed.

(** X15.  What follows the last newline of the source text is never looked
    at: with any bytes without newline appended to the source text,
    [generateComment] writes what it writes without them.  A title on a last
    line that has no newline is not found. *)
Theorem unterminated_last_line_ignored :
  forall (ctx : context V) (goName vppName objKind tail : string) (w : W),
    noNewline tail ->
    generateComment (withInputData ctx (inputData ctx ++ tail)) goName vppName objKind w
    = generateComment ctx goName vppName objKind w.
Proof.
  intros ctx goName vppName objKind tail w Htail.
  rewrite !generateComment_unfold.
  unfold withInputData, summaryLine. cbn [moduleName includeComments inputData].
  unfold readLines. now rewrite readLinesFrom_tail.
Qed.

Lemma string_of_list_ascii_app (l1 l2 : list ascii) :
  string_of_list_ascii (l1 ++ l2) = string_of_list_ascii l1 ++ string_of_list_ascii l2.
Proof. induction l1 as [|a l1 IH]; simpl; [reflexivity | now rewrite IH]. Qed.

Lemma readLinesFrom_line (body rest : string) :
  noNewline body ->
  forall cur,
    readLinesFrom cur (body ++ nl ++ rest)
    = (string_of_list_ascii (rev cur) ++ body ++ nl) :: readLines rest.
Proof.
  induction body as [|c body IH]; intros Hbody cur.
  - cbn. now rewrite string_of_list_ascii_app.
  - apply noNewline_cons in Hbody. destruct Hbody as [Hc Hb].
    cbn [append readLinesFrom]. rewrite Hc, (IH Hb). f_equal. cbn [rev].
    rewrite string_of_list_ascii_app, append_assoc_s. reflexivity.
Qed.

(** X16.  The loop of [generateComment] goes through the lines of the source
    text as they are, newline included, each once and in their order: a text
    made of lines, each ended by its newline, and of a last part without
    newline is read as these lines, and the last part is dropped. *)
Theorem source_lines_read_in_order :
  forall (lines : list string) (tail : string),
    Forall isLine lines ->
    noNewline tail ->
    readLines (String.concat "" lines ++ tail) = lines.
Proof.
  intros lines tail Hlines Htail. unfold readLines.
  induction Hlines as [|line lines [body [-> Hbody]] _ IH].
  - cbn [String.concat append]. rewrite (readLinesFrom_tail "" tail Htail). reflexivity.
  - assert (Hcat : String.concat "" ((body ++ nl) :: lines) ++ tail
                   = body ++ nl ++ String.concat "" lines ++ tail).
    { destruct lines as [|l lines]; cbn [String.concat].
      - now rewrite append_assoc_s.
      - cbn [append]. now rewrite !append_assoc_s. }
    rewrite Hcat, (readLinesFrom_line body _ Hbody). cbn [rev string_of_list_ascii append].
    f_equal. exact IH.
Qed.

(** ** More on the services and the header *)

Lemma emits_generateServiceMethod (ctx : context V) (svc : Service.t) :
  emits (generateServiceMethod ctx svc) [methodSignature svc (serviceReturns svc)].
Proof. intros w. reflexivity. Qed.

(** X17.  The method of a streaming service whose normalized request type
    ends with [Dump] is named with [Dump] moved to the front; the type of its
    parameter keeps the name as it is.  The method of any other service has
    the name of its request type. *)
Theorem dump_suffix_becomes_prefix :
  forall (ctx : context V) (svc : Service.t),
    emits (generateServiceMethod ctx svc)
      [tab ++ serviceMethodName svc ++ "(ctx context.Context, in *"
       ++ camelCaseName (Service.RequestType svc) ++ ") " ++ serviceReturns svc]
    /\ (Service.Stream svc = true ->
        forall p, camelCaseName (Service.RequestType svc) = p ++ "Dump" ->
                  serviceMethodName svc = "Dump" ++ p)
    /\ (Service.Stream svc = true ->
        HasSuffix (camelCaseName (Service.RequestType svc)) "Dump" = false ->
        serviceMethodName svc = camelCaseName (Service.RequestType svc))
    /\ (Service.Stream svc = false ->
        serviceMethodName svc = camelCaseName (Service.RequestType svc)).
Proof.
  intros ctx svc. split; [apply emits_generateServiceMethod|].
  unfold serviceMethodName. repeat split.
  - intros Hs p Hp. rewrite Hs, Hp. unfold TrimSuffix. rewrite stripSuffix_app.
    destruct (String.eqb_spec (p ++ "Dump") p) as [Heq|_]; [|reflexivity].
    apply (f_equal String.length) in Heq. rewrite length_append_s in Heq.
    simpl in Heq. lia.
  - intros Hs Hsuf. rewrite Hs. unfold TrimSuffix. unfold HasSuffix in Hsuf.
    destruct (stripSuffix _ "Dump"); [discriminate|].
    now rewrite String.eqb_refl.
  - intros Hs. now rewrite Hs.
Qed.

Lemma forEach_app {A : Type} (f : A -> Gen) (l1 l2 : list A) (w : W) :
  forEach f (l1 ++ l2) w = (forEach f l1 ;; forEach f l2) w.
Proof.
  revert w. induction l1 as [|x l1 IH]; intros w; cbn [app forEach]; [reflexivity|].
  unfold seq at 1 2 3. destruct (f x w) as [w1|]; [|reflexivity].
  rewrite IH. reflexivity.
Qed.

Lemma emitsWithin_emits (g : Gen) (mid : list string) : emits g mid -> emitsWithin g mid.
Proof.
  intros Hg. exists [], []. cbn [app]. now rewrite app_nil_r.
Qed.

Lemma emitsWithin_seq_r (g1 g2 : Gen) (mid : list string) :
  traced g1 -> emitsWithin g2 mid -> emitsWithin (g1 ;; g2) mid.
Proof.
  intros [c1 H1] (before & after & H2).
  exists (c1 ++ before)%list, after. rewrite <- app_assoc. now apply emits_seq.
Qed.

Lemma emitsWithin_seq_l (g1 g2 : Gen) (mid : list string) :
  emitsWithin g1 mid -> traced g2 -> emitsWithin (g1 ;; g2) mid.
Proof.
  intros (before & after & H1) [c2 H2].
  exists before, (after ++ c2)%list.
  replace (before ++ mid ++ after ++ c2)%list with ((before ++ mid ++ after) ++ c2)%list
    by (now rewrite <- !app_assoc).
  now apply emits_seq.
Qed.

Lemma emitsWithin_forEach {A : Type} (f : A -> Gen) (pre post : list A) (x : A)
    (mid : list string) :
  (forall y, traced (f y)) -> emitsWithin (f x) mid ->
  emitsWithin (forEach f (pre ++ x :: post)) mid.
Proof.
  intros Hf Hx.
  assert (Hw : emitsWithin (forEach f pre ;; f x ;; forEach f post) mid).
  { apply emitsWithin_seq_r; [now apply traced_forEach|].
    apply emitsWithin_seq_l; [exact Hx | now apply traced_forEach]. }
  destruct Hw as (before & after & Hw). exists before, after.
  intros w. rewrite forEach_app. exact (Hw w).
Qed.

(** X18.  For a streaming service the client method has the body that
    gathers the replies in a slice, whatever the reply type is.  When the
    normalized reply type is empty the signature of this method has the
    result [error] alone, while its body still returns two values. *)
Theorem stream_service_body :
  forall (ctx : context V) (pre post : list Service.t) (svc : Service.t),
    Service.Stream svc = true ->
    emitsWithin (generateServices ctx (pre ++ svc :: post))
      ("func (c *service) "
       :: methodSignature svc (serviceReturns svc)
       :: (" {" ++ nl)
       :: streamBodyChunks (camelCaseName (Service.ReplyType svc))
       ++ ["}" ++ nl; nl])
    /\ (camelCaseName (Service.ReplyType svc) = "" -> serviceReturns svc = "error").
Proof.
  intros ctx pre post svc Hs. split.
  - unfold generateServices.
    apply emitsWithin_seq_r; [apply traced_generateComment|].
    apply emitsWithin_seq_r; [apply traced_Fprintf|].
    apply emitsWithin_seq_r.
    { apply traced_forEach. intros s. apply traced_seq;
        [apply traced_generateServiceMethod | apply traced_Fprintln]. }
    do 10 (apply emitsWithin_seq_r; [traced_auto|]).
    apply emitsWithin_seq_l; [|apply traced_Fprintln].
    apply emitsWithin_forEach.
    + intros s. apply traced_seq; [apply traced_Fprintf|].
      apply traced_seq; [apply traced_generateServiceMethod|]. traced_auto.
    + apply emitsWithin_emits. rewrite Hs. intros w. reflexivity.
  - intros Hr. unfold serviceReturns. now rewrite Hr.
Qed.

(** X19.  The census of the header has no line for a kind without object;
    for one object the line has the name of the kind as it is, for more the
    name gets [es] when it ends with [s] and [s] otherwise. *)
Theorem census_line :
  forall (obj : string) (num : Z),
    ((num <= 0)%Z -> emits (printObjNum obj num) [])
    /\ (num = 1%Z ->
        emits (printObjNum obj num) [tab ++ fmt_3d num ++ " " ++ obj ++ nl])
    /\ ((1 < num)%Z -> forall p, obj = p ++ "s" ->
        emits (printObjNum obj num) [tab ++ fmt_3d num ++ " " ++ (obj ++ "es") ++ nl])
    /\ ((1 < num)%Z -> HasSuffix obj "s" = false ->
        emits (printObjNum obj num) [tab ++ fmt_3d num ++ " " ++ (obj ++ "s") ++ nl]).
Proof.
  intros obj num. unfold printObjNum. repeat split.
  - intros Hn. replace (0 <? num)%Z with false by (symmetry; apply Z.ltb_ge; lia).
    exact emits_skip.
  - intros ->. cbn. apply emits_Fprintf.
  - intros Hn p ->.
    replace (0 <? num)%Z with true by (symmetry; apply Z.ltb_lt; lia).
    replace (1 <? num)%Z with true by (symmetry; apply Z.ltb_lt; lia).
    rewrite HasSuffix_app. apply emits_Fprintf.
  - intros Hn Hsuf.
    replace (0 <? num)%Z with true by (symmetry; apply Z.ltb_lt; lia).
    replace (1 <? num)%Z with true by (symmetry; apply Z.ltb_lt; lia).
    rewrite Hsuf. apply emits_Fprintf.
Qed.

(** ** The role getter written for a message *)

Lemma emitsWithin_ext (g1 g2 : Gen) (mid : list string) :
  (forall w, g1 w = g2 w) -> emitsWithin g2 mid -> emitsWithin g1 mid.
Proof.
  intros Heq (before & after & Hg). exists before, after.
  intros w. rewrite Heq. apply Hg.
Qed.

(** Among the chunks that [generateMessage] writes are those of the getter
    [GetMessageType] for the role of the message. *)
Lemma generateMessage_writes_role_getter (ctx : context V) (msg : Message.t) :
  emitsWithin (generateMessage ctx msg)
    (roleGetterChunks (camelCaseName (Message.Name msg))
       (messageRole (Message.Fields msg))).
Proof.
  eapply emitsWithin_ext; [apply generateMessage_eq|].
  apply emitsWithin_seq_r; [apply traced_generateComment|].
  apply emitsWithin_seq_r; [apply traced_Fprintf|].
  apply emitsWithin_seq_r.
  { eapply traced_emits, emits_emitMembers. apply memberIndices_in_range. }
  apply emitsWithin_seq_r; [apply traced_Fprintln|].
  apply emitsWithin_seq_r; [apply traced_generateMessageNameGetter|].
  apply emitsWithin_seq_r; [apply traced_generateCrcGetter|].
  apply emitsWithin_seq_l; [|apply traced_Fprintln].
  apply emitsWithin_emits, emits_generateMessageTypeGetter.
Qed.

Lemma messageRole_short (fields : list Field.t) :
  List.length fields < 2 -> messageRole fields = otherMessage.
Proof.
  intros Hlen. unfold messageRole.
  destruct fields as [|f0 [|f1 rest]]; simpl in *; try reflexivity; lia.
Qed.

(** C10.  For a message with fewer than two fields the loop of
    [generateMessage] assigns the role Other, and [generateMessage] writes
    the getter [GetMessageType] that returns the constant of that role.  The
    role does not depend on the fields from the index 3 on: for a message
    that has at least three fields, the same message with fields appended is
    assigned the same role and [generateMessage] writes for it the getter of
    that same role. *)
Theorem role_of_short_and_extended_messages :
  forall (ctx : context V) (msg : Message.t) (extra : list Field.t) (w : W),
    let fields := Message.Fields msg in
    let name := camelCaseName (Message.Name msg) in
    let extended :=
      Message.mk (Message.Name msg) (Message.CRC msg) (fields ++ extra) in
    let written (m : Message.t) (role : MessageType) :=
      generateComment ctx name (Message.Name msg) "message" ;;
      Fprintf ("type " ++ name ++ " struct {") ;;
      emitMembers ctx (Message.Fields m) 0 (memberIndices (Message.Fields m)) ;;
      Fprintln "}" ;;
      generateMessageNameGetter name (Message.Name msg) ;;
      generateCrcGetter name (Message.CRC msg) ;;
      generateMessageTypeGetter name role ;;
      Fprintln "" in
    (List.length fields < 2 ->
       assignedRole ctx fields w = Some otherMessage
       /\ generateMessage ctx msg w = written msg otherMessage w
       /\ emitsWithin (generateMessage ctx msg)
            [ ("func (*" ++ name ++ ") GetMessageType() api.MessageType {") ++ nl;
              tab ++ "return api.OtherMessage" ++ nl;
              "}" ++ nl ]
       /\ forall structName,
            emits (generateMessageTypeGetter structName otherMessage)
              [ ("func (*" ++ structName ++ ") GetMessageType() api.MessageType {") ++ nl;
                tab ++ "return api.OtherMessage" ++ nl;
                "}" ++ nl ])
    /\ (3 <= List.length fields ->
        exists role,
          assignedRole ctx fields w = Some role
          /\ assignedRole ctx (fields ++ extra) w = Some role
          /\ generateMessage ctx msg w = written msg role w
          /\ generateMessage ctx extended w = written extended role w
          /\ emitsWithin (generateMessage ctx msg)
               [ ("func (*" ++ name ++ ") GetMessageType() api.MessageType {") ++ nl;
                 tab ++ "return " ++ roleConstant role ++ nl;
                 "}" ++ nl ]
          /\ emitsWithin (generateMessage ctx extended)
               [ ("func (*" ++ name ++ ") GetMessageType() api.MessageType {") ++ nl;
                 tab ++ "return " ++ roleConstant role ++ nl;
                 "}" ++ nl ]).
Proof.
  intros ctx msg extra w fields name extended written. split.
  - intros Hlen.
    assert (Hrole := messageRole_short fields Hlen).
    split; [|split; [|split]].
    + rewrite assignedRole_messageRole. now f_equal.
    + subst written. cbv beta. rewrite generateMessage_eq. fold fields name.
      now rewrite Hrole.
    + assert (Hw := generateMessage_writes_role_getter ctx msg).
      fold fields name in Hw. rewrite Hrole in Hw. exact Hw.
    + intros structName. apply (emits_generateMessageTypeGetter structName otherMessage).
  - intros Hlen. exists (messageRole fields).
    assert (Hext : messageRole (Message.Fields extended) = messageRole fields)
      by (apply messageRole_app; exact Hlen).
    split; [apply assignedRole_messageRole|].
    split; [rewrite assignedRole_messageRole; f_equal; now apply messageRole_app|].
    split; [subst written; cbv beta; now rewrite generateMessage_eq|].
    split.
    + subst written. cbv beta. rewrite generateMessage_eq.
      cbn [Message.Name Message.CRC]. fold name. now rewrite Hext.
    + split.
      * exact (generateMessage_writes_role_getter ctx msg).
      * assert (Hw := generateMessage_writes_role_getter ctx extended).
        cbn [Message.Name] in Hw. fold name in Hw. rewrite Hext in Hw. exact Hw.
Qed.

End Generator.

(** ** The properties on sample inputs

    The generator is run on a [bytes.Buffer] (and on a stream with little
    room) with the ASCII versions of Go's library functions and the stand-ins
    for the generator's other files. *)

Local Abbreviation runField :=
  (generateField (W := string) Z camelCaseModel convertToGoTypeModel).
Local Abbreviation sampleStrucTag :=
  (strucTag Z camelCaseModel convertToGoTypeModel).
Local Abbreviation runMessage :=
  (generateMessage (W := string) Z asciiQuote asciiToLower asciiTrimSpace asciiIndexNotSpace
     camelCaseModel convertToGoTypeModel
     crcFieldModel msgIdFieldModel clientIndexFieldModel contextFieldModel).
Local Abbreviation sampleMemberIndices :=
  (memberIndices asciiToLower
     crcFieldModel msgIdFieldModel clientIndexFieldModel contextFieldModel).
Local Abbreviation sampleRole := (messageRole clientIndexFieldModel contextFieldModel).
Local Abbreviation runPackage W :=
  (generatePackage (W := W) Z fmt_d asciiQuote asciiToLower asciiTrimSpace asciiIndexNotSpace
     camelCaseModel convertToGoTypeModel binapiTypesModel getUnionSizeModel
     crcFieldModel msgIdFieldModel clientIndexFieldModel contextFieldModel).

(** Against C1 as stated: [entries] names [count] in its size-from reference,
    and the field written for [entries] carries no tag at all; the tag
    [sizeof=Entries] is on [count]. *)
Lemma size_source_tag_not_on_array :
  Field.SizeFrom entriesField = Field.Name countField
  /\ sampleStrucTag sampleCtx [countField; entriesField] entriesField = None
  /\ sampleStrucTag sampleCtx [countField; entriesField] entriesField
     <> Some ("sizeof=" ++ camelCaseModel (Field.Name countField))
  /\ runField sampleCtx [countField; entriesField] 1 ""
     = Some (tab ++ "Entries []byte" ++ nl)
  /\ runField sampleCtx [countField; entriesField] 0 ""
     = Some (tab ++ "Count uint32" ++ tab ++ "`struc:" ++ dq ++ "sizeof=Entries" ++ dq
             ++ "`" ++ nl).
Proof.
  repeat split; try reflexivity. vm_compute. discriminate.
Qed.

Lemma sizeof_tag_on_referenced_field_witness :
  nth_error [countField; entriesField] 0 = Some countField
  /\ Field.SizeFrom entriesField = Field.Name countField
  /\ (Field.Length countField <= 0)%Z
  /\ sampleStrucTag sampleCtx [countField; entriesField] countField
     = Some "sizeof=Entries".
Proof.
  assert (Hlen : (Field.Length countField <= 0)%Z) by (vm_compute; discriminate).
  split; [reflexivity|]. split; [reflexivity|]. split; [exact Hlen|].
  destruct (sizeof_tag_on_referenced_field (W := string) Z camelCaseModel
              convertToGoTypeModel sampleCtx [countField] [] entriesField countField 0
              eq_refl eq_refl (Forall_nil _)) as (_ & Htag & _).
  exact (Htag Hlen).
Defined.

Lemma message_role_table_witness :
  clientIndexFieldModel <> contextFieldModel
  /\ sampleRole (Message.Fields requestSample) = requestMessage.
Proof.
  assert (Hne : clientIndexFieldModel <> contextFieldModel) by discriminate.
  split; [exact Hne|].
  destruct (message_role_table (W := string) Z asciiQuote asciiToLower asciiTrimSpace
              asciiIndexNotSpace camelCaseModel convertToGoTypeModel
              crcFieldModel msgIdFieldModel clientIndexFieldModel contextFieldModel
              sampleCtx requestSample Hne) as (_ & _ & _ & Hreq & _).
  exact (Hreq clientIndexSample contextSample eq_refl eq_refl eq_refl eq_refl).
Defined.

(** Against C3 as stated: the third field of the message is named [context],
    it comes after an ordinary member, and it is written as the member
    [Context] of the struct. *)
Lemma late_context_is_a_member :
  nth_error (Message.Fields lateContextSample) 2 = Some contextSample
  /\ Field.Name contextSample = contextFieldModel
  /\ sampleMemberIndices (Message.Fields lateContextSample) = [1; 2]
  /\ runMessage sampleCtx lateContextSample ""
     = Some ("// FooDetails represents VPP binary API message 'foo_details':" ++ nl
             ++ "type FooDetails struct {" ++ nl
             ++ tab ++ "Foo uint32" ++ nl
             ++ tab ++ "Context uint32" ++ nl
             ++ "}" ++ nl
             ++ "func (*FooDetails) GetMessageName() string {" ++ nl
             ++ tab ++ "return " ++ dq ++ "foo_details" ++ dq ++ nl
             ++ "}" ++ nl
             ++ "func (*FooDetails) GetCrcString() string {" ++ nl
             ++ tab ++ "return " ++ dq ++ "51077d14" ++ dq ++ nl
             ++ "}" ++ nl
             ++ "func (*FooDetails) GetMessageType() api.MessageType {" ++ nl
             ++ tab ++ "return api.OtherMessage" ++ nl
             ++ "}" ++ nl
             ++ nl).
Proof.
  repeat split; reflexivity.
Qed.

Lemma message_members_skip_rules_witness :
  Message.Fields lateContextSample = ([msgIdSample; fooSample] ++ contextSample :: [])%list
  /\ asciiToLower (Field.Name contextSample) = contextFieldModel
  /\ In 2 (sampleMemberIndices (Message.Fields lateContextSample))
  /\ ~ In 0 (sampleMemberIndices (Message.Fields lateContextSample)).
Proof.
  split; [reflexivity|]. split; [reflexivity|]. split.
  - destruct (message_members_skip_rules (W := string) Z asciiQuote asciiToLower
                asciiTrimSpace asciiIndexNotSpace camelCaseModel convertToGoTypeModel
                crcFieldModel msgIdFieldModel clientIndexFieldModel contextFieldModel
                sampleCtx lateContextSample [msgIdSample; fooSample] [] contextSample
                eq_refl) as (_ & _ & _ & Hhead & _).
    apply Hhead; try (vm_compute; discriminate).
    right. reflexivity.
  - destruct (message_members_skip_rules (W := string) Z asciiQuote asciiToLower
                asciiTrimSpace asciiIndexNotSpace camelCaseModel convertToGoTypeModel
                crcFieldModel msgIdFieldModel clientIndexFieldModel contextFieldModel
                sampleCtx lateContextSample [] [fooSample; contextSample] msgIdSample
                eq_refl) as (_ & _ & Hskip & _).
    apply Hskip. right. reflexivity.
Defined.

(** Against C4 as stated: the auxiliary field of [name] is [XXX_NameLen], not
    [NameLen]. *)
Lemma length_companion_is_prefixed :
  runField sampleCtx [nameField] 0 ""
  = Some (tab ++ "XXX_NameLen uint32 `struc:" ++ dq ++ "sizeof=Name" ++ dq ++ "`" ++ nl
          ++ tab ++ "Name string" ++ nl)
  /\ runField sampleCtx [nameField] 0 ""
     <> Some (tab ++ "NameLen uint32 `struc:" ++ dq ++ "sizeof=Name" ++ dq ++ "`" ++ nl
              ++ tab ++ "Name string" ++ nl).
Proof.
  split; [reflexivity|]. vm_compute. discriminate.
Qed.

Lemma string_field_length_companion_witness :
  nth_error [nameField] 0 = Some nameField
  /\ Field.Typ nameField = "string"
  /\ runField sampleCtx [nameField] 0 ""
     = Some (tab ++ "XXX_NameLen uint32 `struc:" ++ dq ++ "sizeof=Name" ++ dq ++ "`" ++ nl
             ++ tab ++ "Name string" ++ nl).
Proof.
  split; [reflexivity|]. split; [reflexivity|].
  exact (string_field_length_companion (W := string) Z camelCaseModel convertToGoTypeModel
           sampleCtx [nameField] 0 nameField eq_refl eq_refl "").
Defined.

Lemma fixed_array_tag_and_byte_witness :
  nth_error [dataField] 0 = Some dataField
  /\ (0 < Field.Length dataField)%Z
  /\ convertToGoTypeModel sampleCtx (Field.Typ dataField) = "uint8"
  /\ sampleStrucTag sampleCtx [dataField] dataField = Some "[16]byte"
  /\ runField sampleCtx [dataField] 0 ""
     = Some (tab ++ "Data []byte" ++ tab ++ "`struc:" ++ dq ++ "[16]byte" ++ dq ++ "`" ++ nl).
Proof.
  assert (Hlen : (0 < Field.Length dataField)%Z) by reflexivity.
  split; [reflexivity|]. split; [exact Hlen|]. split; [reflexivity|].
  destruct (fixed_array_tag_and_byte (W := string) Z camelCaseModel convertToGoTypeModel
              sampleCtx [dataField] 0 dataField eq_refl (or_introl Hlen))
    as (_ & _ & Hout & Htag).
  split; [exact (Htag Hlen) | exact (Hout "")].
Defined.

(** Against C6 as stated: on a stream with room for 60 bytes the second write
    of the module fails; [generatePackage] still returns [nil], it goes
    through all its 60 writes, and two newlines written after the failure
    are in the stream. *)
Lemma failed_write_not_reported :
  Write (mkLimited ("// Code generated by GoVPP binapi-generator. DO NOT EDIT." ++ nl) 2 1)
        ("// source: vpe.api.json" ++ nl)
  = (mkLimited ("// Code generated by GoVPP binapi-generator. DO NOT EDIT." ++ nl) 2 2,
     Some "short write")
  /\ runPackage LimitedStream sampleCtx (mkLimited "" 60 0)
     = Some (mkLimited ("// Code generated by GoVPP binapi-generator. DO NOT EDIT." ++ nl
                        ++ nl ++ nl) 0 60,
             None).
Proof.
  split; vm_compute; reflexivity.
Qed.

(** Against C7 as stated: the CRC [0x51077d14] is not returned as it is. *)
Lemma crc_getter_not_verbatim :
  generateCrcGetter (W := string) asciiQuote "ShowVersion" "0x51077d14" ""
  = Some ("func (*ShowVersion) GetCrcString() string {" ++ nl
          ++ tab ++ "return " ++ dq ++ "51077d14" ++ dq ++ nl
          ++ "}" ++ nl)
  /\ generateCrcGetter (W := string) asciiQuote "ShowVersion" "0x51077d14" ""
     <> Some (crcGetterText asciiQuote "ShowVersion" "0x51077d14").
Proof.
  split; [reflexivity|]. vm_compute. discriminate.
Qed.

Lemma crc_getter_trims_hex_prefix_witness :
  HasPrefix "51077d14" "0x" = false
  /\ generateCrcGetter (W := string) asciiQuote "ShowVersion" "51077d14" ""
     = Some (crcGetterText asciiQuote "ShowVersion" "51077d14")
  /\ generateCrcGetter (W := string) asciiQuote "ShowVersion" "0x51077d14" ""
     = Some (crcGetterText asciiQuote "ShowVersion" "51077d14").
Proof.
  split; [reflexivity|]. split.
  - exact (proj2 (crc_getter_trims_hex_prefix (W := string) asciiQuote
                    "ShowVersion" "51077d14") eq_refl "").
  - exact (proj1 (crc_getter_trims_hex_prefix (W := string) asciiQuote
                    "ShowVersion" "0x51077d14") "51077d14" eq_refl "").
Defined.

Lemma service_method_return_type_witness :
  (camelCaseModel (Service.ReplyType dumpServiceSample) = ""
   <-> Service.ReplyType dumpServiceSample = "")
  /\ generateServiceMethod (W := string) Z camelCaseModel sampleCtx dumpServiceSample ""
     = Some (tab ++ "DumpSwInterface(ctx context.Context, in *SwInterfaceDump) "
             ++ "([]*SwInterfaceDetails, error)").
Proof.
  assert (Hcamel : camelCaseModel (Service.ReplyType dumpServiceSample) = ""
                   <-> Service.ReplyType dumpServiceSample = "")
    by (split; intros Habs; vm_compute in Habs; discriminate).
  split; [exact Hcamel|].
  exact (proj1 (service_method_return_type (W := string) Z camelCaseModel
                  sampleCtx dumpServiceSample Hcamel) "").
Defined.

(** Against C9 as stated: for the alias [foo] the line after the definition is
    indented less than the title; the echo stops there and that line is not
    echoed. *)
Lemma outdented_line_not_echoed :
  asciiIndexNotSpace ("    }," ++ nl) = 4%Z
  /\ Index ("        " ++ dq ++ "foo" ++ dq ++ ": {" ++ nl) (dq ++ "foo" ++ dq ++ ": {") = 8%Z
  /\ generateComment (W := string) Z asciiTrimSpace asciiIndexNotSpace
       compactAliasCtx "Foo" "foo" "alias" ""
     = Some ("// Foo represents VPP binary API alias 'foo':" ++ nl
             ++ "//" ++ nl
             ++ "//" ++ tab ++ dq ++ "foo" ++ dq ++ ": {" ++ nl
             ++ "//" ++ tab ++ "    " ++ dq ++ "type" ++ dq ++ ": " ++ dq ++ "u8" ++ dq
             ++ " }" ++ nl
             ++ "//" ++ nl)
  /\ generateComment (W := string) Z asciiTrimSpace asciiIndexNotSpace
       compactAliasCtx "Foo" "foo" "alias" ""
     <> Some ("// Foo represents VPP binary API alias 'foo':" ++ nl
              ++ "//" ++ nl
              ++ "//" ++ tab ++ dq ++ "foo" ++ dq ++ ": {" ++ nl
              ++ "//" ++ tab ++ "    " ++ dq ++ "type" ++ dq ++ ": " ++ dq ++ "u8" ++ dq
              ++ " }" ++ nl
              ++ "//" ++ tab ++ "    }," ++ nl
              ++ "//" ++ nl).
Proof.
  repeat split; try reflexivity. vm_compute. discriminate.
Qed.

Lemma comment_echo_stops_witness :
  Index aliasTitleLine (dq ++ "foo" ++ dq ++ ": {") <> (-1)%Z
  /\ asciiTrimSpace aliasTitleLine = dq ++ "foo" ++ dq ++ ": {"
  /\ asciiIndexNotSpace aliasClosingLine = Index aliasTitleLine (dq ++ "foo" ++ dq ++ ": {")
  /\ generateCommentLoop (W := string) asciiTrimSpace asciiIndexNotSpace true
       (dq ++ "foo" ++ dq ++ ": {")
       (aliasTitleLine :: [aliasBodyLine] ++ aliasClosingLine :: [aliasNextLine])
       false 0 "" ""
     = Some ("//" ++ nl
             ++ "//" ++ tab ++ dq ++ "foo" ++ dq ++ ": {" ++ nl
             ++ "//" ++ tab ++ "    " ++ dq ++ "type" ++ dq ++ ": " ++ dq ++ "u8" ++ dq ++ nl
             ++ "//" ++ tab ++ "}," ++ nl).
Proof.
  assert (Hidx : Index aliasTitleLine (dq ++ "foo" ++ dq ++ ": {") <> (-1)%Z)
    by (vm_compute; discriminate).
  assert (Hpre : Forall (staysInside asciiIndexNotSpace true
                           (Index aliasTitleLine (dq ++ "foo" ++ dq ++ ": {")))
                        [aliasBodyLine]).
  { constructor; [|constructor].
    split; [vm_compute; discriminate | intros _; vm_compute; reflexivity]. }
  split; [exact Hidx|]. split; [reflexivity|]. split; [reflexivity|].
  destruct (comment_echo_stops (W := string) asciiTrimSpace asciiIndexNotSpace true
              (dq ++ "foo" ++ dq ++ ": {") aliasTitleLine [aliasBodyLine] [aliasNextLine]
              aliasClosingLine 0 "" Hidx eq_refl Hpre) as (_ & Hclose & _).
  exact (Hclose eq_refl eq_refl "").
Defined.

Lemma role_of_short_and_extended_messages_witness :
  List.length (Message.Fields pingSample) < 2
  /\ 3 <= List.length (Message.Fields requestSample)
  /\ runMessage sampleCtx pingSample ""
     = Some ("// Ping represents VPP binary API message 'ping':" ++ nl
             ++ "type Ping struct {}" ++ nl
             ++ "func (*Ping) GetMessageName() string {" ++ nl
             ++ tab ++ "return " ++ dq ++ "ping" ++ dq ++ nl
             ++ "}" ++ nl
             ++ "func (*Ping) GetCrcString() string {" ++ nl
             ++ tab ++ "return " ++ dq ++ "1a2b3c4d" ++ dq ++ nl
             ++ "}" ++ nl
             ++ "func (*Ping) GetMessageType() api.MessageType {" ++ nl
             ++ tab ++ "return api.OtherMessage" ++ nl
             ++ "}" ++ nl
             ++ nl)
  /\ emitsWithin (runMessage sampleCtx pingSample)
       [ "func (*Ping) GetMessageType() api.MessageType {" ++ nl;
         tab ++ "return api.OtherMessage" ++ nl;
         "}" ++ nl ]
  /\ exists role,
       emitsWithin (runMessage sampleCtx requestSample)
         [ "func (*ShowVersion) GetMessageType() api.MessageType {" ++ nl;
           tab ++ "return " ++ roleConstant role ++ nl;
           "}" ++ nl ]
       /\ emitsWithin
            (runMessage sampleCtx
               (Message.mk "show_version" "0x51077d14"
                  (Message.Fields requestSample ++ [fooSample])))
            [ "func (*ShowVersion) GetMessageType() api.MessageType {" ++ nl;
              tab ++ "return " ++ roleConstant role ++ nl;
              "}" ++ nl ].
Proof.
  assert (Hshort : List.length (Message.Fields pingSample) < 2) by (simpl; lia).
  assert (Hlong : 3 <= List.length (Message.Fields requestSample)) by (simpl; lia).
  split; [exact Hshort|]. split; [exact Hlong|].
  destruct (proj1 (role_of_short_and_extended_messages (W := string) Z asciiQuote
                     asciiToLower asciiTrimSpace asciiIndexNotSpace camelCaseModel
                     convertToGoTypeModel crcFieldModel msgIdFieldModel
                     clientIndexFieldModel contextFieldModel sampleCtx pingSample [] "")
                  Hshort) as (_ & Hrun & Hwithin & _).
  split; [exact Hrun|]. split; [exact Hwithin|].
  destruct (proj2 (role_of_short_and_extended_messages (W := string) Z asciiQuote
                     asciiToLower asciiTrimSpace asciiIndexNotSpace camelCaseModel
                     convertToGoTypeModel crcFieldModel msgIdFieldModel
                     clientIndexFieldModel contextFieldModel sampleCtx requestSample
                     [fooSample] "")
                  Hlong) as (role & _ & _ & _ & _ & Hmsg & Hext).
  exists role. split; [exact Hmsg | exact Hext].
Defined.

(** ** The further properties on sample inputs *)

Local Abbreviation runGetContext := (getContext Z asciiQuote unixBase unixJoin).

Lemma getContext_checks_extension_witness :
  HasSuffix "vpe.json" inputFileExt = false
  /\ runGetContext "vpe.json" "binapi"
     = Some (None, Some ("invalid input file name: " ++ dq ++ "vpe.json" ++ dq))
  /\ HasSuffix samplePath inputFileExt = true
  /\ HasSuffix (unixBase samplePath) inputFileExt = true
  /\ exists ctx, runGetContext samplePath "binapi" = Some (Some ctx, None)
                 /\ inputFile ctx = samplePath.
Proof.
  split; [reflexivity|]. split.
  - exact (proj1 (getContext_checks_extension Z asciiQuote unixBase unixJoin
                    "vpe.json" "binapi") eq_refl).
  - split; [reflexivity|]. split; [reflexivity|].
    exact (proj2 (getContext_checks_extension Z asciiQuote unixBase unixJoin
                    samplePath "binapi") eq_refl eq_refl).
Defined.

Lemma getContext_module_name_witness :
  runGetContext samplePath "binapi" = Some (Some vpeContext, None)
  /\ (exists rest, unixBase samplePath = moduleName vpeContext ++ "." ++ rest)
  /\ Index (moduleName vpeContext) "." = (-1)%Z.
Proof.
  assert (Hrun : runGetContext samplePath "binapi" = Some (Some vpeContext, None))
    by reflexivity.
  split; [exact Hrun|].
  exact (getContext_module_name Z asciiQuote unixBase unixJoin samplePath "binapi"
           vpeContext Hrun).
Defined.

Lemma getContext_package_name_witness :
  runGetContext interfacePath "binapi" = Some (Some interfaceContext, None)
  /\ moduleName interfaceContext = "interface"
  /\ packageName interfaceContext = "interfaces"
  /\ packageName interfaceContext <> "interface".
Proof.
  assert (Hrun : runGetContext interfacePath "binapi" = Some (Some interfaceContext, None))
    by reflexivity.
  split; [exact Hrun|]. split; [reflexivity|].
  destruct (getContext_package_name Z asciiQuote unixBase unixJoin interfacePath "binapi"
              interfaceContext Hrun) as (Hne & _ & Hi & _).
  split; [exact (Hi eq_refl) | exact Hne].
Defined.

Lemma generateField_panics_out_of_range_witness :
  List.length [countField; entriesField] <= 2
  /\ runField sampleCtx [countField; entriesField] 2 "" = None.
Proof.
  assert (Hlen : List.length [countField; entriesField] <= 2) by (simpl; lia).
  split; [exact Hlen|].
  exact (proj2 (generateField_panics_out_of_range (W := string) Z camelCaseModel
                  convertToGoTypeModel sampleCtx [countField; entriesField] 2 "") Hlen).
Defined.

Lemma scalar_field_plain_declaration_witness :
  nth_error [sampleField "flags" "u8" 0 ""] 0 = Some (sampleField "flags" "u8" 0 "")
  /\ runField sampleCtx [sampleField "flags" "u8" 0 ""] 0 ""
     = Some (tab ++ "Flags uint8" ++ nl).
Proof.
  split; [reflexivity|].
  refine (scalar_field_plain_declaration (W := string) Z camelCaseModel convertToGoTypeModel
            sampleCtx [sampleField "flags" "u8" 0 ""] 0 (sampleField "flags" "u8" 0 "")
            eq_refl _ eq_refl _ eq_refl _ "").
  - vm_compute. discriminate.
  - constructor; [discriminate | constructor].
  - vm_compute. discriminate.
Defined.

Lemma binapi_tag_cases_witness :
  nth_error [limitedScalarField] 0 = Some limitedScalarField
  /\ includeBinapiNames sampleCtx = false
  /\ includeBinapiNames namesCtx = true
  /\ (0 < FieldMeta.Limit (Field.Meta limitedScalarField))%Z
  /\ runField sampleCtx [limitedScalarField] 0 ""
     = Some (tab ++ "Tag uint8" ++ tab ++ "`binapi:" ++ dq ++ ",limit=64" ++ dq ++ "`" ++ nl)
  /\ runField namesCtx [limitedScalarField] 0 ""
     = Some (tab ++ "Tag uint8" ++ tab ++ "`binapi:" ++ dq ++ "tag,limit=64" ++ dq ++ "`"
             ++ nl).
Proof.
  assert (Hi : nth_error [limitedScalarField] 0 = Some limitedScalarField) by reflexivity.
  assert (Hlim : (0 < FieldMeta.Limit (Field.Meta limitedScalarField))%Z) by reflexivity.
  split; [exact Hi|]. split; [reflexivity|]. split; [reflexivity|].
  split; [exact Hlim|]. split.
  - destruct (binapi_tag_cases (W := string) Z camelCaseModel convertToGoTypeModel
                sampleCtx [limitedScalarField] 0 limitedScalarField Hi)
      as (_ & _ & Hcomma & _).
    exact (Hcomma eq_refl Hlim "").
  - destruct (binapi_tag_cases (W := string) Z camelCaseModel convertToGoTypeModel
                namesCtx [limitedScalarField] 0 limitedScalarField Hi)
      as (_ & Hboth & _).
    exact (Hboth eq_refl Hlim "").
Defined.

Lemma encoding_ignores_metadata_witness :
  encodingKey limitedField = encodingKey (sampleField "tag" "u8" 64 "")
  /\ map siblingKey [limitedField] = map siblingKey [sampleField "tag" "u8" 64 ""]
  /\ runField sampleCtx [limitedField] 0 ""
     = Some (tab ++ "Tag []byte" ++ tab ++ "`binapi:" ++ dq ++ ",limit=64" ++ dq
             ++ " struc:" ++ dq ++ "[64]byte" ++ dq ++ "`" ++ nl)
  /\ runField sampleCtx [sampleField "tag" "u8" 64 ""] 0 ""
     = Some (tab ++ "Tag []byte" ++ tab ++ "`struc:" ++ dq ++ "[64]byte" ++ dq ++ "`" ++ nl).
Proof.
  split; [reflexivity|]. split; [reflexivity|].
  destruct (encoding_ignores_metadata (W := string) Z camelCaseModel convertToGoTypeModel
              sampleCtx [limitedField] [sampleField "tag" "u8" 64 ""] 0 0 limitedField
              (sampleField "tag" "u8" 64 "") eq_refl eq_refl eq_refl eq_refl)
    as (Hfirst & Hsecond & _).
  split; [exact (Hfirst "") | exact (Hsecond "")].
Defined.

Lemma field_tags_in_key_order_witness :
  nth_error [limitedField] 0 = Some limitedField
  /\ binapiTag Z camelCaseModel convertToGoTypeModel namesCtx [limitedField] limitedField
     = Some "tag,limit=64"
  /\ strucTag Z camelCaseModel convertToGoTypeModel namesCtx [limitedField] limitedField
     = Some "[64]byte"
  /\ runField namesCtx [limitedField] 0 ""
     = Some (tab ++ "Tag []byte" ++ tab ++ "`binapi:" ++ dq ++ "tag,limit=64" ++ dq
             ++ " struc:" ++ dq ++ "[64]byte" ++ dq ++ "`" ++ nl).
Proof.
  split; [reflexivity|]. split; [reflexivity|]. split; [reflexivity|].
  exact (field_tags_in_key_order (W := string) Z camelCaseModel convertToGoTypeModel
           namesCtx [limitedField] 0 limitedField "tag,limit=64" "[64]byte"
           eq_refl eq_refl eq_refl "").
Defined.

Lemma type_members_written_witness :
  typeMembers asciiToLower crcFieldModel msgIdFieldModel (Typ.Fields typeSample)
  = [contextSample; dataField]
  /\ generateTypeLoop (W := string) Z asciiToLower camelCaseModel convertToGoTypeModel
       crcFieldModel msgIdFieldModel sampleCtx (Typ.Fields typeSample)
       (Typ.Fields typeSample) 0 ""
     = Some (tab ++ "Context uint32" ++ nl
             ++ tab ++ "Data []byte" ++ tab ++ "`struc:" ++ dq ++ "[16]byte" ++ dq ++ "`"
             ++ nl).
Proof.
  split; [reflexivity|].
  exact (proj1 (type_members_written (W := string) Z asciiToLower camelCaseModel
                  convertToGoTypeModel crcFieldModel msgIdFieldModel sampleCtx typeSample) "").
Defined.

Lemma leading_reserved_fields_omitted_witness :
  Message.Fields requestSample
  = ([msgIdSample; clientIndexSample; contextSample] ++ [])%list
  /\ sampleMemberIndices (Message.Fields requestSample) = []
  /\ runMessage sampleCtx requestSample ""
     = Some ("// ShowVersion represents VPP binary API message 'show_version':" ++ nl
             ++ "type ShowVersion struct {}" ++ nl
             ++ "func (*ShowVersion) GetMessageName() string {" ++ nl
             ++ tab ++ "return " ++ dq ++ "show_version" ++ dq ++ nl
             ++ "}" ++ nl
             ++ "func (*ShowVersion) GetCrcString() string {" ++ nl
             ++ tab ++ "return " ++ dq ++ "51077d14" ++ dq ++ nl
             ++ "}" ++ nl
             ++ "func (*ShowVersion) GetMessageType() api.MessageType {" ++ nl
             ++ tab ++ "return api.RequestMessage" ++ nl
             ++ "}" ++ nl
             ++ nl).
Proof.
  assert (Hall : Forall (fun f =>
                   isInternalField asciiToLower crcFieldModel msgIdFieldModel f = true
                   \/ isHeaderField asciiToLower clientIndexFieldModel contextFieldModel f
                      = true)
                   [msgIdSample; clientIndexSample; contextSample]).
  { repeat constructor; (now left) || (now right). }
  destruct (leading_reserved_fields_omitted (W := string) Z asciiQuote asciiToLower
              asciiTrimSpace asciiIndexNotSpace camelCaseModel convertToGoTypeModel
              crcFieldModel msgIdFieldModel clientIndexFieldModel contextFieldModel
              sampleCtx requestSample [msgIdSample; clientIndexSample; contextSample] []
              eq_refl Hall) as [Hidx Hrun].
  split; [reflexivity|]. split; [exact Hidx|].
  exact (Hrun eq_refl "").
Defined.

Lemma role_and_omission_use_different_tests_witness :
  asciiToLower (Field.Name msgIdSample) = msgIdFieldModel
  /\ Field.Name capitalSample <> clientIndexFieldModel
  /\ Field.Name capitalSample <> contextFieldModel
  /\ asciiToLower (Field.Name capitalSample) = clientIndexFieldModel
  /\ runMessage sampleCtx capitalMessageSample ""
     = Some ("// Capital represents VPP binary API message 'capital':" ++ nl
             ++ "type Capital struct {" ++ nl
             ++ tab ++ "Foo uint32" ++ nl
             ++ "}" ++ nl
             ++ "func (*Capital) GetMessageName() string {" ++ nl
             ++ tab ++ "return " ++ dq ++ "capital" ++ dq ++ nl
             ++ "}" ++ nl
             ++ "func (*Capital) GetCrcString() string {" ++ nl
             ++ tab ++ "return " ++ dq ++ "1a2b3c4d" ++ dq ++ nl
             ++ "}" ++ nl
             ++ "func (*Capital) GetMessageType() api.MessageType {" ++ nl
             ++ tab ++ "return api.OtherMessage" ++ nl
             ++ "}" ++ nl
             ++ nl)
  /\ sampleRole (Message.Fields capitalMessageSample) = otherMessage
  /\ ~ In 1 (sampleMemberIndices (Message.Fields capitalMessageSample)).
Proof.
  assert (Hci : Field.Name capitalSample <> clientIndexFieldModel) by discriminate.
  assert (Hcx : Field.Name capitalSample <> contextFieldModel) by discriminate.
  split; [reflexivity|]. split; [exact Hci|]. split; [exact Hcx|].
  split; [reflexivity|].
  destruct (role_and_omission_use_different_tests (W := string) Z asciiQuote asciiToLower
              asciiTrimSpace asciiIndexNotSpace camelCaseModel convertToGoTypeModel
              crcFieldModel msgIdFieldModel clientIndexFieldModel contextFieldModel
              sampleCtx capitalMessageSample msgIdSample capitalSample [fooSample]
              eq_refl eq_refl Hci Hcx (or_introl eq_refl))
    as (Hrun & _ & Hrole & Hout).
  split; [exact (Hrun "")|]. split; [exact Hrole | exact Hout].
Defined.

Lemma members_in_declaration_order_witness :
  sampleMemberIndices (Message.Fields lateContextSample) = ([] ++ 1 :: [2])%list
  /\ runMessage sampleCtx lateContextSample ""
     = Some ("// FooDetails represents VPP binary API message 'foo_details':" ++ nl
             ++ "type FooDetails struct {" ++ nl
             ++ tab ++ "Foo uint32" ++ nl
             ++ tab ++ "Context uint32" ++ nl
             ++ "}" ++ nl
             ++ "func (*FooDetails) GetMessageName() string {" ++ nl
             ++ tab ++ "return " ++ dq ++ "foo_details" ++ dq ++ nl
             ++ "}" ++ nl
             ++ "func (*FooDetails) GetCrcString() string {" ++ nl
             ++ tab ++ "return " ++ dq ++ "51077d14" ++ dq ++ nl
             ++ "}" ++ nl
             ++ "func (*FooDetails) GetMessageType() api.MessageType {" ++ nl
             ++ tab ++ "return api.OtherMessage" ++ nl
             ++ "}" ++ nl
             ++ nl)
  /\ 1 < List.length (Message.Fields lateContextSample)
  /\ forall b, In b [2] -> 1 < b.
Proof.
  destruct (members_in_declaration_order (W := string) Z asciiQuote asciiToLower
              asciiTrimSpace asciiIndexNotSpace camelCaseModel convertToGoTypeModel
              crcFieldModel msgIdFieldModel clientIndexFieldModel contextFieldModel
              sampleCtx lateContextSample) as (Hrun & _ & Horder).
  split; [reflexivity|]. split; [exact (Hrun "")|].
  exact (Horder [] [2] 1 eq_refl).
Defined.

Lemma title_mentions_are_echoed_witness :
  Forall (fun l => asciiTrimSpace l <> dq ++ "foo" ++ dq ++ ",") [otherLine; fieldMentionLine]
  /\ generateCommentLoop (W := string) asciiTrimSpace asciiIndexNotSpace false
       (dq ++ "foo" ++ dq ++ ",") [otherLine; fieldMentionLine] false 0 "" ""
     = Some ("//" ++ tab ++ dq ++ "foo" ++ dq ++ ", 2]," ++ nl).
Proof.
  assert (Hlines : Forall (fun l => asciiTrimSpace l <> dq ++ "foo" ++ dq ++ ",")
                          [otherLine; fieldMentionLine]).
  { repeat constructor; vm_compute; discriminate. }
  split; [exact Hlines|].
  exact (proj1 (title_mentions_are_echoed (W := string) asciiTrimSpace asciiIndexNotSpace
                  false (dq ++ "foo" ++ dq ++ ",") [otherLine; fieldMentionLine] 0 ""
                  Hlines) "").
Defined.

Lemma comment_without_source_lines_witness :
  includeComments compactAliasCtx = true
  /\ generateComment (W := string) Z asciiTrimSpace asciiIndexNotSpace compactAliasCtx
       "Bar" "bar" "alias" ""
     = Some ("// Bar represents VPP binary API alias 'bar':" ++ nl ++ "//" ++ nl)
  /\ includeComments sampleCtx = false
  /\ generateComment (W := string) Z asciiTrimSpace asciiIndexNotSpace sampleCtx
       "Bar" "bar" "alias" ""
     = Some ("// Bar represents VPP binary API alias 'bar':" ++ nl).
Proof.
  split; [reflexivity|]. split.
  - refine (proj2 (comment_without_source_lines (W := string) Z asciiTrimSpace
                     asciiIndexNotSpace compactAliasCtx "Bar" "bar" "alias") eq_refl _ "").
    repeat constructor.
  - split; [reflexivity|].
    exact (proj1 (comment_without_source_lines (W := string) Z asciiTrimSpace
                    asciiIndexNotSpace sampleCtx "Bar" "bar" "alias") eq_refl "").
Defined.

Lemma unterminated_last_line_ignored_witness :
  noNewline ("        " ++ dq ++ "bar" ++ dq ++ ": {")
  /\ generateComment (W := string) Z asciiTrimSpace asciiIndexNotSpace
       (withInputData Z compactAliasCtx
          (inputData compactAliasCtx ++ "        " ++ dq ++ "bar" ++ dq ++ ": {"))
       "Bar" "bar" "alias" ""
     = generateComment (W := string) Z asciiTrimSpace asciiIndexNotSpace compactAliasCtx
         "Bar" "bar" "alias" "".
Proof.
  assert (Htail : noNewline ("        " ++ dq ++ "bar" ++ dq ++ ": {")) by reflexivity.
  split; [exact Htail|].
  exact (unterminated_last_line_ignored (W := string) Z asciiTrimSpace asciiIndexNotSpace
           compactAliasCtx "Bar" "bar" "alias" _ "" Htail).
Defined.

Lemma source_lines_read_in_order_witness :
  Forall isLine [aliasTitleLine; aliasBodyLine; aliasClosingLine]
  /\ noNewline "}"
  /\ readLines (String.concat "" [aliasTitleLine; aliasBodyLine; aliasClosingLine] ++ "}")
     = [aliasTitleLine; aliasBodyLine; aliasClosingLine].
Proof.
  assert (Hlines : Forall isLine [aliasTitleLine; aliasBodyLine; aliasClosingLine]).
  { repeat constructor.
    - exists ("        " ++ dq ++ "foo" ++ dq ++ ": {"). split; reflexivity.
    - exists ("            " ++ dq ++ "type" ++ dq ++ ": " ++ dq ++ "u8" ++ dq).
      split; reflexivity.
    - exists "        },". split; reflexivity. }
  assert (Htail : noNewline "}") by reflexivity.
  split; [exact Hlines|]. split; [exact Htail|].
  exact (source_lines_read_in_order _ "}" Hlines Htail).
Defined.

Lemma dump_suffix_becomes_prefix_witness :
  Service.Stream dumpServiceSample = true
  /\ camelCaseModel (Service.RequestType dumpServiceSample) = "SwInterface" ++ "Dump"
  /\ serviceMethodName camelCaseModel dumpServiceSample = "Dump" ++ "SwInterface".
Proof.
  split; [reflexivity|]. split; [reflexivity|].
  destruct (dump_suffix_becomes_prefix (W := string) Z camelCaseModel sampleCtx
              dumpServiceSample) as (_ & Hdump & _).
  exact (Hdump eq_refl "SwInterface" eq_refl).
Defined.

Lemma stream_service_body_witness :
  Service.Stream streamNoReplySample = true
  /\ camelCaseModel (Service.ReplyType streamNoReplySample) = ""
  /\ serviceReturns camelCaseModel streamNoReplySample = "error"
  /\ emitsWithin (W := string)
       (generateServices Z asciiTrimSpace asciiIndexNotSpace camelCaseModel sampleCtx
          ([] ++ streamNoReplySample :: []))
       ("func (c *service) "
        :: methodSignature camelCaseModel streamNoReplySample "error"
        :: (" {" ++ nl)
        :: streamBodyChunks "" ++ ["}" ++ nl; nl]).
Proof.
  destruct (stream_service_body (W := string) Z asciiTrimSpace asciiIndexNotSpace
              camelCaseModel sampleCtx [] [] streamNoReplySample eq_refl) as [Hbody Hret].
  split; [reflexivity|]. split; [reflexivity|]. split; [exact (Hret eq_refl)|].
  exact Hbody.
Defined.

Lemma census_line_witness :
  (1 < 3)%Z
  /\ printObjNum (W := string) "alias" 3 "" = Some (tab ++ "  3 aliases" ++ nl)
  /\ printObjNum (W := string) "message" 3 "" = Some (tab ++ "  3 messages" ++ nl)
  /\ printObjNum (W := string) "union" 0 "" = Some "".
Proof.
  assert (Hn : (1 < 3)%Z) by reflexivity.
  split; [exact Hn|].
  destruct (census_line (W := string) "alias" 3) as (_ & _ & Hes & _).
  destruct (census_line (W := string) "message" 3) as (_ & _ & _ & Hs).
  destruct (census_line (W := string) "union" 0) as (Hnone & _).
  split; [exact (Hes Hn "alia" eq_refl "")|].
  split; [exact (Hs Hn eq_refl "") | refine (Hnone _ "")].
  vm_compute. discriminate.
Defined.
